(** * go-xiaozhi: the translating gateway, embedded and verified

    A shallow embedding of the parts of go-xiaozhi that carry its
    specification: the PCM resampler and the audio converter (package
    [audio]), the upstream event codec (package [openai] under
    [pkg/protocol]), the device event vocabulary (package [xiaozhi]) and the
    translating handler (package [openai] under [handler]).

    Conventions.
    - Go's [int], [int64] and [uint64] are [Z] with the wrap-around written
      out ([wrap_int], [wrap_uint64]); [int16] samples are [Z] wrapped by
      [wrap_int16]; [float64] is the kernel's binary64 [float].
    - A [[]byte] is a [list byte]; a Go [string] is a [string].
    - A Go call either returns, panics, or (for the loops whose trip count
      is decided by floating-point arithmetic) runs out of the fuel given to
      the model: [outcome].  A Go [(value, error)] pair is a [result].
    - Reads of the wall clock, fresh identifiers and the verdicts of external
      libraries (the JSON decoder, the websocket writer, the Opus codec) are
      inputs of the functions that consult them. *)

From Stdlib Require Import ZArith List String Ascii Bool Lia DecimalString.
From Stdlib.Strings Require Import Byte.
From Stdlib Require Import Floats.
Import ListNotations.

Open Scope string_scope.
Open Scope list_scope.
Open Scope Z_scope.

(** String concatenation, kept apart from list append. *)
Infix "+++" := String.append (at level 60, right associativity).

(* ================================================================== *)
(** * Go runtime conventions *)
(* ================================================================== *)

Module Go.

(** Signed 64-bit wrap-around ([int], [int64]). *)
Definition wrap_int (z : Z) : Z := (z + 2 ^ 63) mod 2 ^ 64 - 2 ^ 63.

(** Unsigned 64-bit wrap-around ([uint64]). *)
Definition wrap_uint64 (z : Z) : Z := z mod 2 ^ 64.

(** Signed 16-bit wrap-around ([int16]). *)
Definition wrap_int16 (z : Z) : Z := (z + 2 ^ 15) mod 2 ^ 16 - 2 ^ 15.

(** [len(s)] *)
Definition len {A : Type} (s : list A) : Z := Z.of_nat (List.length s).

(** [strconv.Itoa], also the rendering of an integer under [%v]. *)
Definition Itoa (z : Z) : string := NilZero.string_of_int (Z.to_int z).

(** The three ways a call can end. *)
Inductive outcome (A : Type) : Type :=
| Returns (a : A)
| Panics (msg : string)
| OutOfFuel.
Arguments Returns {A} a.
Arguments Panics {A} msg.
Arguments OutOfFuel {A}.

Definition bind {A B : Type} (m : outcome A) (k : A -> outcome B) : outcome B :=
  match m with
  | Returns a => k a
  | Panics msg => Panics msg
  | OutOfFuel => OutOfFuel
  end.

(** Two calls that end alike: both panic with one message, or both run out
    of fuel, or both return, the results being related by [R]. *)
Definition alike {A : Type} (R : A -> A -> Prop) (m1 m2 : outcome A) : Prop :=
  match m1, m2 with
  | Returns a1, Returns a2 => R a1 a2
  | Panics e1, Panics e2 => e1 = e2
  | OutOfFuel, OutOfFuel => True
  | _, _ => False
  end.

(** A Go [(value, error)] pair: on error the value is the zero value. *)
Inductive result (A : Type) : Type :=
| Ok (a : A)
| Err (e : string).
Arguments Ok {A} a.
Arguments Err {A} e.

(** [s[i]] with its bounds check. *)
Definition index {A : Type} (s : list A) (i : Z) : outcome A :=
  if (i <? 0) || (len s <=? i) then Panics "index out of range"
  else match nth_error s (Z.to_nat i) with
       | Some a => Returns a
       | None => Panics "index out of range"
       end.

(** [s[lo:hi]] for a slice whose capacity is its length. *)
Definition slice {A : Type} (s : list A) (lo hi : Z) : outcome (list A) :=
  if (lo <? 0) || (hi <? lo) || (len s <? hi) then Panics "slice bounds out of range"
  else Returns (firstn (Z.to_nat (hi - lo)) (skipn (Z.to_nat lo) s)).

Definition byte_to_Z (b : byte) : Z := Z.of_N (Byte.to_N b).

(** [byte(v)] for an integer [v]: the low eight bits. *)
Definition byte_of_Z (z : Z) : byte :=
  match Byte.of_N (Z.to_N (z mod 256)) with
  | Some b => b
  | None => x00
  end.

(** [float64(n)] for an integer [n]: round to nearest, ties to even. *)
Definition float64_of_Z (z : Z) : float :=
  SF2Prim (binary_normalize prec emax z 0 false).

(** The integer part of a finite float, towards zero. *)
Definition trunc_float (x : float) : option Z :=
  match Prim2SF x with
  | S754_zero _ => Some 0
  | S754_finite s m e =>
      let a := if 0 <=? e then Z.pos m * 2 ^ e else Z.pos m / 2 ^ (- e) in
      Some (if s then - a else a)
  | _ => None
  end.

(** [uint64(x)] for a float [x].  Go leaves the result open when the
    value does not fit; the model keeps the low 64 bits of the integer
    part and maps infinities and NaN to [2^63], as amd64 does. *)
Definition uint64_of_float (x : float) : Z :=
  match trunc_float x with
  | Some t => wrap_uint64 t
  | None => 2 ^ 63
  end.

(** [int16(x)] for a float [x], with the same convention. *)
Definition int16_of_float (x : float) : Z :=
  match trunc_float x with
  | Some t => wrap_int16 t
  | None => 0
  end.

(** The sign bit of a float is clear, or the float is NaN. *)
Definition plus_sign (f : spec_float) : bool :=
  match f with
  | S754_zero s | S754_infinity s | S754_finite s _ _ => negb s
  | S754_nan => true
  end.

End Go.

Import Go.

Declare Scope outcome_scope.
Delimit Scope outcome_scope with outcome.
Notation "x <- m ;; k" := (Go.bind m (fun x => k))
  (at level 61, m at next level, right associativity) : outcome_scope.
Notation "' p <- m ;; k" := (Go.bind m (fun p => k))
  (at level 61, p pattern, m at next level, right associativity) : outcome_scope.
Open Scope outcome_scope.

(* ================================================================== *)
(** * Package audio: the resampler *)
(* ================================================================== *)

Module audio.

(** [goResampler]: the caches are [nil] when empty. *)
Record goResampler : Type := mkResampler {
  channels : Z;
  isr : Z;
  osr : Z;
  lcache : list Z;
  rcache : list Z;
  lws : Z;
  rws : Z;
  lcs : Z;
  rcs : Z
}.

Definition NewGoResampler (channels sampleRate nSampleRate : Z) : result goResampler :=
  if (channels <? 1) || (2 <? channels) then Err ("invalid channels=" +++ Itoa channels)
  else if sampleRate <=? 0 then Err ("invalid sampleRate=" +++ Itoa sampleRate)
  else if nSampleRate <=? 0 then Err ("invalid nSampleRate=" +++ Itoa nSampleRate)
  else Ok (mkResampler channels sampleRate nSampleRate [] [] 0 0 0 0).

Definition GetRate (v : goResampler) : Z * Z * Z := (channels v, isr v, osr v).

(** ** The spline *)

Section Spline.
Local Open Scope float_scope.

Definition spline_z0 (m1 h0 x0 x1 y0 y1 x : float) : float :=
  let v0 := 0 in
  let v1 := (x - x0) * (x - x0) * (x - x0) * m1 / (6 * h0) in
  let v2 := (-1) * y0 * (x - x1) / h0 in
  let v3 := (y1 - h0 * h0 * m1 / 6) * (x - x0) / h0 in
  v0 + v1 + v2 + v3.

Definition spline_z1 (m1 m2 h1 x1 x2 y1 y2 x : float) : float :=
  let v0 := (-1) * (x - x2) * (x - x2) * (x - x2) * m1 / (6 * h1) in
  let v1 := (x - x1) * (x - x1) * (x - x1) * m2 / (6 * h1) in
  let v2 := (-1) * (y1 - h1 * h1 * m1 / 6) * (x - x2) / h1 in
  let v3 := (y2 - h1 * h1 * m2 / 6) * (x - x1) / h1 in
  v0 + v1 + v2 + v3.

Definition spline_z2 (m2 h2 x2 x3 y2 y3 x : float) : float :=
  let v0 := (-1) * (x - x3) * (x - x3) * (x - x3) * m2 / (6 * h2) in
  let v1 := 0 in
  let v2 := (-1) * (y2 - h2 * h2 * m2 / 6) * (x - x3) / h2 in
  let v3 := y3 * (x - x2) / h2 in
  v0 + v1 + v2 + v3.

Definition spline_m1 (c1 c2 u1 l2 : float) : float :=
  (c1 / u1 - c2 / 2) / (2 / u1 - l2 / 2).

Definition spline_m2 (c1 c2 u1 l2 : float) : float :=
  (c1 / 2 - c2 / l2) / (u1 / 2 - 2 / l2).

Definition spline_c1 (y0 y1 y2 h0 h1 : float) : float :=
  6 / (h0 + h1) * ((y2 - y1) / h1 - (y1 - y0) / h0).

Definition spline_c2 (y1 y2 y3 h1 h2 : float) : float :=
  6 / (h1 + h2) * ((y3 - y2) / h2 - (y2 - y1) / h1).

(** [spline_lu]: [(h0, h1, h2, l1, u1, l2, u2)]. *)
Definition spline_lu (x0 x1 x2 x3 : float)
  : float * float * float * float * float * float * float :=
  let h0 := x1 - x0 in
  let h1 := x2 - x1 in
  let h2 := x3 - x2 in
  let l1 := h0 / (h1 + h0) in
  let u1 := h1 / (h1 + h0) in
  let l2 := h1 / (h2 + h1) in
  let u2 := h2 / (h2 + h1) in
  (h0, h1, h2, l1, u1, l2, u2).

(** [spline(xi, yi, xo, yo)]: the result is the new contents of [yo]. *)
Definition spline (xi yi xo yo : list float) : result (list float) :=
  match xi, yi with
  | [x0; x1; x2; x3], [y0; y1; y2; y3] =>
      if (List.length xo =? 0)%nat then Err "invalid xo"
      else if negb (List.length yo =? List.length xo)%nat then Err "invalid yo"
      else
        let '(h0, h1, h2, _, u1, l2, _) := spline_lu x0 x1 x2 x3 in
        let c1 := spline_c1 y0 y1 y2 h0 h1 in
        let c2 := spline_c2 y1 y2 y3 h1 h2 in
        let m1 := spline_m1 c1 c2 u1 l2 in
        let m2 := spline_m2 c1 c2 u1 l2 in
        Ok (map (fun v =>
                   if v <=? x1 then spline_z0 m1 h0 x0 x1 y0 y1 v
                   else if v <=? x2 then spline_z1 m1 m2 h1 x1 x2 y1 y2 v
                   else spline_z2 m2 h2 x2 x3 y2 y3 v) xo)
  | [_; _; _; _], _ => Err "invalid yi"
  | _, _ => Err "invalid xi"
  end.
End Spline.

(** ** Channels in and out *)

(** The loop of [resampleInitChannel]: [i] runs from [2*channel] in steps
    of [2*channels]; each round reads the little-endian sample at [i]. *)
Fixpoint resampleInitChannel_loop (fuel : nat) (pcm : list byte) (i stride : Z)
    (ipcm : list Z) : outcome (list Z) :=
  match fuel with
  | O => OutOfFuel
  | S fuel' =>
      if i <? len pcm then
        b0 <- index pcm i ;;
        b1 <- index pcm (wrap_int (i + 1)) ;;
        let v := Z.lor (byte_to_Z b0) (wrap_int16 (Z.shiftl (byte_to_Z b1) 8)) in
        resampleInitChannel_loop fuel' pcm (wrap_int (i + stride)) stride (ipcm ++ [v])
      else Returns ipcm
  end.

(** [resampleInitChannel]: [None] is the [nil] slice of a channel that the
    buffer does not carry. *)
Definition resampleInitChannel (pcm : list byte) (channels channel : Z)
    : outcome (option (list Z)) :=
  if channels <=? channel then Returns None
  else
    ipcm <- resampleInitChannel_loop (S (List.length pcm)) pcm
              (wrap_int (2 * channel)) (wrap_int (2 * channels)) [] ;;
    Returns (Some ipcm).

(** [resampleMerge]: [right] may be [nil]. *)
Fixpoint resampleMerge_loop (left : list Z) (right : option (list Z)) (i : Z)
    (npcm : list byte) : outcome (list byte) :=
  match left with
  | [] => Returns npcm
  | v :: left' =>
      let npcm := npcm ++ [byte_of_Z v; byte_of_Z (Z.shiftr v 8)] in
      match right with
      | None => resampleMerge_loop left' right (i + 1) npcm
      | Some r =>
          w <- index r i ;;
          resampleMerge_loop left' right (i + 1)
            (npcm ++ [byte_of_Z w; byte_of_Z (Z.shiftr w 8)])
      end
  end.

Definition resampleMerge (left : list Z) (right : option (list Z)) : outcome (list byte) :=
  resampleMerge_loop left right 0 [].

(** ** One channel *)

(** The body of the loop of [resampleChannel] at position [x]: the sample
    it appends and the new value of [consumed]; an error of [spline] ends
    the call. *)
Definition resampleChannel_body (ipcm : list Z) (org : Z) (x : float)
    : outcome (result (Z * Z)) :=
  let xi0 := float64_of_Z (uint64_of_float x) in
  let xi := [xi0; (xi0 + 1)%float; (xi0 + 2)%float; (xi0 + 3)%float] in
  let yi0 := wrap_int (wrap_uint64 (uint64_of_float xi0 - org)) in
  s0 <- index ipcm yi0 ;;
  s1 <- index ipcm (wrap_int (yi0 + 1)) ;;
  s2 <- index ipcm (wrap_int (yi0 + 2)) ;;
  s3 <- index ipcm (wrap_int (yi0 + 3)) ;;
  let yi := [float64_of_Z s0; float64_of_Z s1; float64_of_Z s2; float64_of_Z s3] in
  match spline xi yi [x] [0%float] with
  | Err e => Returns (Err e)
  | Ok yo =>
      y <- index yo 0 ;;
      Returns (Ok (int16_of_float y,
                   wrap_int (wrap_int (wrap_uint64 (uint64_of_float x - org)) + 1)))
  end.

(** The loop [for x := x0; x < float64(last); x += step]. *)
Fixpoint resampleChannel_loop (fuel : nat) (ipcm : list Z) (org : Z)
    (step flast x : float) (opcm : list Z) (consumed : Z)
    : outcome (list Z * Z * option string) :=
  match fuel with
  | O => OutOfFuel
  | S fuel' =>
      if (x <? flast)%float then
        r <- resampleChannel_body ipcm org x ;;
        match r with
        | Err e => Returns (opcm, consumed, Some e)
        | Ok (s, consumed') =>
            resampleChannel_loop fuel' ipcm org step flast (x + step)%float
              (opcm ++ [s]) consumed'
        end
      else Returns (opcm, consumed, None)
  end.

(** [resampleChannel(ipcm, isr, osr, written, org)]:
    [(opcm, consumed, err)]. *)
Definition resampleChannel (fuel : nat) (ipcm : list Z) (isr osr written org : Z)
    : outcome (list Z * Z * option string) :=
  if len ipcm <=? 16 then Returns ([], 0, None)
  else
    let available := len ipcm - 16 in
    let step := (float64_of_Z isr / float64_of_Z osr)%float in
    let x0 := (step * float64_of_Z written)%float in
    let last := wrap_uint64 (org + wrap_uint64 available) in
    resampleChannel_loop fuel ipcm org step (float64_of_Z last) x0 [] 0.

(** ** Handle *)

Definition set_left (v : goResampler) (cache : list Z) (ws cs : Z) : goResampler :=
  mkResampler (channels v) (isr v) (osr v) cache (rcache v) ws (rws v) cs (rcs v).

Definition set_right (v : goResampler) (cache : list Z) (ws cs : Z) : goResampler :=
  mkResampler (channels v) (isr v) (osr v) (lcache v) cache (lws v) ws (lcs v) cs.

(** [ipcm[consumed:]] when [consumed < len(ipcm)], the cache as it is
    otherwise. *)
Definition keep_tail (cache ipcm : list Z) (consumed : Z) : outcome (list Z) :=
  if consumed <? len ipcm then slice ipcm consumed (len ipcm) else Returns cache.

(** [if v.lcache != nil { ipcmLeft = append(v.lcache, ipcmLeft...); v.lcache = nil }] *)
Definition insert_left (v : goResampler) (ipcmLeft : list Z) : list Z * goResampler :=
  match lcache v with
  | _ :: _ => (lcache v ++ ipcmLeft, set_left v [] (lws v) (lcs v))
  | [] => (ipcmLeft, v)
  end.

(** [if ipcmRight != nil && v.rcache != nil { ... }] *)
Definition insert_right (v : goResampler) (ipcmRight : option (list Z))
    : option (list Z) * goResampler :=
  match ipcmRight, rcache v with
  | Some r, _ :: _ => (Some (rcache v ++ r), set_right v [] (rws v) (rcs v))
  | _, _ => (ipcmRight, v)
  end.

(** The right channel of [Handle]; [None] when the buffer is mono. *)
Definition Handle_right (fuel : nat) (v : goResampler) (ipcmRight : option (list Z))
    : outcome (goResampler * result (option (list Z))) :=
  match ipcmRight with
  | None => Returns (v, Ok None)
  | Some ipcmR =>
      '(opcmRight, consumed, err) <-
         resampleChannel fuel ipcmR (isr v) (osr v) (rws v) (rcs v) ;;
      match err with
      | Some e => Returns (v, Err e)
      | None =>
          cache <- keep_tail (rcache v) ipcmR consumed ;;
          Returns (set_right v cache
                     (wrap_uint64 (rws v + wrap_uint64 (len opcmRight)))
                     (wrap_uint64 (rcs v + wrap_uint64 consumed)),
                   Ok (Some opcmRight))
      end
  end.

Definition Handle (fuel : nat) (v : goResampler) (pcm : list byte)
    : outcome (goResampler * result (list byte)) :=
  if len pcm =? 0 then Returns (v, Err "empty pcm")
  else if wrap_int (2 * channels v) =? 0 then Panics "integer divide by zero"
  else if negb (Z.rem (len pcm) (wrap_int (2 * channels v)) =? 0) then
    Returns (v, Err ("invalid pcm, should mod(" +++ Itoa (wrap_int (2 * channels v)) +++ ")"))
  else if isr v =? osr v then Returns (v, Ok pcm)
  else
    let nbSamles := Z.quot (Z.quot (len pcm) 2) (channels v) in
    if nbSamles <? 4 then
      Returns (v, Err ("invalid pcm, atleast 4samples, actual " +++ Itoa nbSamles +++ "samples"))
    else
      left <- resampleInitChannel pcm (channels v) 0 ;;
      ipcmRight <- resampleInitChannel pcm (channels v) 1 ;;
      let ipcmLeft := match left with Some l => l | None => [] end in
      if match ipcmRight with
         | Some r => negb (len ipcmLeft =? len r)
         | None => false
         end
      then
        Returns (v, Err ("invalid pcm, L" +++ Itoa (len ipcmLeft) +++ "!=" +++
                         Itoa (match ipcmRight with Some r => len r | None => 0 end)))
      else
(* Insert the cache at the beginning. *)
let '(ipcmLeft, v) := insert_left v ipcmLeft in
let '(ipcmRight, v) := insert_right v ipcmRight in
(* Resample all channels *)
'(opcmLeft, consumed, err) <-
   resampleChannel fuel ipcmLeft (isr v) (osr v) (lws v) (lcs v) ;;
match err with
| Some e => Returns (v, Err e)
| None =>
    cache <- keep_tail (lcache v) ipcmLeft consumed ;;
    let v := set_left v cache
               (wrap_uint64 (lws v + wrap_uint64 (len opcmLeft)))
               (wrap_uint64 (lcs v + wrap_uint64 consumed)) in
    '(v, r) <- Handle_right fuel v ipcmRight ;;
    match r with
    | Err e => Returns (v, Err e)
    | Ok opcmRight =>
        npcm <- resampleMerge opcmLeft opcmRight ;;
        Returns (v, Ok npcm)
    end
end.

(** ** The converter *)

Definition DeviceOpusRate24k : Z := 24000.
Definition DefaultDownPcmSR : Z := 24000.
Definition DefaultUpPcmSR : Z := 24000.

(** [gain(input, f)].  The factor is a [float32] in the source; its two
    call sites pass the constants 3 and 8, and the [float32] product of an
    [int16] sample with either is exact, so the model multiplies integers. *)
Definition MaxInt16 : Z := 32767.
Definition MinInt16 : Z := -32768.

Definition gain (input : list Z) (f : Z) : list Z :=
  map (fun sample =>
         let adjustedSample := sample * f in
         if adjustedSample >? MaxInt16 then MaxInt16
         else if adjustedSample <? MinInt16 then MinInt16
         else wrap_int16 adjustedSample) input.

(** [bytesToInt16]: little-endian samples until the reader is exhausted; a
    trailing odd byte makes [binary.Read] fail with "unexpected EOF", and
    the function then returns [nil]. *)
Fixpoint bytesToInt16_loop (b : list byte) (result : list Z) : list Z :=
  match b with
  | [] => result
  | [_] => []
  | b0 :: b1 :: rest =>
      bytesToInt16_loop rest (result ++ [wrap_int16 (byte_to_Z b0 + 256 * byte_to_Z b1)])
  end.

Definition bytesToInt16 (b : list byte) : list Z := bytesToInt16_loop b [].

(** [int16ToBytes] *)
Definition int16ToBytes (s : list Z) : list byte :=
  flat_map (fun v => [byte_of_Z v; byte_of_Z (Z.shiftr v 8)]) s.

Section Converter.

(** The Opus codec and base64 are libraries outside the repository.
    [Encode enc pcm] is [enc.Encode(pcm, data)] on a fresh 2048-byte [data]:
    the encoder afterwards, [data[:n]] and the error. [opus_decode rate
    bytes] is a fresh decoder's [Decode]. *)
Variable Encoder : Type.
Variable NewEncoder : Z -> Z -> result Encoder.
Variable Encode : Encoder -> list Z -> Encoder * list byte * option string.
Variable opus_decode : Z -> list byte -> result (list Z).
Variable b64encode : list byte -> string.
Variable b64decode : string -> result (list byte).

(** [Converter], without the fields the translating path never reads
    ([Decoder], [gainConfig]) and without [cb], which the model passes to
    the functions that call it. *)
Record Converter : Type := mkConverter {
  SampleRate : Z;
  DownSampleRate : Z;
  Channels : Z;
  FrameSize : Z;
  FrameDuration : Z;
  DownDuration : Z;
  upReSampler : goResampler;
  downReSampler : goResampler;
  delta : list Z;
  Encoder_ : Encoder
}.

Definition NewConverter (sampleRate channels frameDuration frameSize : Z)
    : outcome Converter :=
  match NewGoResampler channels sampleRate DefaultUpPcmSR with
  | Err e => Panics e
  | Ok upSampler =>
      match NewGoResampler channels DefaultDownPcmSR DeviceOpusRate24k with
      | Err e => Panics e
      | Ok downSampler =>
          match NewEncoder DeviceOpusRate24k 1 with
          | Err e => Panics e
          | Ok enc =>
              Returns (mkConverter sampleRate DeviceOpusRate24k channels frameSize
                         frameDuration frameDuration upSampler downSampler [] enc)
          end
      end
  end.

(** [opus2pcm] on a receiver that may be the nil pointer. *)
Definition opus2pcm (c : option Converter) (audioData : list byte)
    : outcome (result (list byte)) :=
  if len audioData =? 0 then Returns (Ok [])
  else
    match c with
    | None => Panics "invalid memory address or nil pointer dereference"
    | Some c =>
        match opus_decode (SampleRate c) audioData with
        | Err e => Returns (Err e)
        | Ok pcm => Returns (Ok (int16ToBytes (gain pcm 3)))
        end
    end.

Definition set_upReSampler (c : Converter) (r : goResampler) : Converter :=
  mkConverter (SampleRate c) (DownSampleRate c) (Channels c) (FrameSize c)
    (FrameDuration c) (DownDuration c) r (downReSampler c) (delta c) (Encoder_ c).

(** [OpusToPcmBase64] on a receiver that may be the nil pointer. *)
Definition OpusToPcmBase64 (fuel : nat) (c : option Converter) (opusData : list byte)
    : outcome (option Converter * result string) :=
  if len opusData =? 0 then Returns (c, Err "empty opus data")
  else
    r <- opus2pcm c opusData ;;
    match r with
    | Err e => Returns (c, Err ("opus decode failed, err: " +++ e))
    | Ok pcmData =>
        match c with
        | None => Panics "invalid memory address or nil pointer dereference"
        | Some c =>
            '(up, r) <- Handle fuel (upReSampler c) pcmData ;;
            let c := set_upReSampler c up in
            match r with
            | Err e => Returns (Some c, Err ("upReSampler handle failed, err: " +++ e))
            | Ok resampledData => Returns (Some c, Ok (b64encode resampledData))
            end
        end
    end.

(** The callback of a converter acts on the state [S] of whoever installed
    it; its error is ignored by the converter, its panic is not. *)
Section Emit.
Variable S : Type.
Variable cb : list byte -> S -> outcome (S * option string).

(** The loop [for i := 0; i < len(c.delta); i += chunk] of [parseFrames]. *)
Fixpoint parseFrames_loop (fuel : nat) (enc : Encoder) (delta : list Z) (i chunk : Z)
    (s : S) : outcome (Encoder * S) :=
  match fuel with
  | O => OutOfFuel
  | Datatypes.S fuel' =>
      if i <? len delta then
        pcm <- slice delta i (wrap_int (i + chunk)) ;;
        let '(enc, frame, _) := Encode enc pcm in
        '(s, _) <- cb frame s ;;
        parseFrames_loop fuel' enc delta (wrap_int (i + chunk)) chunk s
      else Returns (enc, s)
  end.

(** The converter once [c.delta] has been reassigned, with the encoder as
    the loop left it. *)
Definition set_delta (c : Converter) (rest : list Z) (enc : Encoder) : Converter :=
  mkConverter (SampleRate c) (DownSampleRate c) (Channels c) (FrameSize c)
    (FrameDuration c) (DownDuration c) (upReSampler c) (downReSampler c) rest enc.

Definition frame_chunk (c : Converter) : Z :=
  Z.quot (wrap_int (DownDuration c * DownSampleRate c)) 1000.

Definition parseFrames (c : Converter) (audioDelta : list byte) (s : S)
    : outcome (Converter * S) :=
  let delta := delta c ++ gain (bytesToInt16 audioDelta) 8 in
  let chunk := frame_chunk c in
  if chunk =? 0 then Panics "integer divide by zero"
  else
    '(rest, delta) <-
       (if negb (Z.rem (len delta) chunk =? 0) then
          rest <- slice delta (len delta - Z.rem (len delta) chunk) (len delta) ;;
          delta <- slice delta 0 (len delta - Z.rem (len delta) chunk) ;;
          Returns (rest, delta)
        else Returns ([], delta)) ;;
    '(enc, s) <- parseFrames_loop (Datatypes.S (List.length delta)) (Encoder_ c) delta 0 chunk s ;;
    Returns (set_delta c rest enc, s).

(** [ResolvePCM] on a receiver that may be the nil pointer. *)
Definition ResolvePCM (c : option Converter) (base64Str : string) (s : S)
    : outcome (option Converter * S * option string) :=
  match b64decode base64Str with
  | Err e => Returns (c, s, Some ("base64 decode failed, err: " +++ e))
  | Ok delta =>
      match c with
      | None => Panics "invalid memory address or nil pointer dereference"
      | Some c =>
          '(c, s) <- parseFrames c delta s ;;
          Returns (Some c, s, None)
      end
  end.

(** The reading of the specification, to compare [parseFrames] with: the
    first [n] pieces of [chunk] consecutive samples of a buffer, ... *)
Definition chunks_of (buf : list Z) (chunk : Z) (n : nat) : list (list Z) :=
  map (fun k => firstn (Z.to_nat chunk) (skipn (k * Z.to_nat chunk) buf)) (seq 0 n).

(** ... each encoded in turn and handed to the callback. *)
Fixpoint deliver (enc : Encoder) (chunks : list (list Z)) (s : S) : outcome (Encoder * S) :=
  match chunks with
  | [] => Returns (enc, s)
  | pcm :: chunks' =>
      let '(enc, frame, _) := Encode enc pcm in
      '(s, _) <- cb frame s ;;
      deliver enc chunks' s
  end.

End Emit.
End Converter.

(** A stand-in for the Opus encoder, to run examples with: its state counts
    the calls and a frame is the PCM bytes it was given. *)
Definition pcm_Encode (enc : nat) (pcm : list Z) : nat * list byte * option string :=
  (Datatypes.S enc, int16ToBytes pcm, None).

(** A callback that records the frames it is handed. *)
Definition log_frame (frame : list byte) (s : list (list byte))
    : outcome (list (list byte) * option string) :=
  Returns (s ++ [frame], None).

(** A converter for 20 ms frames holding 100 leftover samples. *)
Definition example_converter : Converter nat :=
  mkConverter nat 16000 24000 1 320 20 20
    (mkResampler 1 16000 24000 [] [] 0 0 0 0)
    (mkResampler 1 24000 24000 [] [] 0 0 0 0)
    (repeat 5 100) 0%nat.

Arguments SampleRate {Encoder} c.
Arguments DownSampleRate {Encoder} c.
Arguments Channels {Encoder} c.
Arguments FrameSize {Encoder} c.
Arguments FrameDuration {Encoder} c.
Arguments DownDuration {Encoder} c.
Arguments upReSampler {Encoder} c.
Arguments downReSampler {Encoder} c.
Arguments delta {Encoder} c.
Arguments Encoder_ {Encoder} c.
Arguments frame_chunk {Encoder} c.
Arguments set_delta {Encoder} c rest enc.

(** The rates, the counters and the number [n] of samples at hand are in
    the range where [float64] holds every integer exactly. *)
Definition small (isr osr ws cs n : Z) : Prop :=
  0 < isr < 2 ^ 53 /\ 0 < osr < 2 ^ 53 /\ 0 <= ws < 2 ^ 53 /\ 0 <= cs /\ cs + n < 2 ^ 53.

(** The positions the loop of [resampleChannel] visits: [x0], [x0 + step],
    [x0 + step + step], ... *)
Fixpoint position (step x0 : float) (k : nat) : float :=
  match k with
  | O => x0
  | S k' => (position step x0 k' + step)%float
  end.

(** What one channel of a successful [Handle] does, [ipcm] being the old
    cache followed by the new samples of the channel, [opcm] the samples
    written and [consumed] the value [resampleChannel] returns.
    - One sample is written for each position below
      [org + len(ipcm) - 16], up to the first position that is not below
      it; nothing is written when [ipcm] has at most sixteen samples.
    - [consumed] is one more than the index of the input sample under the
      last position sampled, and [0] when nothing is written; the new cache
      is [ipcm] without its first [consumed] samples.
    - The written counter advances by [len(opcm)] and the consumed counter
      by [consumed], modulo [2^64]; neither decreases unless it wraps.
    - Where [float64] is exact ([small]), the cache keeps all of up to
      sixteen samples and at least sixteen of more.  When nothing is
      written it keeps everything, which for more than sixteen samples is
      at most [16 + (q - cs)], [q] being the integer part of the first
      position; when something is written it keeps at most [17 + t]
      samples, [t] being the integer part of [step]. *)
Definition channel_step (isr osr : Z) (ipcm cache' opcm : list Z)
    (ws ws' cs cs' consumed : Z) : Prop :=
  let step := (float64_of_Z isr / float64_of_Z osr)%float in
  let x0 := (step * float64_of_Z ws)%float in
  let flast := float64_of_Z (wrap_uint64 (cs + wrap_uint64 (len ipcm - 16))) in
  let k := List.length opcm in
  (if len ipcm <=? 16 then k = 0%nat
   else (forall j, (j < k)%nat -> (position step x0 j <? flast)%float = true) /\
        (position step x0 k <? flast)%float = false) /\
  consumed = match k with
             | O => 0
             | S j => wrap_int (wrap_int (wrap_uint64
                                 (uint64_of_float (position step x0 j) - cs)) + 1)
             end /\
  0 <= consumed /\
  cache' = (if consumed <? len ipcm then skipn (Z.to_nat consumed) ipcm else []) /\
  ws' = wrap_uint64 (ws + len opcm) /\
  cs' = wrap_uint64 (cs + consumed) /\
  (0 <= ws -> ws + len opcm < 2 ^ 64 -> ws <= ws') /\
  (0 <= cs -> cs + consumed < 2 ^ 64 -> cs <= cs') /\
  (small isr osr ws cs (len ipcm) ->
   consumed = len ipcm - len cache' /\
   cs' = cs + consumed /\
   Z.min 16 (len ipcm) <= len cache' <= len ipcm /\
   (k = 0%nat -> cache' = ipcm) /\
   (forall q, k = 0%nat -> 16 < len ipcm -> trunc_float x0 = Some q ->
              len cache' <= 16 + (q - cs)) /\
   (forall t, k <> 0%nat -> trunc_float step = Some t -> cs + len ipcm + t < 2 ^ 53 ->
              len cache' <= 17 + t)).

(** What [NewGoResampler] guarantees of the fields that never change. *)
Definition well_formed (v : goResampler) : Prop :=
  1 <= channels v <= 2 /\ 0 < isr v /\ 0 < osr v.

(** A fresh mono resampler from 16 kHz to 24 kHz, and a stereo one. *)
Definition mono_16k_24k : goResampler := mkResampler 1 16000 24000 [] [] 0 0 0 0.
Definition stereo_16k_24k : goResampler := mkResampler 2 16000 24000 [] [] 0 0 0 0.

(** A mono resampler from 16 kHz to 24 kHz that has written seven samples
    and consumed four, with sixteen samples in its cache, and seven samples
    of output. *)
Definition after_ramp : goResampler :=
  mkResampler 1 16000 24000
    [1052; 1315; 1578; 1841; 2104; 2367; 2630; 2893;
     3156; 3419; 3682; 3945; 4208; 4471; 4734; 4997] [] 7 0 4 0.

Definition ramp_output : list byte :=
  [x00; x00; xaf; x00; x5e; x01; x0e; x02; xbd; x02; x6c; x03; x1c; x04].

(** [n] little-endian samples [0, 263, 526, ...], one channel. *)
Definition ramp (n : nat) : list byte :=
  flat_map (fun k => [byte_of_Z (Z.of_nat k * 7); byte_of_Z (Z.of_nat k)]) (seq 0 n).

(** ** The other PCM codecs of the converter *)

(** [Pcm16encode]: little-endian samples for as long as [binary.Read]
    succeeds; the loop breaks on any error, so a trailing odd byte is left
    out and the samples read so far are returned. *)
Fixpoint Pcm16encode_loop (data : list byte) (pcm : list Z) : list Z :=
  match data with
  | b0 :: b1 :: rest =>
      Pcm16encode_loop rest (pcm ++ [wrap_int16 (byte_to_Z b0 + 256 * byte_to_Z b1)])
  | _ => pcm
  end.

Definition Pcm16encode (data : list byte) : list Z := Pcm16encode_loop data [].

(** [Pcm16decode] *)
Definition Pcm16decode (pcm : list Z) : list byte :=
  flat_map (fun sample => [byte_of_Z sample; byte_of_Z (Z.shiftr sample 8)]) pcm.

(** ** Vocabulary of the further results *)

(** A value in the range of [int16]. *)
Definition int16 (z : Z) : Prop := MinInt16 <= z <= MaxInt16.

(** The sample [resampleInitChannel] reads for channel [ch] out of one
    frame of interleaved bytes. *)
Definition sample_of (ch : Z) (frame : list byte) : Z :=
  Z.lor (byte_to_Z (nth (Z.to_nat (2 * ch)) frame x00))
        (wrap_int16 (Z.shiftl (byte_to_Z (nth (Z.to_nat (2 * ch + 1)) frame x00)) 8)).

(** Both channels of a stereo resampler stand at the same place. *)
Definition lockstep (v : goResampler) : Prop :=
  len (lcache v) = len (rcache v) /\ lws v = rws v /\ lcs v = rcs v.

End audio.

(* ================================================================== *)
(** * Package openai (pkg/protocol/openai): the upstream events *)
(* ================================================================== *)

Module openai.

(** A JSON value, for the fields the source types as [any]. *)
#[local] Set Warnings "-register-all".
Inductive json : Type :=
| JNull
| JBool (b : bool)
| JNumber (n : Z)
| JString (s : string)
| JArray (items : list json)
| JObject (members : list (string * json)).

(** ** Shared resources *)

Definition Inf : Z := 2 ^ 63 - 1.

Record TurnDetection : Type := mkTurnDetection {
  TurnDetection_Type : string;
  Threshold : float;
  PrefixPaddingMs : Z;
  SilenceDurationMs : Z
}.

Record ToolFunction : Type := mkToolFunction { ToolFunction_Name : string }.

Record ToolChoice : Type := mkToolChoice {
  ToolChoice_Type : string;
  ToolChoice_Function : ToolFunction
}.

Definition ToolChoiceAuto : string := "auto".
Definition ToolChoiceNone : string := "none".
Definition ToolChoiceRequired : string := "required".
Definition ToolTypeFunction : string := "function".

Record Tool : Type := mkTool {
  Tool_Type : string;
  Tool_Name : string;
  Tool_Description : string;
  Tool_Parameters : json
}.

Record MessageContentPart : Type := mkMessageContentPart {
  Part_Type : string;
  Part_Text : option string;
  Part_Audio : option string;
  Part_Transcript : option string;
  Part_RawText : option string
}.

Record MessageItem : Type := mkMessageItem {
  Item_ID : string;
  Item_Type : string;
  Item_Status : string;
  Item_Role : string;
  Item_Content : list MessageContentPart
}.

Record ResponseMessageItem : Type := mkResponseMessageItem {
  Item_MessageItem : MessageItem;
  Item_Object : string
}.

Record Error : Type := mkError {
  Error_Message : string;
  Error_Type : string;
  Error_Code : string;
  Error_Param : string;
  Error_EventID : string
}.

(** [ServerToolChoice]: a string or a function choice. *)
Record ServerToolChoice : Type := mkServerToolChoice {
  String_ : string;
  Function_ : ToolChoice
}.

Record ServerSession : Type := mkServerSession {
  Session_ID : string;
  Session_Object : string;
  Session_Model : string;
  Session_Modalities : list string;
  Session_Instructions : string;
  Session_Voice : string;
  Session_InputAudioFormat : string;
  Session_OutputAudioFormat : string;
  Session_InputAudioTranscription : option string;
  Session_TurnDetection : option TurnDetection;
  Session_Tools : list Tool;
  Session_ToolChoice : option ServerToolChoice;
  Session_Temperature : float;
  Session_MaxOutputTokens : Z
}.

Record Conversation : Type := mkConversation {
  Conversation_ID : string;
  Conversation_Object : string
}.

Record CachedTokensDetails : Type := mkCachedTokensDetails {
  Cached_TextTokens : Z;
  Cached_AudioTokens : Z
}.

Record InputTokenDetails : Type := mkInputTokenDetails {
  Input_CachedTokens : Z;
  Input_TextTokens : Z;
  Input_AudioTokens : Z;
  Input_CachedTokensDetails : option CachedTokensDetails
}.

Record OutputTokenDetails : Type := mkOutputTokenDetails {
  Output_TextTokens : Z;
  Output_AudioTokens : Z
}.

Record Usage : Type := mkUsage {
  TotalTokens : Z;
  InputTokens : Z;
  OutputTokens : Z;
  Usage_InputTokenDetails : option InputTokenDetails;
  Usage_OutputTokenDetails : option OutputTokenDetails
}.

Record Response : Type := mkResponse {
  Response_ID : string;
  Response_Object : string;
  Response_Status : string;
  Response_StatusDetails : json;
  Response_Output : list ResponseMessageItem;
  Response_Usage : option Usage
}.

Record RateLimit : Type := mkRateLimit {
  RateLimit_Name : string;
  RateLimit_Limit : Z;
  RateLimit_Remaining : Z;
  RateLimit_ResetSeconds : float
}.

(** ** Server events *)

Definition ServerEventTypeError := "error".
Definition ServerEventTypeSessionCreated := "session.created".
Definition ServerEventTypeSessionUpdated := "session.updated".
Definition ServerEventTypeConversationCreated := "conversation.created".
Definition ServerEventTypeInputAudioBufferCommitted := "input_audio_buffer.committed".
Definition ServerEventTypeInputAudioBufferCleared := "input_audio_buffer.cleared".
Definition ServerEventTypeInputAudioBufferSpeechStarted := "input_audio_buffer.speech_started".
Definition ServerEventTypeInputAudioBufferSpeechStopped := "input_audio_buffer.speech_stopped".
Definition ServerEventTypeConversationItemCreated := "conversation.item.created".
Definition ServerEventTypeConversationItemInputAudioTranscriptionCompleted :=
  "conversation.item.input_audio_transcription.completed".
Definition ServerEventTypeConversationItemInputAudioTranscriptionFailed :=
  "conversation.item.input_audio_transcription.failed".
Definition ServerEventTypeConversationItemTruncated := "conversation.item.truncated".
Definition ServerEventTypeConversationItemDeleted := "conversation.item.deleted".
Definition ServerEventTypeResponseCreated := "response.created".
Definition ServerEventTypeResponseCancelled := "response.cancelled".
Definition ServerEventTypeResponseDone := "response.done".
Definition ServerEventTypeResponseOutputItemAdded := "response.output_item.added".
Definition ServerEventTypeResponseOutputItemDone := "response.output_item.done".
Definition ServerEventTypeResponseContentPartAdded := "response.content_part.added".
Definition ServerEventTypeResponseContentPartDone := "response.content_part.done".
Definition ServerEventTypeResponseTextDelta := "response.text.delta".
Definition ServerEventTypeResponseTextDone := "response.text.done".
Definition ServerEventTypeResponseAudioTranscriptDelta := "response.audio_transcript.delta".
Definition ServerEventTypeResponseAudioTranscriptDone := "response.audio_transcript.done".
Definition ServerEventTypeResponseAudioDelta := "response.audio.delta".
Definition ServerEventTypeResponseAudioDone := "response.audio.done".
Definition ServerEventTypeResponseFunctionCallArgumentsDelta :=
  "response.function_call_arguments.delta".
Definition ServerEventTypeResponseFunctionCallArgumentsDone :=
  "response.function_call_arguments.done".
Definition ServerEventTypeRateLimitsUpdated := "rate_limits.updated".

Record ServerEventBase : Type := mkServerEventBase {
  EventID : string;
  Type_ : string
}.

(** The position of a content part: [ResponseID], [ItemID], [OutputIndex],
    [ContentIndex], as five of the response events declare them. *)
Record PartPosition : Type := mkPartPosition {
  ResponseID : string;
  ItemID : string;
  OutputIndex : Z;
  ContentIndex : Z
}.

(** The server events, one constructor per struct of the source, with the
    fields in the order of their declaration. *)
Inductive ServerEvent : Type :=
| ErrorEvent (b : ServerEventBase) (Error_ : Error)
| SessionCreatedEvent (b : ServerEventBase) (Session : ServerSession)
| SessionUpdatedEvent (b : ServerEventBase) (Session : ServerSession)
| ConversationCreatedEvent (b : ServerEventBase) (Conversation_ : Conversation)
| InputAudioBufferCommittedEvent (b : ServerEventBase) (PreviousItemID ItemID : string)
| InputAudioBufferClearedEvent (b : ServerEventBase)
| InputAudioBufferSpeechStartedEvent (b : ServerEventBase) (AudioStartMs : Z) (ItemID : string)
| InputAudioBufferSpeechStoppedEvent (b : ServerEventBase) (AudioEndMs : Z) (ItemID : string)
| ConversationItemCreatedEvent (b : ServerEventBase) (PreviousItemID : string)
    (Item : ResponseMessageItem)
| ConversationItemInputAudioTranscriptionCompletedEvent (b : ServerEventBase)
    (ItemID : string) (ContentIndex : Z) (Transcript : string)
| ConversationItemInputAudioTranscriptionFailedEvent (b : ServerEventBase)
    (ItemID : string) (ContentIndex : Z) (Error_ : Error)
| ConversationItemTruncatedEvent (b : ServerEventBase)
    (ItemID : string) (ContentIndex AudioEndMs : Z)
| ConversationItemDeletedEvent (b : ServerEventBase) (ItemID : string)
| ResponseCreatedEvent (b : ServerEventBase) (Response_ : Response)
| ResponseDoneEvent (b : ServerEventBase) (Response_ : Response)
| ResponseCancelledEvent (b : ServerEventBase)
| ResponseOutputItemAddedEvent (b : ServerEventBase) (ResponseID : string)
    (OutputIndex : Z) (Item : ResponseMessageItem)
| ResponseOutputItemDoneEvent (b : ServerEventBase) (ResponseID : string)
    (OutputIndex : Z) (Item : ResponseMessageItem)
| ResponseContentPartAddedEvent (b : ServerEventBase) (at_ : PartPosition)
    (Part : MessageContentPart)
| ResponseContentPartDoneEvent (b : ServerEventBase) (at_ : PartPosition)
    (Part : MessageContentPart)
| ResponseTextDeltaEvent (b : ServerEventBase) (at_ : PartPosition) (Delta : string)
| ResponseTextDoneEvent (b : ServerEventBase) (at_ : PartPosition) (Text : string)
| ResponseAudioTranscriptDeltaEvent (b : ServerEventBase) (at_ : PartPosition) (Delta : string)
| ResponseAudioTranscriptDoneEvent (b : ServerEventBase) (at_ : PartPosition)
    (Transcript : string)
| ResponseAudioDeltaEvent (b : ServerEventBase) (at_ : PartPosition) (Delta : string)
| ResponseAudioDoneEvent (b : ServerEventBase) (at_ : PartPosition)
| ResponseFunctionCallArgumentsDeltaEvent (b : ServerEventBase)
    (ResponseID ItemID : string) (OutputIndex : Z) (CallID Delta : string)
| ResponseFunctionCallArgumentsDoneEvent (b : ServerEventBase)
    (ResponseID ItemID : string) (OutputIndex : Z) (CallID Arguments Name : string)
| RateLimitsUpdatedEvent (b : ServerEventBase) (RateLimits : list RateLimit).

(** The struct types of [ServerEventInterface]. *)
Inductive ServerEventStruct : Type :=
| TErrorEvent | TSessionCreatedEvent | TSessionUpdatedEvent | TConversationCreatedEvent
| TInputAudioBufferCommittedEvent | TInputAudioBufferClearedEvent
| TInputAudioBufferSpeechStartedEvent | TInputAudioBufferSpeechStoppedEvent
| TConversationItemCreatedEvent
| TConversationItemInputAudioTranscriptionCompletedEvent
| TConversationItemInputAudioTranscriptionFailedEvent
| TConversationItemTruncatedEvent | TConversationItemDeletedEvent
| TResponseCancelledEvent | TResponseCreatedEvent | TResponseDoneEvent
| TResponseOutputItemAddedEvent | TResponseOutputItemDoneEvent
| TResponseContentPartAddedEvent | TResponseContentPartDoneEvent
| TResponseTextDeltaEvent | TResponseTextDoneEvent
| TResponseAudioTranscriptDeltaEvent | TResponseAudioTranscriptDoneEvent
| TResponseAudioDeltaEvent | TResponseAudioDoneEvent
| TResponseFunctionCallArgumentsDeltaEvent | TResponseFunctionCallArgumentsDoneEvent
| TRateLimitsUpdatedEvent.

(** ** Client events *)

Definition ClientEventTypeSessionUpdate := "session.update".
Definition ClientEventTypeInputAudioBufferAppend := "input_audio_buffer.append".
Definition ClientEventTypeInputAudioBufferCommit := "input_audio_buffer.commit".
Definition ClientEventTypeInputAudioBufferClear := "input_audio_buffer.clear".
Definition ClientEventTypeConversationItemCreate := "conversation.item.create".
Definition ClientEventTypeConversationItemTruncate := "conversation.item.truncate".
Definition ClientEventTypeConversationItemDelete := "conversation.item.delete".
Definition ClientEventTypeResponseCreate := "response.create".
Definition ClientEventTypeResponseCancel := "response.cancel".

Definition ModalityText := "text".
Definition ModalityAudio := "audio".
Definition AudioFormatPcm16 := "pcm16".
Definition ClientTurnDetectionTypeServerVad := "server_vad".

Record ClientEventBase : Type := mkClientEventBase {
  Client_EventID : string;
  Client_Type : string;
  Client_Extra : option string
}.

Record ClientSession : Type := mkClientSession {
  Modalities : list string;
  Instructions : option string;
  Voice : option string;
  InputAudioFormat : option string;
  OutputAudioFormat : option string;
  InputAudioTranscription : option string;
  TurnDetection_ : option TurnDetection;
  Tools : list Tool;
  ToolChoice_ : option json;
  Temperature : option float;
  MaxOutputTokens : option Z;
  History : list MessageItem;
  BuiltInTools : list string
}.

Record ResponseCreateParams : Type := mkResponseCreateParams {
  Params_Modalities : list string;
  Params_Instructions : option string;
  Params_Voice : option string;
  Params_OutputAudioFormat : option string;
  Params_Tools : list Tool;
  Params_ToolChoice : option json;
  Params_Temperature : option float;
  Params_MaxOutputTokens : option Z;
  Params_VoiceClone : option (string * string);
  Params_BuiltInTools : list string;
  Params_History : list MessageItem
}.

Inductive ClientEvent : Type :=
| SessionUpdateEvent (b : ClientEventBase) (Session : ClientSession)
| InputAudioBufferAppendEvent (b : ClientEventBase) (Audio : string)
| InputAudioBufferCommitEvent (b : ClientEventBase) (Transcript Language : string)
| InputAudioBufferClearEvent (b : ClientEventBase)
| ConversationItemCreateEvent (b : ClientEventBase) (PreviousItemID : string)
    (Item : MessageItem)
| ConversationItemTruncateEvent (b : ClientEventBase) (ItemID : string)
    (ContentIndex AudioEndMs : Z)
| ConversationItemDeleteEvent (b : ClientEventBase) (ItemID : string)
| ResponseCreateEvent (b : ClientEventBase) (Response_ : ResponseCreateParams)
| ResponseCancelEvent (b : ClientEventBase).

(** The [ClientEventType] methods of the event structs. *)
Definition ClientEventType (ev : ClientEvent) : string :=
  match ev with
  | SessionUpdateEvent _ _ => ClientEventTypeSessionUpdate
  | InputAudioBufferAppendEvent _ _ => ClientEventTypeInputAudioBufferAppend
  | InputAudioBufferCommitEvent _ _ _ => ClientEventTypeInputAudioBufferCommit
  | InputAudioBufferClearEvent _ => ClientEventTypeInputAudioBufferClear
  | ConversationItemCreateEvent _ _ _ => ClientEventTypeConversationItemCreate
  | ConversationItemTruncateEvent _ _ _ _ => ClientEventTypeConversationItemTruncate
  | ConversationItemDeleteEvent _ _ => ClientEventTypeConversationItemDelete
  | ResponseCreateEvent _ _ => ClientEventTypeResponseCreate
  | ResponseCancelEvent _ => ClientEventTypeResponseCancel
  end.

Definition base_of (ev : ServerEvent) : ServerEventBase :=
  match ev with
  | ErrorEvent b _ | SessionCreatedEvent b _ | SessionUpdatedEvent b _
  | ConversationCreatedEvent b _ | InputAudioBufferCommittedEvent b _ _
  | InputAudioBufferClearedEvent b | InputAudioBufferSpeechStartedEvent b _ _
  | InputAudioBufferSpeechStoppedEvent b _ _ | ConversationItemCreatedEvent b _ _
  | ConversationItemInputAudioTranscriptionCompletedEvent b _ _ _
  | ConversationItemInputAudioTranscriptionFailedEvent b _ _ _
  | ConversationItemTruncatedEvent b _ _ _ | ConversationItemDeletedEvent b _
  | ResponseCreatedEvent b _ | ResponseDoneEvent b _ | ResponseCancelledEvent b
  | ResponseOutputItemAddedEvent b _ _ _ | ResponseOutputItemDoneEvent b _ _ _
  | ResponseContentPartAddedEvent b _ _ | ResponseContentPartDoneEvent b _ _
  | ResponseTextDeltaEvent b _ _ | ResponseTextDoneEvent b _ _
  | ResponseAudioTranscriptDeltaEvent b _ _ | ResponseAudioTranscriptDoneEvent b _ _
  | ResponseAudioDeltaEvent b _ _ | ResponseAudioDoneEvent b _
  | ResponseFunctionCallArgumentsDeltaEvent b _ _ _ _ _
  | ResponseFunctionCallArgumentsDoneEvent b _ _ _ _ _ _
  | RateLimitsUpdatedEvent b _ => b
  end.

Definition with_base (ev : ServerEvent) (b : ServerEventBase) : ServerEvent :=
  match ev with
  | ErrorEvent _ e => ErrorEvent b e
  | SessionCreatedEvent _ s => SessionCreatedEvent b s
  | SessionUpdatedEvent _ s => SessionUpdatedEvent b s
  | ConversationCreatedEvent _ c => ConversationCreatedEvent b c
  | InputAudioBufferCommittedEvent _ p i => InputAudioBufferCommittedEvent b p i
  | InputAudioBufferClearedEvent _ => InputAudioBufferClearedEvent b
  | InputAudioBufferSpeechStartedEvent _ a i => InputAudioBufferSpeechStartedEvent b a i
  | InputAudioBufferSpeechStoppedEvent _ a i => InputAudioBufferSpeechStoppedEvent b a i
  | ConversationItemCreatedEvent _ p i => ConversationItemCreatedEvent b p i
  | ConversationItemInputAudioTranscriptionCompletedEvent _ i c t =>
      ConversationItemInputAudioTranscriptionCompletedEvent b i c t
  | ConversationItemInputAudioTranscriptionFailedEvent _ i c e =>
      ConversationItemInputAudioTranscriptionFailedEvent b i c e
  | ConversationItemTruncatedEvent _ i c a => ConversationItemTruncatedEvent b i c a
  | ConversationItemDeletedEvent _ i => ConversationItemDeletedEvent b i
  | ResponseCreatedEvent _ r => ResponseCreatedEvent b r
  | ResponseDoneEvent _ r => ResponseDoneEvent b r
  | ResponseCancelledEvent _ => ResponseCancelledEvent b
  | ResponseOutputItemAddedEvent _ r o i => ResponseOutputItemAddedEvent b r o i
  | ResponseOutputItemDoneEvent _ r o i => ResponseOutputItemDoneEvent b r o i
  | ResponseContentPartAddedEvent _ a p => ResponseContentPartAddedEvent b a p
  | ResponseContentPartDoneEvent _ a p => ResponseContentPartDoneEvent b a p
  | ResponseTextDeltaEvent _ a d => ResponseTextDeltaEvent b a d
  | ResponseTextDoneEvent _ a t => ResponseTextDoneEvent b a t
  | ResponseAudioTranscriptDeltaEvent _ a d => ResponseAudioTranscriptDeltaEvent b a d
  | ResponseAudioTranscriptDoneEvent _ a t => ResponseAudioTranscriptDoneEvent b a t
  | ResponseAudioDeltaEvent _ a d => ResponseAudioDeltaEvent b a d
  | ResponseAudioDoneEvent _ a => ResponseAudioDoneEvent b a
  | ResponseFunctionCallArgumentsDeltaEvent _ r i o c d =>
      ResponseFunctionCallArgumentsDeltaEvent b r i o c d
  | ResponseFunctionCallArgumentsDoneEvent _ r i o c a n =>
      ResponseFunctionCallArgumentsDoneEvent b r i o c a n
  | RateLimitsUpdatedEvent _ l => RateLimitsUpdatedEvent b l
  end.

(** The dynamic type of an event. *)
Definition struct_of (ev : ServerEvent) : ServerEventStruct :=
  match ev with
  | ErrorEvent _ _ => TErrorEvent
  | SessionCreatedEvent _ _ => TSessionCreatedEvent
  | SessionUpdatedEvent _ _ => TSessionUpdatedEvent
  | ConversationCreatedEvent _ _ => TConversationCreatedEvent
  | InputAudioBufferCommittedEvent _ _ _ => TInputAudioBufferCommittedEvent
  | InputAudioBufferClearedEvent _ => TInputAudioBufferClearedEvent
  | InputAudioBufferSpeechStartedEvent _ _ _ => TInputAudioBufferSpeechStartedEvent
  | InputAudioBufferSpeechStoppedEvent _ _ _ => TInputAudioBufferSpeechStoppedEvent
  | ConversationItemCreatedEvent _ _ _ => TConversationItemCreatedEvent
  | ConversationItemInputAudioTranscriptionCompletedEvent _ _ _ _ =>
      TConversationItemInputAudioTranscriptionCompletedEvent
  | ConversationItemInputAudioTranscriptionFailedEvent _ _ _ _ =>
      TConversationItemInputAudioTranscriptionFailedEvent
  | ConversationItemTruncatedEvent _ _ _ _ => TConversationItemTruncatedEvent
  | ConversationItemDeletedEvent _ _ => TConversationItemDeletedEvent
  | ResponseCreatedEvent _ _ => TResponseCreatedEvent
  | ResponseDoneEvent _ _ => TResponseDoneEvent
  | ResponseCancelledEvent _ => TResponseCancelledEvent
  | ResponseOutputItemAddedEvent _ _ _ _ => TResponseOutputItemAddedEvent
  | ResponseOutputItemDoneEvent _ _ _ _ => TResponseOutputItemDoneEvent
  | ResponseContentPartAddedEvent _ _ _ => TResponseContentPartAddedEvent
  | ResponseContentPartDoneEvent _ _ _ => TResponseContentPartDoneEvent
  | ResponseTextDeltaEvent _ _ _ => TResponseTextDeltaEvent
  | ResponseTextDoneEvent _ _ _ => TResponseTextDoneEvent
  | ResponseAudioTranscriptDeltaEvent _ _ _ => TResponseAudioTranscriptDeltaEvent
  | ResponseAudioTranscriptDoneEvent _ _ _ => TResponseAudioTranscriptDoneEvent
  | ResponseAudioDeltaEvent _ _ _ => TResponseAudioDeltaEvent
  | ResponseAudioDoneEvent _ _ => TResponseAudioDoneEvent
  | ResponseFunctionCallArgumentsDeltaEvent _ _ _ _ _ _ =>
      TResponseFunctionCallArgumentsDeltaEvent
  | ResponseFunctionCallArgumentsDoneEvent _ _ _ _ _ _ _ =>
      TResponseFunctionCallArgumentsDoneEvent
  | RateLimitsUpdatedEvent _ _ => TRateLimitsUpdatedEvent
  end.

(** [ServerEventBase.ServerEventType] *)
Definition ServerEventType (ev : ServerEvent) : string := Type_ (base_of ev).

(** [ServerEventBase.SetBaseEventType]; [fresh] is what [utils.UniqueID()]
    returns when it is called. *)
Definition SetBaseEventType (fresh : string) (b : ServerEventBase) (t : string)
    : ServerEventBase :=
  mkServerEventBase (if String.eqb (EventID b) "" then fresh else EventID b) t.

(** The type tag [MarshalServerEvent] stamps on each struct type (its
    [switch] has a case for every one of them). *)
Definition marshal_type (t : ServerEventStruct) : string :=
  match t with
  | TErrorEvent => ServerEventTypeError
  | TSessionCreatedEvent => ServerEventTypeSessionCreated
  | TSessionUpdatedEvent => ServerEventTypeSessionUpdated
  | TConversationCreatedEvent => ServerEventTypeConversationCreated
  | TInputAudioBufferCommittedEvent => ServerEventTypeInputAudioBufferCommitted
  | TInputAudioBufferClearedEvent => ServerEventTypeInputAudioBufferCleared
  | TInputAudioBufferSpeechStartedEvent => ServerEventTypeInputAudioBufferSpeechStarted
  | TInputAudioBufferSpeechStoppedEvent => ServerEventTypeInputAudioBufferSpeechStopped
  | TConversationItemCreatedEvent => ServerEventTypeConversationItemCreated
  | TConversationItemInputAudioTranscriptionCompletedEvent =>
      ServerEventTypeConversationItemInputAudioTranscriptionCompleted
  | TConversationItemInputAudioTranscriptionFailedEvent =>
      ServerEventTypeConversationItemInputAudioTranscriptionFailed
  | TConversationItemTruncatedEvent => ServerEventTypeConversationItemTruncated
  | TConversationItemDeletedEvent => ServerEventTypeConversationItemDeleted
  | TResponseCancelledEvent => ServerEventTypeResponseCancelled
  | TResponseCreatedEvent => ServerEventTypeResponseCreated
  | TResponseDoneEvent => ServerEventTypeResponseDone
  | TResponseOutputItemAddedEvent => ServerEventTypeResponseOutputItemAdded
  | TResponseOutputItemDoneEvent => ServerEventTypeResponseOutputItemDone
  | TResponseContentPartAddedEvent => ServerEventTypeResponseContentPartAdded
  | TResponseContentPartDoneEvent => ServerEventTypeResponseContentPartDone
  | TResponseTextDeltaEvent => ServerEventTypeResponseTextDelta
  | TResponseTextDoneEvent => ServerEventTypeResponseTextDone
  | TResponseAudioTranscriptDeltaEvent => ServerEventTypeResponseAudioTranscriptDelta
  | TResponseAudioTranscriptDoneEvent => ServerEventTypeResponseAudioTranscriptDone
  | TResponseAudioDeltaEvent => ServerEventTypeResponseAudioDelta
  | TResponseAudioDoneEvent => ServerEventTypeResponseAudioDone
  | TResponseFunctionCallArgumentsDeltaEvent =>
      ServerEventTypeResponseFunctionCallArgumentsDelta
  | TResponseFunctionCallArgumentsDoneEvent =>
      ServerEventTypeResponseFunctionCallArgumentsDone
  | TRateLimitsUpdatedEvent => ServerEventTypeRateLimitsUpdated
  end.

(** The [switch] of [UnmarshalServerEvent]: the struct type a type tag is
    decoded into, [None] for the [default] branch. *)
Definition unmarshal_struct (t : string) : option ServerEventStruct :=
  if String.eqb t ServerEventTypeError then Some TErrorEvent
  else if String.eqb t ServerEventTypeSessionCreated then Some TSessionCreatedEvent
  else if String.eqb t ServerEventTypeSessionUpdated then Some TSessionUpdatedEvent
  else if String.eqb t ServerEventTypeConversationCreated then Some TConversationCreatedEvent
  else if String.eqb t ServerEventTypeInputAudioBufferCommitted
    then Some TInputAudioBufferCommittedEvent
  else if String.eqb t ServerEventTypeInputAudioBufferCleared
    then Some TInputAudioBufferClearedEvent
  else if String.eqb t ServerEventTypeInputAudioBufferSpeechStarted
    then Some TInputAudioBufferSpeechStartedEvent
  else if String.eqb t ServerEventTypeInputAudioBufferSpeechStopped
    then Some TInputAudioBufferSpeechStoppedEvent
  else if String.eqb t ServerEventTypeConversationItemCreated
    then Some TConversationItemCreatedEvent
  else if String.eqb t ServerEventTypeConversationItemInputAudioTranscriptionCompleted
    then Some TConversationItemInputAudioTranscriptionCompletedEvent
  else if String.eqb t ServerEventTypeConversationItemInputAudioTranscriptionFailed
    then Some TConversationItemInputAudioTranscriptionFailedEvent
  else if String.eqb t ServerEventTypeConversationItemTruncated
    then Some TConversationItemTruncatedEvent
  else if String.eqb t ServerEventTypeConversationItemDeleted
    then Some TConversationItemDeletedEvent
  else if String.eqb t ServerEventTypeResponseCreated then Some TResponseCreatedEvent
  else if String.eqb t ServerEventTypeResponseDone then Some TResponseDoneEvent
  else if String.eqb t ServerEventTypeResponseOutputItemAdded
    then Some TResponseOutputItemAddedEvent
  else if String.eqb t ServerEventTypeResponseOutputItemDone
    then Some TResponseOutputItemDoneEvent
  else if String.eqb t ServerEventTypeResponseContentPartAdded
    then Some TResponseContentPartAddedEvent
  else if String.eqb t ServerEventTypeResponseContentPartDone
    then Some TResponseContentPartDoneEvent
  else if String.eqb t ServerEventTypeResponseTextDelta then Some TResponseTextDeltaEvent
  else if String.eqb t ServerEventTypeResponseTextDone then Some TResponseTextDoneEvent
  else if String.eqb t ServerEventTypeResponseAudioTranscriptDelta
    then Some TResponseAudioTranscriptDeltaEvent
  else if String.eqb t ServerEventTypeResponseAudioTranscriptDone
    then Some TResponseAudioTranscriptDoneEvent
  else if String.eqb t ServerEventTypeResponseAudioDelta then Some TResponseAudioDeltaEvent
  else if String.eqb t ServerEventTypeResponseAudioDone then Some TResponseAudioDoneEvent
  else if String.eqb t ServerEventTypeResponseFunctionCallArgumentsDelta
    then Some TResponseFunctionCallArgumentsDeltaEvent
  else if String.eqb t ServerEventTypeResponseFunctionCallArgumentsDone
    then Some TResponseFunctionCallArgumentsDoneEvent
  else if String.eqb t ServerEventTypeRateLimitsUpdated then Some TRateLimitsUpdatedEvent
  else None.

Section Codec.

(** [encoding/json] is outside the repository: [json_Marshal] is
    [json.Marshal] on an event, [json_peek_type] is [json.Unmarshal] into the
    one-field struct [{Type}], [json_Unmarshal t] is [json.Unmarshal] into a
    zero value of the struct type [t]. *)
Variable json_Marshal : ServerEvent -> result (list byte).
Variable json_peek_type : list byte -> result string.
Variable json_Unmarshal : ServerEventStruct -> list byte -> result ServerEvent.

(** [MarshalServerEvent]: the event is stamped through its pointer, then
    marshalled; the result carries the event as the caller sees it
    afterwards. *)
Definition MarshalServerEvent (fresh : string) (event : ServerEvent)
    : ServerEvent * result (list byte) :=
  let ev := with_base event
              (SetBaseEventType fresh (base_of event) (marshal_type (struct_of event))) in
  (ev, json_Marshal ev).

(** [UnmarshalServerEvent] *)
Definition UnmarshalServerEvent (data : list byte) : result ServerEvent :=
  match json_peek_type data with
  | Err e => Err e
  | Ok eventType =>
      match unmarshal_struct eventType with
      | Some t => json_Unmarshal t data
      | None => Err ("unknown server event type: " +++ eventType)
      end
  end.

End Codec.

(** ** [ServerToolChoice.UnmarshalJSON] *)

(** The method on the receiver [m] and the input [data]; [decoded] is what
    [json.Unmarshal(data, &m.Function)] leaves in [m.Function] and the error
    it returns.  The method itself never returns an error: the result is the
    receiver afterwards. *)
Definition quote : byte := x22.

Definition UnmarshalJSON (m : ServerToolChoice) (data : list byte)
    (decoded : ToolChoice * option string) : outcome ServerToolChoice :=
  let '(function, err) := decoded in
  let m := mkServerToolChoice (String_ m) function in
  match err with
  | Some _ =>
      d0 <- index data 0 ;;
      data <- (if Byte.eqb d0 quote then slice data 1 (len data) else Returns data) ;;
      dl <- index data (len data - 1) ;;
      data <- (if Byte.eqb dl quote then slice data 0 (len data - 1) else Returns data) ;;
      Returns (mkServerToolChoice (string_of_list_byte data)
                 (mkToolChoice "" (mkToolFunction "")))
  | None => Returns m
  end.

(** The JSON literal [null]. *)
Definition null : list byte := list_byte_of_string "null".

(** At most one leading and one trailing double quote removed. *)
Definition strip_quotes (data : list byte) : list byte :=
  let data := match data with
              | b :: rest => if Byte.eqb b quote then rest else data
              | [] => data
              end in
  match rev data with
  | b :: rest => if Byte.eqb b quote then rev rest else data
  | [] => data
  end.

(** ** [ServerToolChoice]: reading the choice *)

(** [ServerToolChoice.IsFunction] *)
Definition IsFunction (m : ServerToolChoice) : bool :=
  String.eqb (ToolChoice_Type (Function_ m)) ToolTypeFunction.

(** [ServerToolChoice.Get]: a [ToolChoiceInterface] holding the function
    choice, or else the string. *)
Definition Get (m : ServerToolChoice) : ToolChoice + string :=
  if IsFunction m then inl (Function_ m) else inr (String_ m).

(** ** [IntOrInf] *)

(** [IntOrInf.IsInf] *)
Definition IsInf (m : Z) : bool := m =? Inf.

(** The five bytes of the JSON string [inf], quotes included. *)
Definition inf_literal : list byte := [x22; x69; x6e; x66; x22].

(** [IntOrInf.MarshalJSON]; [json.Marshal] writes an [int] in decimal and
    does not fail on one. *)
Definition IntOrInf_MarshalJSON (m : Z) : result (list byte) :=
  if m =? Inf then Ok inf_literal else Ok (list_byte_of_string (Itoa m)).

Section IntOrInf.

(** [json.Unmarshal] of [data] into the [int] behind the receiver [m]: the
    value left there and the error. *)
Variable json_Unmarshal_int : list byte -> Z -> Z * option string.

(** [IntOrInf.UnmarshalJSON]: the receiver afterwards and the error. *)
Definition IntOrInf_UnmarshalJSON (m : Z) (data : list byte) : Z * option string :=
  if String.eqb (string_of_list_byte data) (string_of_list_byte inf_literal) then (Inf, None)
  else if len data =? 0 then (m, None)
  else json_Unmarshal_int data m.

End IntOrInf.

(** A decimal reader to run examples with, in place of [json.Unmarshal]
    into an [int]. *)
Definition decimal_Unmarshal_int (data : list byte) (m : Z) : Z * option string :=
  match NilZero.int_of_string (string_of_list_byte data) with
  | Some d => (Z.of_int d, None)
  | None => (m, Some "invalid character")
  end.

End openai.

(* ================================================================== *)
(** * Package xiaozhi (pkg/protocol/xiaozhi): the device events *)
(* ================================================================== *)

Module xiaozhi.

Definition ClientEventTypeHello := "hello".
Definition ClientEventTypeListen := "listen".
Definition ClientEventTypeAppendBuffer := "append.buffer".
Definition ClientEventTypeAbort := "abort".
Definition ClientEventTypeIot := "iot".

Definition ClientStateIdle := "idle".
Definition ClientStateListenStart := "start".
Definition ClientStateListenStop := "stop".
Definition ClientStateListenDetect := "detect".

Record AudioParams : Type := mkAudioParams {
  Format : string;
  SampleRate : Z;
  Channels : Z;
  FrameDuration : Z
}.

Record ClientEventBase : Type := mkClientEventBase {
  Type_ : string;
  Version : Z;
  Transport : string;
  SessionID : string;
  AudioParams_ : option AudioParams
}.

Inductive ClientEvent : Type :=
| ClientEventHello (b : ClientEventBase)
| ClientEventListen (b : ClientEventBase) (State Mode : string)
| ClientEventAppendBuffer (b : ClientEventBase) (Bytes : list byte)
| ClientEventAbort (b : ClientEventBase) (Reason : string)
| ClientEventIot (b : ClientEventBase) (Data : string).

Definition GetAudioParams (e : ClientEvent) : option AudioParams :=
  match e with
  | ClientEventHello b | ClientEventListen b _ _ | ClientEventAppendBuffer b _
  | ClientEventAbort b _ | ClientEventIot b _ => AudioParams_ b
  end.

Definition UnmarshalClientBinEvent (data : list byte) : result ClientEvent :=
  Ok (ClientEventAppendBuffer (mkClientEventBase ClientEventTypeAppendBuffer 0 "" "" None) data).

Definition ServerEventTypeError := "error".
Definition ServerEventTypeHello := "hello".
Definition ServerEventTypeSTT := "stt".
Definition ServerEventTypeLLM := "llm".
Definition ServerEventTypeTTS := "tts".
Definition ServerEventTypeIot := "iot".

Definition ServerTTSStateStart := "start".
Definition ServerTTSStateStop := "stop".
Definition ServerTTSStateSentenceStart := "sentence_start".
Definition ServerTTSStateSentenceEnd := "sentence_end".

Record ServerEventBase : Type := mkServerEventBase {
  Server_Type : string;
  SessionId : string
}.

Inductive ServerEvent : Type :=
| ServerEventError (b : ServerEventBase) (Error : string)
| ServerEventHello (b : ServerEventBase) (Transport : string) (AudioParams : AudioParams)
| ServerEventSTT (b : ServerEventBase) (Text : string)
| ServerEventLLM (b : ServerEventBase) (Text Emotion : string)
| ServerEventTTS (b : ServerEventBase) (State Text : string) (SampleRate : Z).

Definition GetType (e : ServerEvent) : string :=
  match e with
  | ServerEventError _ _ => ServerEventTypeError
  | ServerEventHello _ _ _ => ServerEventTypeHello
  | ServerEventSTT _ _ => ServerEventTypeSTT
  | ServerEventLLM _ _ _ => ServerEventTypeLLM
  | ServerEventTTS _ _ _ _ => ServerEventTypeTTS
  end.

(** What travels on the write queue ([chan any]): a server event or a
    binary audio frame. *)
Inductive message : Type :=
| Event (e : ServerEvent)
| Binary (data : list byte).

(** [IsServerEvent] *)
Definition IsServerEvent (event : message) : option ServerEvent :=
  match event with
  | Event ev =>
      let t := GetType ev in
      if String.eqb t ServerEventTypeError || String.eqb t ServerEventTypeHello
         || String.eqb t ServerEventTypeSTT || String.eqb t ServerEventTypeLLM
         || String.eqb t ServerEventTypeTTS
      then Some ev else None
  | Binary _ => None
  end.

(** ** Decoding a text message of the device *)

(** The struct types of [ClientEventInterface]; the audio frame is not one
    of them. *)
Inductive ClientEventStruct : Type :=
| TClientEventHello
| TClientEventListen
| TClientEventAbort
| TClientEventIot.

(** The [switch] of [UnmarshalClientEvent]: the struct type a type tag is
    decoded into, [None] for the [default] branch. *)
Definition unmarshal_struct (t : string) : option ClientEventStruct :=
  if String.eqb t ClientEventTypeHello then Some TClientEventHello
  else if String.eqb t ClientEventTypeListen then Some TClientEventListen
  else if String.eqb t ClientEventTypeAbort then Some TClientEventAbort
  else if String.eqb t ClientEventTypeIot then Some TClientEventIot
  else None.

Section Codec.

(** As for the upstream events: [json_peek_type] is [json.Unmarshal] into
    the one-field struct [{Type}], [json_Unmarshal t] is [json.Unmarshal]
    into a zero value of the struct type [t]. *)
Variable json_peek_type : list byte -> result string.
Variable json_Unmarshal : ClientEventStruct -> list byte -> result ClientEvent.

(** [UnmarshalClientEvent] *)
Definition UnmarshalClientEvent (data : list byte) : result ClientEvent :=
  match json_peek_type data with
  | Err e => Err e
  | Ok eventType =>
      match unmarshal_struct eventType with
      | Some t => json_Unmarshal t data
      | None => Err ("unknown client event type: " +++ eventType)
      end
  end.

End Codec.

End xiaozhi.

(* ================================================================== *)
(** * Package openai (handler/openai): the translating handler *)
(* ================================================================== *)

Module handler.
Import audio.

Definition WriteQueueSize : Z := 1024.

Record ClientConfig : Type := mkClientConfig {
  Format : string;
  SampleRate : Z;
  Channels : Z;
  FrameDuration : Z;
  FrameSize : Z
}.

(** [ApiSession], without its context; [CliConfig] and [RtSession] are
    nil until the device hello and the first session event. *)
Record ApiSession : Type := mkApiSession {
  CliConfig : option ClientConfig;
  defaultVoice : string;
  modelId : string;
  ID : string;
  Object_ : string;
  RtSession : option openai.ServerSession
}.

Definition NewApiSession (modelId voice : string) : ApiSession :=
  mkApiSession None voice modelId "" "realtime.session" None.

(** [ApiSession.Update] *)
Definition Update (s : ApiSession) (sess : openai.ServerSession) : ApiSession :=
  mkApiSession (CliConfig s) (defaultVoice s) (modelId s) (openai.Session_ID sess)
    (Object_ s) (Some sess).

(** What a deferred [recover] makes of a call: it finished and returned
    [(err, quit)], or it panicked and the recovered call returns the zero
    values [(nil, false)], or the model ran out of fuel. *)
Inductive dispatched (H : Type) : Type :=
| Finished (r : H) (err : option string) (quit : bool)
| Recovered (msg : string)
| Unfinished.
Arguments Finished {H} r err quit.
Arguments Recovered {H} msg.
Arguments Unfinished {H}.

(** The [(error, bool)] the caller of a dispatched call receives. *)
Definition returned {H : Type} (d : dispatched H) : option (option string * bool) :=
  match d with
  | Finished _ err quit => Some (err, quit)
  | Recovered _ => Some (None, false)
  | Unfinished => None
  end.

(** An interface value of type [openai.ClientEvent]: the nil interface, an
    interface holding a nil pointer (the unset result of
    [handleInputAudioBufferAppend], whose result type is a pointer), or an
    event. *)
Inductive rtEvent : Type :=
| NilInterface
| NilPointer
| Holds (ev : openai.ClientEvent).

Section Handler.

Variable Encoder : Type.
Variable NewEncoder : Z -> Z -> result Encoder.
Variable Encode : Encoder -> list Z -> Encoder * list byte * option string.
Variable opus_decode : Z -> list byte -> result (list Z).
Variable b64encode : list byte -> string.
Variable b64decode : string -> result (list byte).

(** The configuration singleton and the libraries the handler calls. *)
Variable SystemPrompt : string.
Variable Transport : string.
Variable MustToJSON : openai.Error -> string.
Variable json_peek_type : list byte -> result string.
Variable json_Unmarshal : openai.ServerEventStruct -> list byte -> result openai.ServerEvent.

(** [XiaozhiHandler].  [apiConn] is the list of events written to the
    upstream connection so far and [slept] the durations, in nanoseconds,
    handed to [time.Sleep] so far; [writeQueue] is the sequence of messages
    sent on the channel. *)
Record XiaozhiHandler : Type := mkHandler {
  sess : ApiSession;
  closed : bool;
  writeQueue : list xiaozhi.message;
  audioConverter : option (Converter Encoder);
  firstDeltaTs : Z;
  totalOpusDuration : Z;
  apiConn : list openai.ClientEvent;
  slept : list Z
}.

Definition NewXiaozhiHandler (model voice : string) : XiaozhiHandler :=
  mkHandler (NewApiSession model voice) false [] None 0 0 [] [].

Definition set_sess (r : XiaozhiHandler) (s : ApiSession) : XiaozhiHandler :=
  mkHandler s (closed r) (writeQueue r) (audioConverter r) (firstDeltaTs r)
    (totalOpusDuration r) (apiConn r) (slept r).

Definition set_audioConverter (r : XiaozhiHandler) (c : option (Converter Encoder))
    : XiaozhiHandler :=
  mkHandler (sess r) (closed r) (writeQueue r) c (firstDeltaTs r)
    (totalOpusDuration r) (apiConn r) (slept r).

Definition set_pacing (r : XiaozhiHandler) (first total : Z) : XiaozhiHandler :=
  mkHandler (sess r) (closed r) (writeQueue r) (audioConverter r) first total
    (apiConn r) (slept r).

Definition enqueue (r : XiaozhiHandler) (m : xiaozhi.message) : XiaozhiHandler :=
  mkHandler (sess r) (closed r) (writeQueue r ++ [m]) (audioConverter r) (firstDeltaTs r)
    (totalOpusDuration r) (apiConn r) (slept r).

Definition WriteJSON (r : XiaozhiHandler) (ev : openai.ClientEvent) : XiaozhiHandler :=
  mkHandler (sess r) (closed r) (writeQueue r) (audioConverter r) (firstDeltaTs r)
    (totalOpusDuration r) (apiConn r ++ [ev]) (slept r).

(** [time.Sleep(d)] *)
Definition Sleep (r : XiaozhiHandler) (d : Z) : XiaozhiHandler :=
  mkHandler (sess r) (closed r) (writeQueue r) (audioConverter r) (firstDeltaTs r)
    (totalOpusDuration r) (apiConn r) (slept r ++ [d]).

Definition Millisecond : Z := 1000000.

Definition resetFrameTs (r : XiaozhiHandler) : XiaozhiHandler := set_pacing r 0 0.

(** [setFrameTs]; [now] is [time.Now().UnixMilli()] were it read. *)
Definition setFrameTs (now : Z) (r : XiaozhiHandler) : XiaozhiHandler :=
  if negb (firstDeltaTs r =? 0) then r else set_pacing r now (totalOpusDuration r).

(** [getWait]; [now] is the reading of [time.Now().UnixMilli()]. *)
Definition getWait (now : Z) (r : XiaozhiHandler) : Z :=
  if firstDeltaTs r =? 0 then 0
  else if totalOpusDuration r =? 0 then 0
  else
    let wait := wrap_int (totalOpusDuration r - wrap_int (now - firstDeltaTs r)) in
    if wait >? 0 then wait else 0.

Definition addOpusDuration (r : XiaozhiHandler) : outcome XiaozhiHandler :=
  match CliConfig (sess r) with
  | None => Panics "invalid memory address or nil pointer dereference"
  | Some cfg =>
      Returns (set_pacing r (firstDeltaTs r)
                 (wrap_int (totalOpusDuration r + FrameDuration cfg)))
  end.

Definition GetSessionId (r : XiaozhiHandler) : string := ID (sess r).

Definition Close (r : XiaozhiHandler) : XiaozhiHandler :=
  mkHandler (sess r) true (writeQueue r) (audioConverter r) (firstDeltaTs r)
    (totalOpusDuration r) (apiConn r) (slept r).

Definition BuildErrorEvent (err : string) : xiaozhi.ServerEvent :=
  xiaozhi.ServerEventError (xiaozhi.mkServerEventBase xiaozhi.ServerEventTypeError "") err.

(** [WriteRespEvent] *)
Definition WriteRespEvent (w : XiaozhiHandler) (event : xiaozhi.message)
    : outcome (XiaozhiHandler * option string) :=
  if closed w then Returns (w, Some "write queue closed")
  else
    match xiaozhi.IsServerEvent event with
    | Some _ => Returns (enqueue w event, None)
    | None =>
        w <- addOpusDuration w ;;
        Returns (enqueue w event, None)
    end.

(** The callback [NewConverter] is given: [r.WriteRespEvent] on a frame. *)
Definition emit_frame (data : list byte) (w : XiaozhiHandler)
    : outcome (XiaozhiHandler * option string) :=
  WriteRespEvent w (xiaozhi.Binary data).

(** ** Device to upstream *)

(** [handleHelloEvent]; [eventID] is what [utils.UniqueID()] returns. *)
Definition handleHelloEvent (eventID : string) (r : XiaozhiHandler)
    (event : xiaozhi.ClientEvent) : outcome (XiaozhiHandler * rtEvent * option string) :=
  match xiaozhi.GetAudioParams event with
  | None => Returns (r, NilInterface, Some "invalid audio params")
  | Some p =>
      if (xiaozhi.SampleRate p =? 0) || (xiaozhi.Channels p =? 0)
         || String.eqb (xiaozhi.Format p) "" || (xiaozhi.FrameDuration p =? 0)
      then Returns (r, NilInterface, Some "invalid audio params")
      else
        let frameSize :=
          Z.quot (wrap_int (xiaozhi.FrameDuration p * xiaozhi.SampleRate p)) 1000 in
        conv <- NewConverter Encoder NewEncoder (xiaozhi.SampleRate p) (xiaozhi.Channels p)
                  (xiaozhi.FrameDuration p) frameSize ;;
        let r := set_audioConverter r (Some conv) in
        let r := set_sess r
                   (mkApiSession
                      (Some (mkClientConfig (xiaozhi.Format p) (xiaozhi.SampleRate p)
                               (xiaozhi.Channels p) (xiaozhi.FrameDuration p) frameSize))
                      (defaultVoice (sess r)) (modelId (sess r)) (ID (sess r))
                      (Object_ (sess r)) (RtSession (sess r))) in
        let pbEvent :=
          openai.SessionUpdateEvent
            (openai.mkClientEventBase eventID openai.ClientEventTypeSessionUpdate None)
            (openai.mkClientSession
               [openai.ModalityText; openai.ModalityAudio]
               (Some SystemPrompt)
               (Some (defaultVoice (sess r)))
               (Some openai.AudioFormatPcm16)
               (Some openai.AudioFormatPcm16)
               None
               (Some (openai.mkTurnDetection openai.ClientTurnDetectionTypeServerVad 0%float 0 0))
               []
               (Some (openai.JString openai.ToolChoiceRequired))
               None
               (Some 4096)
               []
               ["web_search"]) in
        Returns (r, Holds pbEvent, None)
  end.

Definition handleListenEvent (r : XiaozhiHandler) (event : xiaozhi.ClientEvent)
    : outcome (XiaozhiHandler * rtEvent * option string) :=
  Returns (r, NilInterface, None).

(** [handleInputAudioBufferAppend]; its result is a pointer, so what the
    caller stores in its interface variable is never the nil interface. *)
Definition handleInputAudioBufferAppend (fuel : nat) (eventID : string)
    (r : XiaozhiHandler) (audioData : list byte)
    : outcome (XiaozhiHandler * rtEvent * option string) :=
  if len audioData =? 0 then Returns (r, NilPointer, None)
  else
    '(conv, b64) <- OpusToPcmBase64 Encoder opus_decode b64encode fuel
                      (audioConverter r) audioData ;;
    let r := set_audioConverter r conv in
    match b64 with
    | Err e => Returns (r, NilPointer, Some e)
    | Ok b64Data =>
        Returns (r,
                 Holds (openai.InputAudioBufferAppendEvent
                          (openai.mkClientEventBase eventID
                             openai.ClientEventTypeInputAudioBufferAppend None)
                          b64Data),
                 None)
    end.

Definition handleIotEvent (r : XiaozhiHandler) (event : xiaozhi.ClientEvent)
    : outcome (XiaozhiHandler * rtEvent * option string) :=
  Returns (r, NilInterface, None).

(** [SendToRealtimeAPI]; [write_error] is the error of the websocket write,
    were it attempted. *)
Definition SendToRealtimeAPI (write_error : option string) (w : XiaozhiHandler)
    (event : rtEvent) : outcome (XiaozhiHandler * option string) :=
  match event with
  | NilInterface => Returns (w, None)
  | NilPointer => Panics "invalid memory address or nil pointer dereference"
  | Holds ev =>
      match write_error with
      | Some e => Returns (w, Some e)
      | None => Returns (WriteJSON w ev, None)
      end
  end.

(** The tail of [DispatchClientEvent], after its [switch]. *)
Definition forward (write_error : option string)
    (x : XiaozhiHandler * rtEvent * option string)
    : outcome (XiaozhiHandler * option string * bool) :=
  let '(r, rtEvent, err) := x in
  match rtEvent, err with
  | NilInterface, _ => Returns (r, err, false)
  | _, Some _ => Returns (r, err, false)
  | _, None =>
      '(r, err) <- SendToRealtimeAPI write_error r rtEvent ;;
      Returns (r, err, false)
  end.

(** The body of [DispatchClientEvent], before its deferred [recover]; its
    argument is [None] when the value handed in is not a client event.  The
    [switch] has cases for hello, listen, the audio frame and iot; an abort
    event falls to its [default] branch. *)
Definition DispatchClientEvent_body (fuel : nat) (eventID : string)
    (write_error : option string) (r : XiaozhiHandler) (ev : option xiaozhi.ClientEvent)
    : outcome (XiaozhiHandler * option string * bool) :=
  match ev with
  | None => Returns (r, Some "invalid RealtimeClientEvent", false)
  | Some (xiaozhi.ClientEventHello b as event) =>
      x <- handleHelloEvent eventID r event ;; forward write_error x
  | Some (xiaozhi.ClientEventListen b _ _ as event) =>
      x <- handleListenEvent r event ;; forward write_error x
  | Some (xiaozhi.ClientEventAppendBuffer b bytes) =>
      x <- handleInputAudioBufferAppend fuel eventID r bytes ;; forward write_error x
  | Some (xiaozhi.ClientEventIot b _ as event) =>
      x <- handleIotEvent r event ;; forward write_error x
  | Some (xiaozhi.ClientEventAbort _ _) => Returns (r, None, false)
  end.

(** [DispatchClientEvent] *)
Definition DispatchClientEvent (fuel : nat) (eventID : string)
    (write_error : option string) (r : XiaozhiHandler) (ev : option xiaozhi.ClientEvent)
    : dispatched XiaozhiHandler :=
  match DispatchClientEvent_body fuel eventID write_error r ev with
  | Returns (r, err, quit) => Finished r err quit
  | Panics msg => Recovered msg
  | OutOfFuel => Unfinished
  end.

(** ** Upstream to device *)

Definition tts_event (w : XiaozhiHandler) (state text : string) : xiaozhi.ServerEvent :=
  xiaozhi.ServerEventTTS
    (xiaozhi.mkServerEventBase xiaozhi.ServerEventTypeTTS (GetSessionId w)) state text 0.

Definition assertion_failed {A : Type} : outcome A :=
  Panics "interface conversion: interface is of another type".

Definition handleServerError (w : XiaozhiHandler) (event : openai.ServerEvent)
    : outcome (XiaozhiHandler * option xiaozhi.ServerEvent * option string) :=
  match event with
  | openai.ErrorEvent _ e =>
      Returns (w,
               Some (xiaozhi.ServerEventError
                       (xiaozhi.mkServerEventBase xiaozhi.ServerEventTypeError (GetSessionId w))
                       (MustToJSON e)),
               None)
  | _ => assertion_failed
  end.

Definition handleSessionCreateOrUpdate (w : XiaozhiHandler) (event : openai.ServerEvent)
    (update : bool) : outcome (XiaozhiHandler * option xiaozhi.ServerEvent * option string) :=
  if update then
    match event with
    | openai.SessionUpdatedEvent _ session =>
        let w := set_sess w (Update (sess w) session) in
        match CliConfig (sess w) with
        | None => Panics "invalid memory address or nil pointer dereference"
        | Some cfg =>
            Returns (w,
                     Some (xiaozhi.ServerEventHello
                             (xiaozhi.mkServerEventBase xiaozhi.ServerEventTypeHello
                                (GetSessionId w))
                             Transport
                             (xiaozhi.mkAudioParams (Format cfg) 24000 1 60)),
                     None)
        end
    | _ => assertion_failed
    end
  else
    match event with
    | openai.SessionCreatedEvent _ session =>
        Returns (set_sess w (Update (sess w) session), None, None)
    | _ => assertion_failed
    end.

Definition handleInputAudioBufferCommitted (w : XiaozhiHandler) (event : openai.ServerEvent)
    : outcome (XiaozhiHandler * option xiaozhi.ServerEvent * option string) :=
  Returns (w, Some (tts_event w xiaozhi.ServerTTSStateStart ""), None).

(** The handlers that answer [nil, nil]: input buffer cleared, speech
    started and stopped, response created, content part added, output item
    done, conversation item created, audio transcript delta, audio done. *)
Definition handleNothing (w : XiaozhiHandler) (event : openai.ServerEvent)
    : outcome (XiaozhiHandler * option xiaozhi.ServerEvent * option string) :=
  Returns (w, None, None).

(** The code point of the rune literal in [handleAsrDone], U+1F60A. *)
Definition smiling_face : Z := 128522.

Definition handleAsrDone (w : XiaozhiHandler) (event : openai.ServerEvent)
    : outcome (XiaozhiHandler * option xiaozhi.ServerEvent * option string) :=
  match event with
  | openai.ConversationItemInputAudioTranscriptionCompletedEvent _ _ _ transcript =>
      let sttEvent :=
        xiaozhi.ServerEventSTT
          (xiaozhi.mkServerEventBase xiaozhi.ServerEventTypeSTT (GetSessionId w))
          transcript in
      '(w, _) <- WriteRespEvent w (xiaozhi.Event sttEvent) ;;
      let llmEvent :=
        xiaozhi.ServerEventLLM
          (xiaozhi.mkServerEventBase xiaozhi.ServerEventTypeLLM (GetSessionId w))
          (Itoa smiling_face) "happy" in
      '(w, _) <- WriteRespEvent w (xiaozhi.Event llmEvent) ;;
      Returns (w, None, None)
  | _ => assertion_failed
  end.

Definition handleContentPartDone (w : XiaozhiHandler) (event : openai.ServerEvent)
    : outcome (XiaozhiHandler * option xiaozhi.ServerEvent * option string) :=
  match event with
  | openai.ResponseContentPartDoneEvent _ _ part =>
      Returns (w,
               Some (tts_event w xiaozhi.ServerTTSStateSentenceEnd
                       (match openai.Part_Transcript part with Some t => t | None => "" end)),
               None)
  | _ => assertion_failed
  end.

(** [handleResponseDone]; [now1] and [now2] are the readings of the clock
    in its two calls of [getWait], the second made only when the first
    result is positive. *)
Definition handleResponseDone (now1 now2 : Z) (w : XiaozhiHandler)
    (event : openai.ServerEvent)
    : outcome (XiaozhiHandler * option xiaozhi.ServerEvent * option string) :=
  let w := if getWait now1 w >? 0
           then Sleep w (wrap_int (getWait now2 w * Millisecond))
           else w in
  let w := resetFrameTs w in
  Returns (w, Some (tts_event w xiaozhi.ServerTTSStateStop ""), None).

Definition handleResponseAudioTranscriptDone (w : XiaozhiHandler)
    (event : openai.ServerEvent)
    : outcome (XiaozhiHandler * option xiaozhi.ServerEvent * option string) :=
  match event with
  | openai.ResponseAudioTranscriptDoneEvent _ _ transcript =>
      Returns (w, Some (tts_event w xiaozhi.ServerTTSStateSentenceStart transcript), None)
  | _ => assertion_failed
  end.

(** [handleAudioDelta]; [now] is the clock reading of [setFrameTs]. *)
Definition handleAudioDelta (now : Z) (w : XiaozhiHandler) (event : openai.ServerEvent)
    : outcome (XiaozhiHandler * option xiaozhi.ServerEvent * option string) :=
  match event with
  | openai.ResponseAudioDeltaEvent _ _ delta =>
      let w := setFrameTs now w in
      '(conv, w, err) <- ResolvePCM Encoder Encode b64decode XiaozhiHandler emit_frame
                           (audioConverter w) delta w ;;
      Returns (set_audioConverter w conv, None, err)
  | _ => assertion_failed
  end.

(** The [switch] of [handleRealtimeApiEvent] on the type tag of the event. *)
Definition handleRealtimeApiEvent_switch (now1 now2 : Z) (w : XiaozhiHandler)
    (event : openai.ServerEvent)
    : outcome (XiaozhiHandler * option xiaozhi.ServerEvent * option string) :=
  let t := openai.ServerEventType event in
  if String.eqb t openai.ServerEventTypeError then handleServerError w event
  else if String.eqb t openai.ServerEventTypeSessionCreated
    then handleSessionCreateOrUpdate w event false
  else if String.eqb t openai.ServerEventTypeSessionUpdated
    then handleSessionCreateOrUpdate w event true
  else if String.eqb t openai.ServerEventTypeInputAudioBufferCommitted
    then handleInputAudioBufferCommitted w event
  else if String.eqb t openai.ServerEventTypeInputAudioBufferCleared
    then handleNothing w event
  else if String.eqb t openai.ServerEventTypeInputAudioBufferSpeechStarted
    then handleNothing w event
  else if String.eqb t openai.ServerEventTypeInputAudioBufferSpeechStopped
    then handleNothing w event
  else if String.eqb t openai.ServerEventTypeResponseCreated then handleNothing w event
  else if String.eqb t openai.ServerEventTypeResponseContentPartAdded
    then handleNothing w event
  else if String.eqb t openai.ServerEventTypeConversationItemInputAudioTranscriptionCompleted
    then handleAsrDone w event
  else if String.eqb t openai.ServerEventTypeResponseAudioTranscriptDelta
    then handleNothing w event
  else if String.eqb t openai.ServerEventTypeResponseAudioTranscriptDone
    then handleResponseAudioTranscriptDone w event
  else if String.eqb t openai.ServerEventTypeResponseAudioDelta
    then handleAudioDelta now1 w event
  else if String.eqb t openai.ServerEventTypeResponseAudioDone then handleNothing w event
  else if String.eqb t openai.ServerEventTypeResponseContentPartDone
    then handleContentPartDone w event
  else if String.eqb t openai.ServerEventTypeResponseDone
    then handleResponseDone now1 now2 w event
  else if String.eqb t openai.ServerEventTypeResponseOutputItemDone
    then handleNothing w event
  else if String.eqb t openai.ServerEventTypeConversationItemCreated
    then handleNothing w event
  else Returns (w, None, None).

(** [handleRealtimeApiEvent] on the bytes [p] of an upstream message; the
    result is the error it returns. *)
Definition handleRealtimeApiEvent (now1 now2 : Z) (w : XiaozhiHandler) (p : list byte)
    : outcome (XiaozhiHandler * option string) :=
  match openai.UnmarshalServerEvent json_peek_type json_Unmarshal p with
  | Err e => Returns (w, Some e)
  | Ok event =>
      '(w, ev, _) <- handleRealtimeApiEvent_switch now1 now2 w event ;;
      match ev with
      | Some ev =>
          '(w, _) <- WriteRespEvent w (xiaozhi.Event ev) ;;
          Returns (w, None)
      | None => Returns (w, None)
      end
  end.

(** ** The read loop of the connection wrapper *)

(** A websocket data message from the device. *)
Inductive wsMessage : Type :=
| TextMessage (msg : list byte)
| BinaryMessage (msg : list byte).

(** [xiaozhi.UnmarshalClientEvent] is a JSON decoder and a [switch]; the
    decoder is outside the repository. *)
Variable UnmarshalClientEvent : list byte -> result xiaozhi.ClientEvent.

(** One round of the [for] loop of [ConnWrapper.ReadLoop] on a message that
    was read: the error events it writes straight to the device socket,
    whether the loop goes on to read the next message, and how the dispatch
    ended ([None] when the message did not decode and nothing was
    dispatched). *)
Definition ReadLoop_round (fuel : nat) (eventID : string) (write_error : option string)
    (r : XiaozhiHandler) (m : wsMessage)
    : list xiaozhi.ServerEvent * bool * option (dispatched XiaozhiHandler) :=
  let decoded :=
    match m with
    | TextMessage msg => UnmarshalClientEvent msg
    | BinaryMessage msg => xiaozhi.UnmarshalClientBinEvent msg
    end in
  match decoded with
  | Err _ => ([BuildErrorEvent "invalid event format"], true, None)
  | Ok event =>
      let d := DispatchClientEvent fuel eventID write_error r (Some event) in
      match returned d with
      | Some (err, quit) =>
          (match err with Some e => [BuildErrorEvent e] | None => [] end, negb quit, Some d)
      | None => ([], false, Some d)
      end
  end.

End Handler.

Arguments sess {Encoder} x.
Arguments closed {Encoder} x.
Arguments writeQueue {Encoder} x.
Arguments audioConverter {Encoder} x.
Arguments firstDeltaTs {Encoder} x.
Arguments totalOpusDuration {Encoder} x.
Arguments apiConn {Encoder} x.
Arguments slept {Encoder} x.
Arguments GetSessionId {Encoder} r.
Arguments tts_event {Encoder} w state text.

(** ** Stand-ins to run examples with *)

(** In place of the Opus codec, base64 and the JSON decoder: an encoder
    that counts (with [pcm_Encode]), a decoder that reads the frame as PCM,
    an identity coding for base64, and a JSON reader that knows one
    message. *)
Definition toy_NewEncoder (rate channels : Z) : result nat := Ok 0%nat.
Definition toy_opus_decode (rate : Z) (data : list byte) : result (list Z) :=
  Ok (bytesToInt16 data).
Definition toy_b64encode (data : list byte) : string := string_of_list_byte data.
Definition toy_b64decode (s : string) : result (list byte) := Ok (list_byte_of_string s).
Definition toy_MustToJSON (e : openai.Error) : string := openai.Error_Message e.

Definition toy_UnmarshalClientEvent (data : list byte) : result xiaozhi.ClientEvent :=
  Err "unsupported".

(** The toy JSON reader takes a message to consist of its type tag. *)
Definition response_done_message : list byte :=
  list_byte_of_string "response.done".
Definition toy_peek_type (data : list byte) : result string :=
  Ok (string_of_list_byte data).
Definition toy_json_Unmarshal (t : openai.ServerEventStruct) (data : list byte)
    : result openai.ServerEvent :=
  match t with
  | openai.TResponseDoneEvent =>
      Ok (openai.ResponseDoneEvent
            (openai.mkServerEventBase "evt_1" (string_of_list_byte data))
            (openai.mkResponse "resp_1" "realtime.response" "completed" openai.JNull [] None))
  | _ => Err "unsupported"
  end.

(** The type tags for which [handleRealtimeApiEvent] has a handler that
    does something: every other tag has no case or a handler that answers
    [nil, nil]. *)
Definition translated_events : list string :=
  [openai.ServerEventTypeError;
   openai.ServerEventTypeSessionCreated;
   openai.ServerEventTypeSessionUpdated;
   openai.ServerEventTypeInputAudioBufferCommitted;
   openai.ServerEventTypeConversationItemInputAudioTranscriptionCompleted;
   openai.ServerEventTypeResponseAudioTranscriptDone;
   openai.ServerEventTypeResponseAudioDelta;
   openai.ServerEventTypeResponseContentPartDone;
   openai.ServerEventTypeResponseDone].

(** A handler after the hello of a 24 kHz mono device with 20 ms frames
    and the first session event. *)
Definition greeted_handler : XiaozhiHandler nat :=
  mkHandler nat
    (mkApiSession (Some (mkClientConfig "opus" 24000 1 20 480)) "voice" "model"
       "sess_1" "realtime.session" None)
    false []
    (Some (mkConverter nat 24000 24000 1 480 20 20
             (mkResampler 1 24000 24000 [] [] 0 0 0 0)
             (mkResampler 1 24000 24000 [] [] 0 0 0 0) [] 0%nat))
    0 0 [] [].

(** A handler after hello (16 kHz mono, 20 ms frames) that has emitted one
    second of audio since the instant 1000000. *)
Definition paced_handler : XiaozhiHandler nat :=
  mkHandler nat
    (mkApiSession (Some (mkClientConfig "opus" 16000 1 20 320)) "voice" "model"
       "sess_1" "realtime.session" None)
    false [] None 1000000 1000 [] [].

End handler.

(* ================================================================== *)
(** * Go runtime conventions: lemmas *)
(* ================================================================== *)

Module GoFacts.

Lemma len_nonneg {A : Type} (s : list A) : 0 <= len s.
Proof. unfold len. lia. Qed.

Lemma len_app {A : Type} (l1 l2 : list A) : len (l1 ++ l2) = len l1 + len l2.
Proof. unfold len. rewrite length_app. lia. Qed.

Lemma wrap_int_small (z : Z) : - 2 ^ 63 <= z < 2 ^ 63 -> wrap_int z = z.
Proof. intros H. unfold wrap_int. rewrite Z.mod_small; lia. Qed.

Lemma wrap_uint64_add_idem (a b : Z) :
  wrap_uint64 (a + wrap_uint64 b) = wrap_uint64 (a + b).
Proof. unfold wrap_uint64. apply Zplus_mod_idemp_r. Qed.

Lemma wrap_uint64_small (a : Z) : 0 <= a < 2 ^ 64 -> wrap_uint64 a = a.
Proof. intros H. unfold wrap_uint64. apply Z.mod_small. exact H. Qed.

Lemma skipn_len_all {A : Type} (s : list A) (c : Z) :
  len s <= c -> skipn (Z.to_nat c) s = [].
Proof. unfold len. intros H. apply skipn_all2. lia. Qed.

Lemma slice_in_range {A : Type} (s : list A) (lo hi : Z) :
  0 <= lo <= hi -> hi <= len s ->
  slice s lo hi = Returns (firstn (Z.to_nat (hi - lo)) (skipn (Z.to_nat lo) s)).
Proof.
  intros Hlo Hhi. unfold slice.
  destruct (lo <? 0) eqn:E0; [apply Z.ltb_lt in E0; lia|].
  destruct (hi <? lo) eqn:E1; [apply Z.ltb_lt in E1; lia|].
  destruct (len s <? hi) eqn:E2; [apply Z.ltb_lt in E2; lia|].
  reflexivity.
Qed.

Lemma index_in_range {A : Type} (s : list A) (i : nat) (a : A) :
  nth_error s i = Some a -> index s (Z.of_nat i) = Returns a.
Proof.
  intros H. unfold index.
  assert (i < List.length s)%nat as Hi by (apply nth_error_Some; congruence).
  destruct (Z.of_nat i <? 0) eqn:E0; [apply Z.ltb_lt in E0; lia|].
  destruct (len s <=? Z.of_nat i) eqn:E1; [apply Z.leb_le in E1; unfold len in E1; lia|].
  simpl. rewrite Nat2Z.id, H. reflexivity.
Qed.

Lemma index_last {A : Type} (l : list A) (a : A) :
  index (l ++ [a]) (len (l ++ [a]) - 1) = Returns a.
Proof.
  replace (len (l ++ [a]) - 1) with (Z.of_nat (List.length l))
    by (unfold len; rewrite length_app; simpl; lia).
  apply index_in_range. rewrite nth_error_app2 by lia.
  rewrite Nat.sub_diag. reflexivity.
Qed.

Lemma slice_init {A : Type} (l : list A) (a : A) :
  slice (l ++ [a]) 0 (len (l ++ [a]) - 1) = Returns l.
Proof.
  pose proof (len_nonneg l) as Hl.
  assert (len (l ++ [a]) = len l + 1) as Hlen
    by (unfold len; rewrite length_app; simpl; lia).
  rewrite slice_in_range by lia.
  rewrite Hlen. replace (len l + 1 - 1 - 0) with (len l) by lia.
  unfold len. rewrite Nat2Z.id. simpl. rewrite firstn_app, Nat.sub_diag, firstn_all.
  simpl. rewrite app_nil_r. reflexivity.
Qed.

Lemma slice_tail {A : Type} (b : A) (rest : list A) :
  slice (b :: rest) 1 (len (b :: rest)) = Returns rest.
Proof.
  pose proof (len_nonneg rest) as Hl.
  assert (len (b :: rest) = len rest + 1) as Hlen by (unfold len; simpl; lia).
  rewrite slice_in_range by lia.
  rewrite Hlen. replace (len rest + 1 - 1) with (len rest) by lia.
  unfold len. rewrite Nat2Z.id. simpl. rewrite firstn_all. reflexivity.
Qed.

End GoFacts.

(* ================================================================== *)
(** * Binary64: the facts the resampler rests on *)
(* ================================================================== *)

Module FloatFacts.
Import Go.

(** Binary digits of a positive number. *)
Lemma digits2_pos_bounds (p : positive) :
  2 ^ (Z.pos (digits2_pos p) - 1) <= Z.pos p < 2 ^ Z.pos (digits2_pos p).
Proof.
  induction p as [p IH|p IH|]; simpl digits2_pos.
  - rewrite Pos2Z.inj_succ.
    replace (Z.succ (Z.pos (digits2_pos p)) - 1) with (Z.succ (Z.pos (digits2_pos p) - 1))
      by lia.
    rewrite !Z.pow_succ_r by lia. change (Z.pos p~1) with (2 * Z.pos p + 1).
    generalize dependent (2 ^ (Z.pos (digits2_pos p) - 1)).
    generalize (2 ^ Z.pos (digits2_pos p)). intros; lia.
  - rewrite Pos2Z.inj_succ.
    replace (Z.succ (Z.pos (digits2_pos p)) - 1) with (Z.succ (Z.pos (digits2_pos p) - 1))
      by lia.
    rewrite !Z.pow_succ_r by lia. change (Z.pos p~0) with (2 * Z.pos p).
    generalize dependent (2 ^ (Z.pos (digits2_pos p) - 1)).
    generalize (2 ^ Z.pos (digits2_pos p)). intros; lia.
  - simpl. lia.
Qed.

Lemma digits2_pos_le (p : positive) (d : Z) :
  0 <= d -> Z.pos p < 2 ^ d -> Z.pos (digits2_pos p) <= d.
Proof.
  intros Hd Hp. pose proof (digits2_pos_bounds p) as [Hlo _].
  destruct (Z_le_gt_dec (Z.pos (digits2_pos p)) d) as [|Hgt]; [assumption|].
  assert (2 ^ d <= 2 ^ (Z.pos (digits2_pos p) - 1)) by (apply Z.pow_le_mono_r; lia).
  lia.
Qed.

Lemma iter_xO_value (p q : positive) :
  Z.pos (Pos.iter xO p q) = Z.pos p * 2 ^ Z.pos q.
Proof.
  induction q as [|q IH] using Pos.peano_ind.
  - simpl. lia.
  - rewrite Pos.iter_succ. change (Z.pos (Pos.iter xO p q)~0) with (2 * Z.pos (Pos.iter xO p q)).
    rewrite IH, Pos2Z.inj_succ, Z.pow_succ_r by lia. lia.
Qed.

Lemma iter_xO_digits (p q : positive) :
  digits2_pos (Pos.iter xO p q) = (digits2_pos p + q)%positive.
Proof.
  induction q as [|q IH] using Pos.peano_ind.
  - simpl. lia.
  - rewrite Pos.iter_succ. simpl. rewrite IH. lia.
Qed.

(** A mantissa of 53 digits with a small exponent is already rounded. *)
Lemma binary_round_aux_normal (s : bool) (m : positive) (e : Z) :
  Z.pos (digits2_pos m) = 53 -> -1074 <= e <= 971 ->
  binary_round_aux prec emax s (Z.pos m) e loc_Exact = S754_finite s m e.
Proof.
  intros Hd He.
  assert (fexp prec emax (53 + e) - e = 0) as Hshift.
  { unfold fexp, emin, prec, emax. lia. }
  unfold binary_round_aux, shr_fexp.
  cbn [Zdigits2 shr_record_of_loc]. rewrite Hd, Hshift.
  cbn [shr shr_m loc_of_shr_record round_nearest_even Zdigits2 shr_record_of_loc].
  rewrite Hd, Hshift. cbn [shr shr_m].
  unfold prec, emax.
  destruct (e <=? 1024 - 53) eqn:E; [reflexivity|]. apply Z.leb_gt in E. lia.
Qed.

(** [float64(n)] for a positive [n] below [2^53] is exact. *)
Lemma binary_normalize_small (p : positive) :
  Z.pos p < 2 ^ 53 ->
  exists m e,
    binary_normalize prec emax (Z.pos p) 0 false = S754_finite false m e /\
    Z.pos (digits2_pos m) = 53 /\ -52 <= e <= 0 /\ Z.pos m = Z.pos p * 2 ^ (- e).
Proof.
  intros Hp. pose proof (digits2_pos_le p 53 ltac:(lia) Hp) as Hd.
  assert (0 < Z.pos (digits2_pos p)) as Hd0 by lia.
  unfold binary_normalize, binary_round, shl_align.
  assert (fexp prec emax (Z.pos (digits2_pos p) + 0) = Z.pos (digits2_pos p) - 53) as ->.
  { unfold fexp, emin, prec, emax. lia. }
  destruct (Z.pos (digits2_pos p) - 53 - 0) as [|q|q] eqn:Eq; try lia.
  - exists p, 0. rewrite binary_round_aux_normal by lia.
    repeat split; try lia.
  - exists (Pos.iter xO p q), (Z.pos (digits2_pos p) - 53).
    assert (Z.pos (digits2_pos (Pos.iter xO p q)) = 53) as Hd'.
    { rewrite iter_xO_digits, Pos2Z.inj_add. lia. }
    rewrite binary_round_aux_normal by lia.
    repeat split; try lia.
    rewrite iter_xO_value. f_equal. f_equal. lia.
Qed.


Lemma normal_is_valid (s : bool) (m : positive) (e : Z) :
  Z.pos (digits2_pos m) = 53 -> -1074 <= e <= 971 ->
  valid_binary (S754_finite s m e) = true.
Proof.
  intros Hd He. unfold SpecFloat.valid_binary, bounded, canonical_mantissa.
  rewrite Hd. apply andb_true_intro. split.
  - apply Z.eqb_eq. unfold fexp, emin, prec, emax. lia.
  - apply Z.leb_le. unfold prec, emax. lia.
Qed.

Lemma float64_of_Z_small (n : Z) :
  0 < n < 2 ^ 53 ->
  exists m e,
    Prim2SF (float64_of_Z n) = S754_finite false m e /\
    Z.pos (digits2_pos m) = 53 /\ -52 <= e <= 0 /\ Z.pos m = n * 2 ^ (- e).
Proof.
  intros Hn. destruct n as [|p|p]; try lia.
  destruct (binary_normalize_small p ltac:(lia)) as (m & e & Hf & Hd & He & Hm).
  exists m, e. unfold float64_of_Z. rewrite Hf.
  rewrite Prim2SF_SF2Prim by (apply normal_is_valid; lia).
  repeat split; try assumption; lia.
Qed.

Lemma float64_of_Z_zero : Prim2SF (float64_of_Z 0) = S754_zero false.
Proof. reflexivity. Qed.

Lemma float64_of_Z_plus_sign (n : Z) :
  0 <= n < 2 ^ 53 -> plus_sign (Prim2SF (float64_of_Z n)) = true.
Proof.
  intros Hn. destruct (Z.eq_dec n 0) as [->|Hne]; [reflexivity|].
  destruct (float64_of_Z_small n ltac:(lia)) as (m & e & -> & _). reflexivity.
Qed.

(** A float with a clear sign bit that compares below [float64(n)] has an
    integer part below [n]. *)
Lemma below_float64_of_Z (x : float) (n : Z) :
  0 < n < 2 ^ 53 ->
  plus_sign (Prim2SF x) = true ->
  (x <? float64_of_Z n)%float = true ->
  exists t, trunc_float x = Some t /\ 0 <= t < n.
Proof.
  intros Hn Hs Hlt.
  destruct (float64_of_Z_small n Hn) as (m2 & e2 & Hy & Hd2 & He2 & Hm2).
  rewrite ltb_spec, Hy in Hlt.
  pose proof (Prim2SF_valid x) as Hv.
  unfold trunc_float.
  destruct (Prim2SF x) as [s|s| |s m1 e1]; simpl in Hs.
  - exists 0. split; [reflexivity|lia].
  - destruct s; [discriminate|]. discriminate.
  - discriminate.
  - destruct s; [discriminate|].
    unfold SpecFloat.valid_binary, bounded, canonical_mantissa in Hv.
    apply andb_prop in Hv. destruct Hv as [Hc _]. apply Z.eqb_eq in Hc.
    assert (Z.pos (digits2_pos m1) <= 53) as Hd1.
    { unfold fexp, emin, prec, emax in Hc. lia. }
    pose proof (digits2_pos_bounds m1) as [_ Hm1].
    assert (Z.pos m1 < 2 ^ 53) as Hm1'.
    { eapply Z.lt_le_trans; [exact Hm1|]. apply Z.pow_le_mono_r; lia. }
    pose proof (digits2_pos_bounds m2) as [Hm2lo _]. rewrite Hd2 in Hm2lo.
    change (2 ^ (53 - 1)) with (2 ^ 52) in Hm2lo.
    unfold SFltb, SFcompare in Hlt.
    eexists. split; [reflexivity|].
    destruct (Z.compare e1 e2) eqn:Ecmp.
    + (* same exponent: the mantissas decide *)
      apply Z.compare_eq in Ecmp. subst e1.
      assert (Z.pos m1 < Z.pos m2) as Hmm.
      { destruct (Pos.compare_cont Eq m1 m2) eqn:Ec; simpl in Hlt; try discriminate.
        change (Pos.compare_cont Eq m1 m2) with (Pos.compare m1 m2) in Ec.
        exact Ec. }
      destruct (0 <=? e2) eqn:E0.
      * apply Z.leb_le in E0. assert (e2 = 0) by lia. subst e2.
        simpl in *. lia.
      * apply Z.leb_gt in E0. split; [apply Z.div_pos; [lia|apply Z.pow_pos_nonneg; lia]|].
        apply Z.div_lt_upper_bound; [apply Z.pow_pos_nonneg; lia|]. lia.
    + (* a smaller exponent *)
      change (e1 < e2) in Ecmp.
      destruct (0 <=? e1) eqn:E0; [apply Z.leb_le in E0; lia|].
      apply Z.leb_gt in E0. split; [apply Z.div_pos; [lia|apply Z.pow_pos_nonneg; lia]|].
      apply Z.div_lt_upper_bound; [apply Z.pow_pos_nonneg; lia|].
      (* m1 < 2^53 <= 2^(-e1) * n *)
      assert (2 ^ (- e1) = 2 ^ (- e2) * 2 ^ (e2 - e1)) as ->.
      { rewrite <- Z.pow_add_r by lia. f_equal. lia. }
      assert (2 <= 2 ^ (e2 - e1)) as Hpow.
      { change 2 with (2 ^ 1) at 1. apply Z.pow_le_mono_r; lia. }
      assert (0 < 2 ^ (- e2)) by (apply Z.pow_pos_nonneg; lia).
      nia.
    + discriminate.
Qed.


(** Rounding keeps the sign it is given. *)
Lemma binary_round_aux_plus_sign (mx ex : Z) (lx : location) :
  plus_sign (binary_round_aux prec emax false mx ex lx) = true.
Proof.
  unfold binary_round_aux.
  destruct (shr_fexp prec emax mx ex lx) as [mrs' e'].
  destruct (shr_fexp prec emax _ e' loc_Exact) as [mrs'' e''].
  destruct (shr_m mrs'') as [|m|m]; try reflexivity.
  destruct (e'' <=? emax - prec); reflexivity.
Qed.

Lemma binary_round_plus_sign (m : positive) (e : Z) :
  plus_sign (binary_round prec emax false m e) = true.
Proof.
  unfold binary_round.
  destruct (shl_align m e _) as [mz ez]. apply binary_round_aux_plus_sign.
Qed.

Lemma add_plus_sign (x y : float) :
  plus_sign (Prim2SF x) = true -> plus_sign (Prim2SF y) = true ->
  plus_sign (Prim2SF (x + y)) = true.
Proof.
  rewrite add_spec. unfold SF64add, SFadd.
  destruct (Prim2SF x) as [[|]|[|]| |[|] mx ex]; simpl; try discriminate;
    destruct (Prim2SF y) as [[|]|[|]| |[|] my ey]; simpl; try discriminate; try reflexivity.
  intros _ _. apply binary_round_plus_sign.
Qed.

Lemma mul_plus_sign (x y : float) :
  plus_sign (Prim2SF x) = true -> plus_sign (Prim2SF y) = true ->
  plus_sign (Prim2SF (x * y)) = true.
Proof.
  rewrite mul_spec. unfold SF64mul, SFmul.
  destruct (Prim2SF x) as [[|]|[|]| |[|] mx ex]; simpl; try discriminate;
    destruct (Prim2SF y) as [[|]|[|]| |[|] my ey]; simpl; try discriminate; try reflexivity.
  intros _ _. apply binary_round_aux_plus_sign.
Qed.

Lemma div_plus_sign (x y : float) :
  plus_sign (Prim2SF x) = true -> plus_sign (Prim2SF y) = true ->
  plus_sign (Prim2SF (x / y)) = true.
Proof.
  rewrite div_spec. unfold SF64div, SFdiv.
  destruct (Prim2SF x) as [[|]|[|]| |[|] mx ex]; simpl; try discriminate;
    destruct (Prim2SF y) as [[|]|[|]| |[|] my ey]; simpl; try discriminate; try reflexivity.
  intros _ _.
  destruct (SFdiv_core_binary prec emax (Z.pos mx) ex (Z.pos my) ey) as [[mz ez] lz].
  apply binary_round_aux_plus_sign.
Qed.

Lemma digits2_pos_unique (p : positive) (k : Z) :
  2 ^ (k - 1) <= Z.pos p < 2 ^ k -> Z.pos (digits2_pos p) = k.
Proof.
  intros [Hlo Hhi]. pose proof (digits2_pos_bounds p) as [Hl Hh].
  assert (0 < Z.pos (digits2_pos p)) as Hd by lia.
  destruct (Z.lt_trichotomy (Z.pos (digits2_pos p)) k) as [Hlt|[Heq|Hgt]]; [|exact Heq|].
  - assert (2 ^ Z.pos (digits2_pos p) <= 2 ^ (k - 1)) by (apply Z.pow_le_mono_r; lia). lia.
  - assert (2 ^ k <= 2 ^ (Z.pos (digits2_pos p) - 1)) by (apply Z.pow_le_mono_r; lia). lia.
Qed.

(** One shift to the right: the mantissa is halved, the bit that falls out
    is the round bit, and the sticky bit remembers the earlier ones. *)
Lemma shr_1_spec (mrs : shr_record) :
  0 <= shr_m mrs ->
  shr_m (shr_1 mrs) = shr_m mrs / 2 /\
  (shr_m mrs mod 2 = 0 -> shr_r (shr_1 mrs) = false) /\
  shr_s (shr_1 mrs) = shr_r mrs || shr_s mrs.
Proof.
  destruct mrs as [m r s]. cbn [shr_m shr_r shr_s]. intros Hm.
  destruct m as [|[p|p|]|p]; cbn [shr_1 shr_m shr_r shr_s]; try lia.
  - repeat split.
  - split; [|split; [|reflexivity]].
    + rewrite Pos2Z.inj_xI. apply Z.div_unique with 1; lia.
    + rewrite Pos2Z.inj_xI. intros H.
      rewrite Z.add_comm, Z.mul_comm, Z.mod_add in H by lia. discriminate.
  - split; [|split; [|reflexivity]].
    + rewrite Pos2Z.inj_xO. apply Z.div_unique with 0; lia.
    + reflexivity.
  - split; [reflexivity|]. split; [discriminate|reflexivity].
Qed.

Lemma shr_1_keeps (p i : Z) (mrs : shr_record) :
  0 <= p -> 0 <= i ->
  shr_m mrs = p / 2 ^ i ->
  (p mod 2 ^ i = 0 -> shr_r mrs = false /\ shr_s mrs = false) ->
  shr_m (shr_1 mrs) = p / 2 ^ (i + 1) /\
  (p mod 2 ^ (i + 1) = 0 -> shr_r (shr_1 mrs) = false /\ shr_s (shr_1 mrs) = false).
Proof.
  intros Hp Hi Hm Hex.
  assert (0 < 2 ^ i) as Hpow by (apply Z.pow_pos_nonneg; lia).
  assert (0 <= shr_m mrs) as Hnn by (rewrite Hm; apply Z.div_pos; lia).
  destruct (shr_1_spec mrs Hnn) as (H1 & H2 & H3).
  rewrite Z.pow_add_r, Z.pow_1_r by lia.
  split.
  - rewrite H1, Hm. apply Z.div_div; lia.
  - intros Hmod. rewrite Z.rem_mul_r in Hmod by lia.
    pose proof (Z.mod_pos_bound p (2 ^ i) Hpow).
    pose proof (Z.mod_pos_bound (p / 2 ^ i) 2 ltac:(lia)).
    assert (p mod 2 ^ i = 0) as Hlow by nia.
    assert ((p / 2 ^ i) mod 2 = 0) as Hbit by nia.
    destruct (Hex Hlow) as [Hr Hs].
    split; [apply H2; rewrite Hm; exact Hbit|].
    rewrite H3, Hr, Hs. reflexivity.
Qed.

Lemma iter_pos_shr_1 (p : Z) (n : positive) :
  0 <= p ->
  forall (i : Z) (mrs : shr_record),
    0 <= i ->
    shr_m mrs = p / 2 ^ i ->
    (p mod 2 ^ i = 0 -> shr_r mrs = false /\ shr_s mrs = false) ->
    shr_m (iter_pos shr_1 n mrs) = p / 2 ^ (i + Z.pos n) /\
    (p mod 2 ^ (i + Z.pos n) = 0 ->
     shr_r (iter_pos shr_1 n mrs) = false /\ shr_s (iter_pos shr_1 n mrs) = false).
Proof.
  intros Hp. induction n as [n IH|n IH|]; intros i mrs Hi Hm Hex; cbn [iter_pos].
  - destruct (shr_1_keeps p i mrs Hp Hi Hm Hex) as [H1 H2].
    destruct (IH (i + 1) (shr_1 mrs) ltac:(lia) H1 H2) as [H3 H4].
    destruct (IH (i + 1 + Z.pos n) _ ltac:(lia) H3 H4) as [H5 H6].
    replace (i + Z.pos n~1) with (i + 1 + Z.pos n + Z.pos n) by lia.
    split; assumption.
  - destruct (IH i mrs Hi Hm Hex) as [H3 H4].
    destruct (IH (i + Z.pos n) _ ltac:(lia) H3 H4) as [H5 H6].
    replace (i + Z.pos n~0) with (i + Z.pos n + Z.pos n) by lia.
    split; assumption.
  - apply shr_1_keeps; assumption.
Qed.

Lemma round_nearest_even_bounds (mrs : shr_record) :
  shr_m mrs <= round_nearest_even (shr_m mrs) (loc_of_shr_record mrs) <= shr_m mrs + 1 /\
  (shr_r mrs = false -> shr_s mrs = false ->
   round_nearest_even (shr_m mrs) (loc_of_shr_record mrs) = shr_m mrs).
Proof.
  destruct mrs as [m [|] [|]]; cbn [shr_m shr_r shr_s loc_of_shr_record round_nearest_even];
    try destruct (Z.even m); repeat split; try lia; try discriminate.
Qed.

(** A mantissa that already has the digits its exponent asks for is kept. *)
Lemma binary_round_aux_exact (m : positive) (e : Z) :
  fexp prec emax (Z.pos (digits2_pos m) + e) = e -> e <= 971 ->
  binary_round_aux prec emax false (Z.pos m) e loc_Exact = S754_finite false m e.
Proof.
  intros Hf He. unfold binary_round_aux, shr_fexp.
  cbn [Zdigits2 shr_record_of_loc]. rewrite Hf, Z.sub_diag.
  cbn [shr shr_m loc_of_shr_record round_nearest_even Zdigits2 shr_record_of_loc].
  rewrite Hf, Z.sub_diag. cbn [shr shr_m].
  unfold prec, emax.
  destruct (e <=? 1024 - 53) eqn:E; [reflexivity|]. apply Z.leb_gt in E. lia.
Qed.

(** Rounding to nearest does not pass an integer: a positive number
    [p * 2^e] that is at most the integer [c], below [2^53], is rounded to
    a finite float that is at most [c]. *)
Lemma binary_round_le (p : positive) (e c : Z) :
  -1074 <= e -> 0 < c < 2 ^ 53 ->
  Z.pos p * 2 ^ (e + 1074) <= c * 2 ^ 1074 ->
  exists m' e',
    binary_round prec emax false p e = S754_finite false m' e' /\
    -1074 <= e' /\
    Z.pos m' * 2 ^ (e' + 1074) <= c * 2 ^ 1074.
Proof.
  intros He Hc Hle.
  pose proof (digits2_pos_bounds p) as [Hlo Hhi].
  set (d := Z.pos (digits2_pos p)) in *.
  assert (0 < d) as Hd by (unfold d; lia).
  assert (0 < 2 ^ 1074) as H1074 by (apply Z.pow_pos_nonneg; lia).
  assert (d + e <= 53) as Hde.
  { destruct (Z_le_gt_dec (d + e) 53) as [|Hgt]; [assumption|exfalso].
    assert (2 ^ (53 + 1074) <= 2 ^ (d - 1 + (e + 1074))) as Hp
        by (apply Z.pow_le_mono_r; lia).
    rewrite !Z.pow_add_r in Hp by lia.
    assert (0 < 2 ^ (e + 1074)) by (apply Z.pow_pos_nonneg; lia).
    assert (2 ^ (d - 1) * 2 ^ (e + 1074) <= Z.pos p * 2 ^ (e + 1074)) by nia.
    nia. }
  assert (fexp prec emax (d + e) = Z.max (d + e - 53) (-1074)) as Hfexp.
  { unfold fexp, emin, prec, emax. lia. }
  unfold binary_round, shl_align. fold d. rewrite Hfexp.
  destruct (Z.max (d + e - 53) (-1074) - e) as [|q|q] eqn:Eq.
  - (* the exponent is the right one *)
    exists p, e. rewrite binary_round_aux_exact by (fold d; lia).
    repeat split; assumption.
  - (* too many digits: shift to the right and round *)
    assert (Z.pos q = d - 53) as Hq by lia.
    assert (e + Z.pos q <= 0) as He' by lia.
    unfold binary_round_aux, shr_fexp.
    cbn [Zdigits2 shr_record_of_loc]. fold d. rewrite Hfexp, Eq.
    cbn [shr].
    destruct (iter_pos_shr_1 (Z.pos p) q ltac:(lia) 0
                {| shr_m := Z.pos p; shr_r := false; shr_s := false |} ltac:(lia))
      as [Hm Hex].
    { cbn [shr_m]. rewrite Z.pow_0_r, Z.div_1_r. reflexivity. }
    { intros _. split; reflexivity. }
    rewrite Z.add_0_l in Hm, Hex.
    set (mrs := iter_pos shr_1 q _) in *.
    destruct (round_nearest_even_bounds mrs) as [Hr Hrx].
    set (m1 := round_nearest_even (shr_m mrs) (loc_of_shr_record mrs)) in *.
    assert (0 < 2 ^ Z.pos q) as Hpq by (apply Z.pow_pos_nonneg; lia).
    assert (2 ^ d = 2 ^ 53 * 2 ^ Z.pos q) as Hpd.
    { rewrite <- Z.pow_add_r by lia. f_equal. lia. }
    assert (2 ^ (d - 1) = 2 ^ 52 * 2 ^ Z.pos q) as Hpd1.
    { rewrite <- Z.pow_add_r by lia. f_equal. lia. }
    assert (2 ^ 52 <= shr_m mrs < 2 ^ 53) as Hmr.
    { rewrite Hm. split.
      - apply Z.div_le_lower_bound; lia.
      - apply Z.div_lt_upper_bound; lia. }
    (* the integer [c] in units of the new exponent *)
    set (K := c * 2 ^ (- (e + Z.pos q))).
    assert (0 < 2 ^ (- (e + Z.pos q))) as HpK by (apply Z.pow_pos_nonneg; lia).
    assert (0 < 2 ^ (e + 1074)) as Hpe by (apply Z.pow_pos_nonneg; lia).
    assert (2 ^ 1074 = 2 ^ (e + 1074) * (2 ^ (- (e + Z.pos q)) * 2 ^ Z.pos q)) as Hsplit.
    { rewrite <- !Z.pow_add_r by lia. f_equal. lia. }
    assert (Z.pos p <= K * 2 ^ Z.pos q) as HpK'.
    { unfold K. rewrite Hsplit in Hle.
      apply (Z.mul_le_mono_pos_r _ _ (2 ^ (e + 1074))); [exact Hpe|]. nia. }
    assert (m1 <= K) as Hm1K.
    { assert (shr_m mrs <= K) as HmK.
      { rewrite Hm. apply Z.div_le_upper_bound; lia. }
      destruct (Z.eq_dec m1 (shr_m mrs)) as [->|Hne]; [exact HmK|].
      assert (Z.pos p mod 2 ^ Z.pos q <> 0) as Hrem.
      { intros H0. destruct (Hex H0) as [H1 H2]. apply Hne. apply Hrx; assumption. }
      assert (shr_m mrs < K); [|lia].
      rewrite Hm. apply Z.div_lt_upper_bound; [lia|].
      destruct (Z.eq_dec (Z.pos p) (K * 2 ^ Z.pos q)) as [Heq|]; [|lia].
      exfalso. apply Hrem. rewrite Heq. apply Z.mod_mul. lia. }
    assert (2 ^ 1074 = 2 ^ (e + Z.pos q + 1074) * 2 ^ (- (e + Z.pos q))) as Hsplit'.
    { rewrite <- Z.pow_add_r by lia. f_equal. lia. }
    assert (0 < 2 ^ (e + Z.pos q + 1074)) as Hpe' by (apply Z.pow_pos_nonneg; lia).
    assert (m1 * 2 ^ (e + Z.pos q + 1074) <= c * 2 ^ 1074) as Hval.
    { rewrite Hsplit'. unfold K in Hm1K. nia. }
    destruct m1 as [|m1p|m1p] eqn:Em1; try lia.
    destruct (Z.eq_dec (Z.pos m1p) (2 ^ 53)) as [Hfull|Hless].
    + (* the mantissa has grown to 54 digits *)
      assert (m1p = 9007199254740992%positive) as -> by lia.
      cbn [Zdigits2 digits2_pos Pos.succ shr_record_of_loc].
      assert (fexp prec emax (54 + (e + Z.pos q)) - (e + Z.pos q) = 1) as ->.
      { unfold fexp, emin, prec, emax. lia. }
      cbn [shr iter_pos shr_1 shr_m].
      assert (e + Z.pos q < 0) as Hneg.
      { destruct (Z.eq_dec (e + Z.pos q) 0) as [H0|]; [|lia].
        exfalso. unfold K in Hm1K. rewrite H0 in Hm1K. simpl in Hm1K. lia. }
      destruct (e + Z.pos q + 1 <=? emax - prec) eqn:E;
        [|apply Z.leb_gt in E; unfold emax, prec in E; lia].
      eexists _, _. split; [reflexivity|]. split; [lia|].
      replace (e + Z.pos q + 1 + 1074) with (1 + (e + Z.pos q + 1074)) by lia.
      rewrite Z.pow_add_r by lia.
      change (2 ^ 53) with 9007199254740992 in Hfull.
      change (2 ^ 1) with 2. lia.
    + assert (Z.pos (digits2_pos m1p) = 53) as Hd1.
      { apply digits2_pos_unique. change (2 ^ (53 - 1)) with (2 ^ 52). lia. }
      cbn [Zdigits2 shr_record_of_loc]. rewrite Hd1.
      assert (fexp prec emax (53 + (e + Z.pos q)) - (e + Z.pos q) = 0) as ->.
      { unfold fexp, emin, prec, emax. lia. }
      cbn [shr shr_m].
      destruct (e + Z.pos q <=? emax - prec) eqn:E;
        [|apply Z.leb_gt in E; unfold emax, prec in E; lia].
      eexists _, _. split; [reflexivity|]. split; [lia|exact Hval].
  - (* too few digits: shift to the left *)
    assert (Z.max (d + e - 53) (-1074) = e - Z.pos q) as Ht by lia.
    rewrite Ht.
    exists (Pos.iter xO p q), (e - Z.pos q).
    rewrite binary_round_aux_exact.
    + split; [reflexivity|]. split; [lia|].
      rewrite iter_xO_value.
      replace (e + 1074) with (Z.pos q + (e - Z.pos q + 1074)) in Hle by lia.
      rewrite Z.pow_add_r in Hle by lia. lia.
    + rewrite iter_xO_digits, Pos2Z.inj_add. fold d.
      unfold fexp, emin, prec, emax. lia.
    + lia.
Qed.

(** The integer part, in units of [2^-1074]. *)
Lemma trunc_scaled (m : positive) (e : Z) :
  -1074 <= e ->
  let a := if 0 <=? e then Z.pos m * 2 ^ e else Z.pos m / 2 ^ (- e) in
  a * 2 ^ 1074 <= Z.pos m * 2 ^ (e + 1074) < (a + 1) * 2 ^ 1074.
Proof.
  intros He a. unfold a.
  destruct (0 <=? e) eqn:E.
  - apply Z.leb_le in E. rewrite Z.pow_add_r by lia.
    assert (0 < 2 ^ 1074) by (apply Z.pow_pos_nonneg; lia). lia.
  - apply Z.leb_gt in E.
    assert (0 < 2 ^ (- e)) as Hg by (apply Z.pow_pos_nonneg; lia).
    assert (0 < 2 ^ (e + 1074)) as Hh by (apply Z.pow_pos_nonneg; lia).
    assert (2 ^ 1074 = 2 ^ (- e) * 2 ^ (e + 1074)) as ->.
    { rewrite <- Z.pow_add_r by lia. f_equal. lia. }
    pose proof (Z.mul_div_le (Z.pos m) (2 ^ (- e)) Hg).
    pose proof (Z.mul_succ_div_gt (Z.pos m) (2 ^ (- e)) Hg).
    nia.
Qed.

Lemma shl_align_fst (m : positive) (e ez : Z) :
  ez <= e -> Z.pos (fst (shl_align m e ez)) = Z.pos m * 2 ^ (e - ez).
Proof.
  intros H. unfold shl_align.
  destruct (ez - e) as [|q|q] eqn:E; cbn [fst]; try lia.
  - replace (e - ez) with 0 by lia. lia.
  - rewrite iter_xO_value. f_equal. f_equal. lia.
Qed.

Lemma valid_exponent (s : bool) (m : positive) (e : Z) :
  valid_binary (S754_finite s m e) = true ->
  fexp prec emax (Z.pos (digits2_pos m) + e) = e /\ -1074 <= e.
Proof.
  unfold SpecFloat.valid_binary, bounded, canonical_mantissa. intros Hv.
  apply andb_prop in Hv. destruct Hv as [Hc _]. apply Z.eqb_eq in Hc.
  split; [exact Hc|]. unfold fexp, emin, prec, emax in Hc. lia.
Qed.

(** The integer part of a sum of two floats with clear sign bits is at
    most the sum of the integer parts and two. *)
Lemma add_trunc_le (x s : float) (a t : Z) :
  plus_sign (Prim2SF x) = true -> plus_sign (Prim2SF s) = true ->
  trunc_float x = Some a -> trunc_float s = Some t ->
  a + t + 2 < 2 ^ 53 ->
  exists q, trunc_float (x + s) = Some q /\ q <= a + t + 2.
Proof.
  intros Hx Hs Ha Ht Hsmall.
  pose proof (Prim2SF_valid x) as Hvx. pose proof (Prim2SF_valid s) as Hvs.
  unfold trunc_float in *. rewrite add_spec. unfold SF64add, SFadd.
  destruct (Prim2SF x) as [sx|sx| |sx mx ex]; try discriminate;
    destruct (Prim2SF s) as [sy|sy| |sy my ey]; try discriminate;
    cbn [plus_sign] in Hx, Hs;
    destruct sx; try discriminate; destruct sy; try discriminate;
    cbn [negb] in *.
  - inversion Ha; inversion Ht; subst. exists 0. split; [reflexivity|lia].
  - inversion Ha; subst. exists t. split; [exact Ht|].
    inversion Ht; subst.
    lia.
  - inversion Ht; subst. exists a. split; [exact Ha|].
    inversion Ha; subst.
    lia.
  - destruct (valid_exponent _ _ _ Hvx) as [_ Hex].
    destruct (valid_exponent _ _ _ Hvs) as [_ Hey].
    assert ((if 0 <=? ex then Z.pos mx * 2 ^ ex else Z.pos mx / 2 ^ (- ex)) = a) as Ha'
        by congruence.
    assert ((if 0 <=? ey then Z.pos my * 2 ^ ey else Z.pos my / 2 ^ (- ey)) = t) as Ht'
        by congruence.
    pose proof (trunc_scaled mx ex Hex) as Hsx. cbv zeta in Hsx. rewrite Ha' in Hsx.
    pose proof (trunc_scaled my ey Hey) as Hsy. cbv zeta in Hsy. rewrite Ht' in Hsy.
    assert (0 < 2 ^ 1074) as H1074 by (apply Z.pow_pos_nonneg; lia).
    assert (0 <= a) as Ha0.
    { assert (0 < Z.pos mx * 2 ^ (ex + 1074)); [|nia].
      apply Z.mul_pos_pos; [lia|apply Z.pow_pos_nonneg; lia]. }
    assert (0 <= t) as Ht0.
    { assert (0 < Z.pos my * 2 ^ (ey + 1074)); [|nia].
      apply Z.mul_pos_pos; [lia|apply Z.pow_pos_nonneg; lia]. }
    cbv zeta. cbn [cond_Zopp].
    pose proof (shl_align_fst mx ex (Z.min ex ey) ltac:(lia)) as Hax.
    pose proof (shl_align_fst my ey (Z.min ex ey) ltac:(lia)) as Hay.
    set (Mx := fst (shl_align mx ex (Z.min ex ey))) in *.
    set (My := fst (shl_align my ey (Z.min ex ey))) in *.
    change (Z.pos Mx + Z.pos My) with (Z.pos (Mx + My)).
    cbn [binary_normalize].
    destruct (binary_round_le (Mx + My) (Z.min ex ey) (a + t + 2)) as (m' & e' & Hr & He' & Hv).
    + lia.
    + lia.
    + rewrite Pos2Z.inj_add, Hax, Hay, Z.mul_add_distr_r.
      rewrite <- !Z.mul_assoc, <- !Z.pow_add_r by lia.
      replace (ex - Z.min ex ey + (Z.min ex ey + 1074)) with (ex + 1074) by lia.
      replace (ey - Z.min ex ey + (Z.min ex ey + 1074)) with (ey + 1074) by lia.
      nia.
    + rewrite Hr. eexists. split; [reflexivity|].
      pose proof (trunc_scaled m' e' He') as Hsz. cbv zeta in Hsz.
      set (q := if 0 <=? e' then Z.pos m' * 2 ^ e' else Z.pos m' / 2 ^ (- e')) in *.
      nia.
Qed.

(** A finite float with a clear sign bit that does not compare below
    [float64(n)] has an integer part of at least [n]. *)
Lemma not_below_float64_of_Z (r : float) (n q : Z) :
  0 < n < 2 ^ 53 ->
  plus_sign (Prim2SF r) = true ->
  trunc_float r = Some q ->
  (r <? float64_of_Z n)%float = false ->
  n <= q.
Proof.
  intros Hn Hs Hq Hlt.
  destruct (float64_of_Z_small n Hn) as (m2 & e2 & Hy & Hd2 & He2 & Hm2).
  rewrite ltb_spec, Hy in Hlt.
  pose proof (Prim2SF_valid r) as Hv.
  unfold trunc_float in Hq.
  destruct (Prim2SF r) as [s|s| |s m1 e1]; try discriminate.
  cbn [plus_sign] in Hs. destruct s; [discriminate|].
    destruct (valid_exponent _ _ _ Hv) as [Hc He1].
    unfold fexp, emin, prec, emax in Hc.
    pose proof (digits2_pos_bounds m1) as [Hm1lo Hm1hi].
    pose proof (digits2_pos_bounds m2) as [Hm2lo Hm2hi]. rewrite Hd2 in Hm2lo, Hm2hi.
    change (2 ^ (53 - 1)) with (2 ^ 52) in Hm2lo.
    assert ((if 0 <=? e1 then Z.pos m1 * 2 ^ e1 else Z.pos m1 / 2 ^ (- e1)) = q) as Hq'
        by congruence.
    clear Hq. rewrite <- Hq'.
    unfold SFltb, SFcompare in Hlt.
    destruct (Z.compare e1 e2) eqn:Ecmp.
    + apply Z.compare_eq in Ecmp. subst e1.
      assert (Z.pos m2 <= Z.pos m1) as Hmm.
      { destruct (Pos.compare_cont Eq m1 m2) eqn:Ec; try discriminate.
        - apply Pos.compare_eq in Ec. subst. lia.
        - change (Pos.compare_cont Eq m1 m2) with (Pos.compare m1 m2) in Ec.
          apply Pos.compare_gt_iff in Ec. lia. }
      destruct (0 <=? e2) eqn:E0.
      * apply Z.leb_le in E0. assert (e2 = 0) by lia. subst e2.
        simpl in *. lia.
      * apply Z.div_le_lower_bound; [apply Z.pow_pos_nonneg; lia|]. lia.
    + discriminate.
    + change (e1 > e2) in Ecmp.
      assert (Z.pos (digits2_pos m1) = 53) as Hd1 by lia.
      rewrite Hd1 in Hm1lo. change (2 ^ (53 - 1)) with (2 ^ 52) in Hm1lo.
      assert (0 < 2 ^ (- e2)) as Hp2 by (apply Z.pow_pos_nonneg; lia).
      destruct (0 <=? e1) eqn:E0.
      * apply Z.leb_le in E0.
        assert (0 < 2 ^ e1) by (apply Z.pow_pos_nonneg; lia).
        destruct (Z.eq_dec e1 0) as [->|Hne].
        -- assert (2 <= 2 ^ (- e2)).
           { change 2 with (2 ^ 1) at 1. apply Z.pow_le_mono_r; lia. }
           change (2 ^ 53) with (2 * 2 ^ 52) in *. nia.
        -- assert (2 <= 2 ^ e1).
           { change 2 with (2 ^ 1) at 1. apply Z.pow_le_mono_r; lia. }
           change (2 ^ 53) with (2 * 2 ^ 52) in *. nia.
      * apply Z.leb_gt in E0.
        apply Z.div_le_lower_bound; [apply Z.pow_pos_nonneg; lia|].
        assert (2 ^ (- e2) = 2 ^ (- e1) * 2 ^ (e1 - e2)) as Hsp.
        { rewrite <- Z.pow_add_r by lia. f_equal. lia. }
        assert (2 <= 2 ^ (e1 - e2)) as Hpow.
        { change 2 with (2 ^ 1) at 1. apply Z.pow_le_mono_r; lia. }
        assert (0 < 2 ^ (- e1)) by (apply Z.pow_pos_nonneg; lia).
        change (2 ^ 53) with (2 * 2 ^ 52) in *. nia.
Qed.

End FloatFacts.

(* ================================================================== *)
(** * The resampler: results *)
(* ================================================================== *)

Module ResamplerFacts.
Import audio GoFacts FloatFacts.

Lemma NewGoResampler_well_formed (c sr nsr : Z) (v : goResampler) :
  NewGoResampler c sr nsr = Ok v -> well_formed v.
Proof.
  unfold NewGoResampler, well_formed.
  destruct (c <? 1) eqn:E1; [discriminate|].
  destruct (2 <? c) eqn:E2; [discriminate|].
  destruct (sr <=? 0) eqn:E3; [discriminate|].
  destruct (nsr <=? 0) eqn:E4; [discriminate|].
  simpl. intros H; inversion H; subst; simpl. lia.
Qed.

Lemma wrap_int_two_channels (c : Z) :
  1 <= c <= 2 -> wrap_int (2 * c) = 2 * c.
Proof.
  intros Hc. assert (c = 1 \/ c = 2) as [-> | ->] by lia; reflexivity.
Qed.

(** C8: with [isr = osr], a buffer whose length is a nonzero multiple of
    [2 * channels] comes back byte for byte, with no error and the
    resampler as it was. *)
Theorem Handle_same_rate_is_identity (fuel : nat) (v : goResampler) (pcm : list byte) :
  1 <= channels v <= 2 ->
  isr v = osr v ->
  len pcm <> 0 ->
  Z.rem (len pcm) (2 * channels v) = 0 ->
  Handle fuel v pcm = Returns (v, Ok pcm).
Proof.
  intros Hc Hsr Hne Hmod. unfold Handle.
  rewrite (wrap_int_two_channels _ Hc).
  destruct (len pcm =? 0) eqn:E0; [apply Z.eqb_eq in E0; contradiction|].
  destruct (2 * channels v =? 0) eqn:E1; [apply Z.eqb_eq in E1; lia|].
  rewrite Hmod. simpl.
  rewrite Hsr, Z.eqb_refl. reflexivity.
Qed.

Lemma Handle_same_rate_is_identity_witness :
  Handle 0 (mkResampler 2 24000 24000 [] [] 0 0 0 0) [x01; x02; x03; x04]
  = Returns (mkResampler 2 24000 24000 [] [] 0 0 0 0, Ok [x01; x02; x03; x04]).
Proof.
  apply (Handle_same_rate_is_identity 0 (mkResampler 2 24000 24000 [] [] 0 0 0 0)
           [x01; x02; x03; x04]); simpl; try lia; try reflexivity.
  vm_compute. discriminate.
Defined.

(** C7, as the code has it: three samples on a fresh 16 kHz to 24 kHz mono
    resampler are answered with an error, not with an empty success. *)
Lemma Handle_short_input_reports_error :
  isr mono_16k_24k <> osr mono_16k_24k /\
  Z.quot (Z.quot (len (repeat x00 6)) 2) (channels mono_16k_24k) < 4 /\
  Handle 8 mono_16k_24k (repeat x00 6)
  = Returns (mono_16k_24k, Err "invalid pcm, atleast 4samples, actual 3samples") /\
  (forall out, Handle 8 mono_16k_24k (repeat x00 6) <> Returns (mono_16k_24k, Ok out)).
Proof.
  repeat split; try (vm_compute; congruence).
Qed.

(** C7 (amended): with [isr <> osr], a buffer of fewer than four samples
    per channel makes [Handle] return no output and an error; nothing is
    consumed and the resampler is left as it was. *)
Theorem Handle_short_input_errors (fuel : nat) (v : goResampler) (pcm : list byte) :
  1 <= channels v <= 2 ->
  isr v <> osr v ->
  Z.quot (Z.quot (len pcm) 2) (channels v) < 4 ->
  exists e, Handle fuel v pcm = Returns (v, Err e).
Proof.
  intros Hc Hsr Hnb. unfold Handle.
  rewrite (wrap_int_two_channels _ Hc).
  destruct (len pcm =? 0) eqn:E0; [eauto|].
  destruct (2 * channels v =? 0) eqn:E1; [apply Z.eqb_eq in E1; lia|].
  destruct (negb (Z.rem (len pcm) (2 * channels v) =? 0)) eqn:E2; [eauto|].
  destruct (isr v =? osr v) eqn:E3; [apply Z.eqb_eq in E3; contradiction|].
  destruct (Z.quot (Z.quot (len pcm) 2) (channels v) <? 4) eqn:E4; [eauto|].
  apply Z.ltb_ge in E4. lia.
Qed.

Lemma Handle_short_input_errors_witness :
  exists e, Handle 8 mono_16k_24k (repeat x00 6) = Returns (mono_16k_24k, Err e).
Proof.
  apply (Handle_short_input_errors 8 mono_16k_24k (repeat x00 6)).
  - simpl; lia.
  - simpl; lia.
  - vm_compute; reflexivity.
Defined.

(** ** The tail cache and the counters *)

Arguments Handle_right : simpl never.
Arguments resampleChannel : simpl never.
Arguments resampleMerge : simpl never.
Arguments keep_tail : simpl never.

(** [keep_tail] on an emptied cache: the unconsumed suffix. *)
Lemma keep_tail_suffix (ipcm cache : list Z) (consumed : Z) :
  keep_tail [] ipcm consumed = Returns cache ->
  0 <= consumed /\ cache = skipn (Z.to_nat consumed) ipcm.
Proof.
  unfold keep_tail, slice.
  destruct (consumed <? len ipcm) eqn:E.
  - apply Z.ltb_lt in E.
    destruct (consumed <? 0) eqn:E0; simpl; [discriminate|].
    apply Z.ltb_ge in E0.
    destruct (len ipcm <? consumed) eqn:E1; simpl; [discriminate|].
    rewrite Z.ltb_irrefl. simpl.
    intros H; inversion H; subst. split; [exact E0|].
    apply firstn_all2. rewrite length_skipn. unfold len in *. lia.
  - apply Z.ltb_ge in E. intros H; inversion H; subst.
    pose proof (len_nonneg ipcm). split; [lia|].
    symmetry. apply skipn_len_all. exact E.
Qed.

(** At most sixteen samples: nothing is resampled and nothing consumed. *)
Lemma resampleChannel_at_most_16 (fuel : nat) (ipcm : list Z) (isr osr written org : Z) :
  len ipcm <= 16 ->
  resampleChannel fuel ipcm isr osr written org = Returns ([], 0, None).
Proof.
  intros H. unfold resampleChannel.
  destruct (len ipcm <=? 16) eqn:E; [reflexivity|].
  apply Z.leb_gt in E. lia.
Qed.

Lemma wrap_int_of_uint64 (d : Z) :
  - 2 ^ 63 <= d < 2 ^ 63 -> wrap_int (wrap_uint64 d) = d.
Proof.
  intros Hd. unfold wrap_int, wrap_uint64.
  rewrite Z.add_mod_idemp_l by lia. rewrite Z.mod_small; lia.
Qed.

(** One round of the loop consumes at most what is available. *)
Lemma resampleChannel_body_consumed (ipcm : list Z) (org last : Z) (x : float)
    (s consumed : Z) :
  0 <= org -> org < last < 2 ^ 53 ->
  plus_sign (Prim2SF x) = true ->
  (x <? float64_of_Z last)%float = true ->
  resampleChannel_body ipcm org x = Returns (Ok (s, consumed)) ->
  consumed <= last - org.
Proof.
  intros Horg Hlast Hs Hlt.
  destruct (below_float64_of_Z x last ltac:(lia) Hs Hlt) as (t & Ht & Hrange).
  assert (2 ^ 53 < 2 ^ 63) as Hpow by reflexivity.
  assert (uint64_of_float x = t) as Hu.
  { unfold uint64_of_float. rewrite Ht. apply wrap_uint64_small.
    assert (2 ^ 63 < 2 ^ 64) by reflexivity. lia. }
  unfold resampleChannel_body. rewrite Hu.
  destruct (index ipcm _) as [s0| |]; cbn [bind]; try discriminate.
  destruct (index ipcm _) as [s1| |]; cbn [bind]; try discriminate.
  destruct (index ipcm _) as [s2| |]; cbn [bind]; try discriminate.
  destruct (index ipcm _) as [s3| |]; cbn [bind]; try discriminate.
  destruct (spline _ _ _ _) as [yo|e]; [|discriminate].
  destruct (index yo 0) as [y| |]; cbn [bind]; try discriminate.
  intros H; inversion H; subst.
  rewrite wrap_int_of_uint64 by lia. rewrite wrap_int_small by lia. lia.
Qed.

Lemma resampleChannel_loop_consumed (ipcm : list Z) (org last : Z) (step : float) :
  0 <= org -> org < last < 2 ^ 53 ->
  plus_sign (Prim2SF step) = true ->
  forall (fuel : nat) (x : float) (opcm opcm' : list Z) (consumed consumed' : Z)
         (err : option string),
    plus_sign (Prim2SF x) = true ->
    consumed <= last - org ->
    resampleChannel_loop fuel ipcm org step (float64_of_Z last) x opcm consumed
    = Returns (opcm', consumed', err) ->
    consumed' <= last - org.
Proof.
  intros Horg Hlast Hstep. induction fuel as [|fuel IH];
    intros x opcm opcm' consumed consumed' err Hx Hc; simpl; [discriminate|].
  destruct (x <? float64_of_Z last)%float eqn:Hlt.
  - destruct (resampleChannel_body ipcm org x) as [[[s c]|e]| |] eqn:Hbody;
      simpl; try discriminate.
    + apply IH; [apply add_plus_sign; assumption|].
      eapply resampleChannel_body_consumed; eassumption.
    + intros H; inversion H; subst. exact Hc.
  - intros H; inversion H; subst. exact Hc.
Qed.

(** More than sixteen samples: at least sixteen stay unconsumed. *)
Lemma resampleChannel_leaves_16 (fuel : nat) (ipcm opcm : list Z)
    (isr osr ws cs consumed : Z) (err : option string) :
  small isr osr ws cs (len ipcm) ->
  resampleChannel fuel ipcm isr osr ws cs = Returns (opcm, consumed, err) ->
  consumed <= Z.max 0 (len ipcm - 16).
Proof.
  intros (Hisr & Hosr & Hws & Hcs & Hn). unfold resampleChannel.
  destruct (len ipcm <=? 16) eqn:E.
  - intros H; inversion H; subst. lia.
  - apply Z.leb_gt in E.
    assert (2 ^ 53 < 2 ^ 64) as Hpow by reflexivity.
    rewrite (wrap_uint64_small (len ipcm - 16)) by lia.
    rewrite (wrap_uint64_small (cs + (len ipcm - 16))) by lia.
    intros H.
    apply resampleChannel_loop_consumed in H; try lia.
    + apply div_plus_sign; apply float64_of_Z_plus_sign; lia.
    + apply mul_plus_sign; [apply div_plus_sign|]; apply float64_of_Z_plus_sign; lia.
Qed.

(** [keep_tail] on an emptied cache, as a formula. *)
Lemma keep_tail_formula (ipcm cache : list Z) (consumed : Z) :
  keep_tail [] ipcm consumed = Returns cache ->
  0 <= consumed /\
  cache = (if consumed <? len ipcm then skipn (Z.to_nat consumed) ipcm else []).
Proof.
  intros H. destruct (keep_tail_suffix _ _ _ H) as [H0 H1]. split; [exact H0|].
  unfold keep_tail in H. destruct (consumed <? len ipcm); [exact H1|].
  inversion H. reflexivity.
Qed.

Lemma position_shift (step x : float) (j : nat) :
  position step (x + step)%float j = position step x (Datatypes.S j).
Proof.
  induction j as [|j IH]; [reflexivity|].
  cbn [position] in *. rewrite IH. reflexivity.
Qed.

Lemma position_plus_sign (step x : float) (j : nat) :
  plus_sign (Prim2SF step) = true -> plus_sign (Prim2SF x) = true ->
  plus_sign (Prim2SF (position step x j)) = true.
Proof.
  intros Hs Hx. induction j as [|j IH]; cbn [position]; [exact Hx|].
  apply add_plus_sign; assumption.
Qed.

(** What one round of the loop leaves in [consumed]. *)
Lemma resampleChannel_body_value (ipcm : list Z) (org : Z) (x : float) (s c : Z) :
  resampleChannel_body ipcm org x = Returns (Ok (s, c)) ->
  c = wrap_int (wrap_int (wrap_uint64 (uint64_of_float x - org)) + 1).
Proof.
  unfold resampleChannel_body.
  destruct (index ipcm _) as [s0| |]; cbn [bind]; try discriminate.
  destruct (index ipcm _) as [s1| |]; cbn [bind]; try discriminate.
  destruct (index ipcm _) as [s2| |]; cbn [bind]; try discriminate.
  destruct (index ipcm _) as [s3| |]; cbn [bind]; try discriminate.
  destruct (spline _ _ _ _) as [yo|e]; [|discriminate].
  destruct (index yo 0) as [y| |]; cbn [bind]; try discriminate.
  intros H; inversion H; subst. reflexivity.
Qed.

(** The loop writes one sample for each position below [flast], stops at
    the first position that is not, and leaves in [consumed] what the last
    round computed. *)
Lemma resampleChannel_loop_positions (ipcm : list Z) (org : Z) (step flast : float) :
  forall (fuel : nat) (x : float) (opcm opcm' : list Z) (consumed consumed' : Z),
    resampleChannel_loop fuel ipcm org step flast x opcm consumed
    = Returns (opcm', consumed', None) ->
    exists new,
      opcm' = opcm ++ new /\
      (forall j, (j < List.length new)%nat -> (position step x j <? flast)%float = true) /\
      (position step x (List.length new) <? flast)%float = false /\
      consumed' = match List.length new with
                  | O => consumed
                  | Datatypes.S j =>
                      wrap_int (wrap_int (wrap_uint64
                                  (uint64_of_float (position step x j) - org)) + 1)
                  end.
Proof.
  induction fuel as [|fuel IH]; intros x opcm opcm' consumed consumed';
    cbn [resampleChannel_loop]; [discriminate|].
  destruct (x <? flast)%float eqn:Hlt.
  - destruct (resampleChannel_body ipcm org x) as [[[s c]|e]| |] eqn:Hbody;
      cbn [bind]; try discriminate.
    intros Hrun. destruct (IH _ _ _ _ _ Hrun) as (new & -> & Hbelow & Hstop & Hc).
    exists (s :: new). split; [rewrite <- app_assoc; reflexivity|].
    cbn [List.length]. split; [|split].
    + intros [|j] Hj; [exact Hlt|]. rewrite <- position_shift. apply Hbelow. lia.
    + rewrite <- position_shift. exact Hstop.
    + rewrite Hc. destruct (List.length new) as [|j].
      * apply (resampleChannel_body_value _ _ _ _ _ Hbody).
      * rewrite position_shift. reflexivity.
  - intros H; inversion H; subst. exists []. rewrite app_nil_r.
    split; [reflexivity|]. split; [intros j Hj; simpl in Hj; lia|].
    split; [exact Hlt|reflexivity].
Qed.

Lemma channel_step_of_run (fuel : nat) (ipcm cache' opcm : list Z)
    (isr osr ws cs consumed : Z) :
  resampleChannel fuel ipcm isr osr ws cs = Returns (opcm, consumed, None) ->
  keep_tail [] ipcm consumed = Returns cache' ->
  channel_step isr osr ipcm cache' opcm
    ws (wrap_uint64 (ws + wrap_uint64 (len opcm)))
    cs (wrap_uint64 (cs + wrap_uint64 consumed)) consumed.
Proof.
  intros Hrun Hkeep.
  destruct (keep_tail_formula _ _ _ Hkeep) as [Hc0 Hcache].
  pose proof (len_nonneg opcm) as Hk0.
  pose proof (len_nonneg ipcm) as Hn0.
  unfold channel_step. cbv zeta.
  set (step := (float64_of_Z isr / float64_of_Z osr)%float).
  set (x0 := (step * float64_of_Z ws)%float).
  set (flast := float64_of_Z (wrap_uint64 (cs + wrap_uint64 (len ipcm - 16)))).
  assert ((if len ipcm <=? 16 then List.length opcm = 0%nat
           else (forall j, (j < List.length opcm)%nat ->
                           (position step x0 j <? flast)%float = true) /\
                (position step x0 (List.length opcm) <? flast)%float = false) /\
          consumed = match List.length opcm with
                     | O => 0
                     | Datatypes.S j =>
                         wrap_int (wrap_int (wrap_uint64
                                     (uint64_of_float (position step x0 j) - cs)) + 1)
                     end) as [Hpos Hcons].
  { pose proof Hrun as Hrun'. unfold resampleChannel in Hrun'.
    destruct (len ipcm <=? 16) eqn:E.
    - inversion Hrun'; subst. split; reflexivity.
    - cbv zeta in Hrun'. apply resampleChannel_loop_positions in Hrun'.
      destruct Hrun' as (new & Hnew & Hbelow & Hstop & Hc). cbn [app] in Hnew. subst new.
      split; [split; assumption|exact Hc]. }
  split; [exact Hpos|]. split; [exact Hcons|]. split; [exact Hc0|].
  split; [exact Hcache|].
  split; [apply wrap_uint64_add_idem|]. split; [apply wrap_uint64_add_idem|].
  split; [intros; rewrite wrap_uint64_add_idem, wrap_uint64_small; lia|].
  split; [intros; rewrite wrap_uint64_add_idem, wrap_uint64_small; lia|].
  intros Hsmall.
  pose proof (resampleChannel_leaves_16 _ _ _ _ _ _ _ _ _ Hsmall Hrun) as Hle.
  destruct Hsmall as (Hisr & Hosr & Hws & Hcs & Hn).
  assert (2 ^ 53 < 2 ^ 63) as Hpow by reflexivity.
  assert (2 ^ 63 < 2 ^ 64) as Hpow' by reflexivity.
  assert (len cache' = len ipcm - consumed) as Hlen.
  { rewrite Hcache. destruct (consumed <? len ipcm) eqn:E.
    - apply Z.ltb_lt in E. unfold len in *. rewrite length_skipn. lia.
    - apply Z.ltb_ge in E. change (len (@nil Z)) with 0. lia. }
  split; [lia|].
  split; [rewrite wrap_uint64_add_idem; apply wrap_uint64_small; lia|].
  split; [lia|]. split.
  - intros Hk. rewrite Hk in Hcons. rewrite Hcache, Hcons.
    destruct (0 <? len ipcm) eqn:E; [reflexivity|].
    apply Z.ltb_ge in E. destruct ipcm; [reflexivity|].
    unfold len in E. simpl in E. lia.
  - assert (plus_sign (Prim2SF step) = true) as Hstep.
    { apply div_plus_sign; apply float64_of_Z_plus_sign; lia. }
    assert (16 < len ipcm ->
            wrap_uint64 (cs + wrap_uint64 (len ipcm - 16)) = cs + len ipcm - 16) as Hlast.
    { intros H16. rewrite wrap_uint64_add_idem. rewrite wrap_uint64_small; lia. }
    split.
    { intros q Hk H16 Hq. rewrite Hk in Hpos, Hcons.
      destruct (len ipcm <=? 16) eqn:E16; [apply Z.leb_le in E16; lia|].
      destruct Hpos as [_ Hstop]. cbn [position] in Hstop.
      unfold flast in Hstop. rewrite (Hlast H16) in Hstop.
      assert (plus_sign (Prim2SF x0) = true) as Hx0.
      { apply mul_plus_sign; [exact Hstep|apply float64_of_Z_plus_sign; lia]. }
      pose proof (not_below_float64_of_Z _ (cs + len ipcm - 16) q ltac:(lia)
                    Hx0 Hq Hstop) as Hge.
      lia. }
    intros t Hk Ht Hsm.
    destruct (List.length opcm) as [|j] eqn:Ek; [contradiction|].
    destruct (len ipcm <=? 16) eqn:E16; [discriminate|]. apply Z.leb_gt in E16.
    destruct Hpos as [Hbelow Hstop].
    specialize (Hlast E16).
    unfold flast in Hbelow, Hstop. rewrite Hlast in Hbelow, Hstop.
    specialize (Hbelow j ltac:(lia)). cbn [position] in Hstop.
    assert (plus_sign (Prim2SF (position step x0 j)) = true) as Hxf.
    { apply position_plus_sign; [exact Hstep|].
      apply mul_plus_sign; [exact Hstep|apply float64_of_Z_plus_sign; lia]. }
    destruct (below_float64_of_Z _ (cs + len ipcm - 16) ltac:(lia) Hxf Hbelow)
      as (a & Ha & Hrange).
    assert (uint64_of_float (position step x0 j) = a) as Hu.
    { unfold uint64_of_float. rewrite Ha. apply wrap_uint64_small. lia. }
    rewrite Hu in Hcons.
    rewrite wrap_int_of_uint64 in Hcons by lia. rewrite wrap_int_small in Hcons by lia.
    destruct (add_trunc_le _ step a t Hxf Hstep Ha Ht ltac:(lia)) as (q & Hq & Hqle).
    pose proof (not_below_float64_of_Z _ (cs + len ipcm - 16) q ltac:(lia)
                  (add_plus_sign _ _ Hxf Hstep) Hq Hstop) as Hge.
    lia.
Qed.

Lemma insert_left_eq (v : goResampler) (l : list Z) :
  insert_left v l = (lcache v ++ l, set_left v [] (lws v) (lcs v)).
Proof. destruct v as [c i o lc rc lw rw lcs' rcs']. destruct lc; reflexivity. Qed.

Lemma insert_right_eq (v : goResampler) (r : list Z) :
  insert_right v (Some r) = (Some (rcache v ++ r), set_right v [] (rws v) (rcs v)).
Proof. destruct v as [c i o lc rc lw rw lcs' rcs']. destruct rc; reflexivity. Qed.

Lemma resampleInitChannel_carried (pcm : list byte) (c ch : Z) (o : option (list Z)) :
  ch < c -> resampleInitChannel pcm c ch = Returns o -> exists l, o = Some l.
Proof.
  intros Hc. unfold resampleInitChannel.
  destruct (c <=? ch) eqn:E; [apply Z.leb_le in E; lia|].
  destruct (resampleInitChannel_loop _ _ _ _ _); simpl; try discriminate.
  intros H; inversion H; eauto.
Qed.

Lemma resampleInitChannel_absent (pcm : list byte) (c ch : Z) :
  c <= ch -> resampleInitChannel pcm c ch = Returns None.
Proof.
  intros Hc. unfold resampleInitChannel.
  destruct (c <=? ch) eqn:E; [reflexivity|apply Z.leb_gt in E; lia].
Qed.

(** The right channel, once its cache has been put in front. *)
Lemma Handle_right_step (fuel : nat) (v v' : goResampler) (ipcm : list Z)
    (o : option (list Z)) :
  rcache v = [] ->
  Handle_right fuel v (Some ipcm) = Returns (v', Ok o) ->
  channels v' = channels v /\ isr v' = isr v /\ osr v' = osr v /\
  lcache v' = lcache v /\ lws v' = lws v /\ lcs v' = lcs v /\
  exists opcm consumed,
    o = Some opcm /\
    channel_step (isr v) (osr v) ipcm (rcache v') opcm
      (rws v) (rws v') (rcs v) (rcs v') consumed.
Proof.
  intros Hnil. unfold Handle_right.
  destruct (resampleChannel fuel ipcm (isr v) (osr v) (rws v) (rcs v))
    as [[[opcm consumed] [e|]]| |] eqn:Erun; simpl; try discriminate.
  rewrite Hnil.
  destruct (keep_tail [] ipcm consumed) as [cache| |] eqn:Ekeep; simpl; try discriminate.
  intros H; inversion H; subst; simpl.
  repeat split. exists opcm, consumed. split; [reflexivity|].
  eapply channel_step_of_run; eassumption.
Qed.

(** Two bytes come out for each sample of the left channel, and two more
    when there is a right channel. *)
Lemma resampleMerge_loop_len (left : list Z) (right : option (list Z)) :
  forall (i : Z) (npcm out : list byte),
    resampleMerge_loop left right i npcm = Returns out ->
    len out = len npcm + (match right with Some _ => 4 | None => 2 end) * len left.
Proof.
  induction left as [|v left IH]; intros i npcm out; cbn [resampleMerge_loop].
  - intros H; inversion H; subst. change (len (@nil Z)) with 0. lia.
  - destruct right as [r|].
    + destruct (index r i) as [w| |]; cbn [bind]; try discriminate.
      intros H. apply IH in H. rewrite H, !len_app.
      unfold len. cbn [List.length]. lia.
    + intros H. apply IH in H. rewrite H, !len_app.
      unfold len. cbn [List.length]. lia.
Qed.

(** C6 (amended): after a successful [Handle] with [isr <> osr], every
    channel the buffer carries has gone through one [channel_step] on its
    old cache followed by its new samples.  Its written counter has grown,
    modulo [2^64], by the number of its samples in the output, and its
    consumed counter by the number of samples that left the front of the
    cache, so neither decreases unless it wraps.  Its cache, where
    [float64] is exact, holds all of up to sixteen samples and at least
    sixteen of more, hence sixteen or more and not fewer; it holds
    everything when the call wrote nothing (for more than sixteen samples
    that is at most sixteen more than the first position is ahead of the
    consumed counter), and at most [17 + t] samples when the call wrote
    something, [t] being the integer part of [isr / osr].  The rates and
    the channel count stay, and a channel the buffer does not carry is left
    alone. *)
Theorem Handle_cache_and_counters (fuel : nat) (v v' : goResampler)
    (pcm out : list byte) :
  1 <= channels v <= 2 ->
  isr v <> osr v ->
  Handle fuel v pcm = Returns (v', Ok out) ->
  exists (ipcmLeft opcmLeft : list Z) (consumedLeft : Z) (opcmRight : option (list Z)),
    resampleInitChannel pcm (channels v) 0 = Returns (Some ipcmLeft) /\
    channel_step (isr v) (osr v) (lcache v ++ ipcmLeft) (lcache v') opcmLeft
      (lws v) (lws v') (lcs v) (lcs v') consumedLeft /\
    resampleMerge opcmLeft opcmRight = Returns out /\
    len out = 2 * channels v * len opcmLeft /\
    channels v' = channels v /\ isr v' = isr v /\ osr v' = osr v /\
    match opcmRight with
    | Some opcmR =>
        channels v = 2 /\
        exists (ipcmRight : list Z) (consumedRight : Z),
          resampleInitChannel pcm (channels v) 1 = Returns (Some ipcmRight) /\
          channel_step (isr v) (osr v) (rcache v ++ ipcmRight) (rcache v') opcmR
            (rws v) (rws v') (rcs v) (rcs v') consumedRight
    | None =>
        channels v = 1 /\ rcache v' = rcache v /\ rws v' = rws v /\ rcs v' = rcs v
    end.
Proof.
  intros Hc Hsr. unfold Handle.
  rewrite (wrap_int_two_channels _ Hc).
  destruct (len pcm =? 0); [discriminate|].
  destruct (2 * channels v =? 0); [discriminate|].
  destruct (negb (Z.rem (len pcm) (2 * channels v) =? 0)); [discriminate|].
  destruct (isr v =? osr v) eqn:E3; [apply Z.eqb_eq in E3; contradiction|].
  destruct (Z.quot (Z.quot (len pcm) 2) (channels v) <? 4); [discriminate|].
  destruct (resampleInitChannel pcm (channels v) 0) as [left| |] eqn:EL;
    simpl; try discriminate.
  destruct (resampleInitChannel_carried pcm (channels v) 0 left ltac:(lia) EL) as [l ->].
  destruct (resampleInitChannel pcm (channels v) 1) as [right| |] eqn:ER;
    simpl; try discriminate.
  rewrite insert_left_eq.
  destruct right as [r|].
  - (* stereo *)
    assert (channels v = 2) as Hst.
    { destruct (Z.eq_dec (channels v) 2) as [|Hn]; [assumption|].
      rewrite (resampleInitChannel_absent pcm (channels v) 1 ltac:(lia)) in ER.
      discriminate. }
    destruct (negb (len l =? len r)); [discriminate|].
    rewrite insert_right_eq. simpl.
    destruct (resampleChannel fuel (lcache v ++ l) (isr v) (osr v) (lws v) (lcs v))
      as [[[opcm consumed] [e|]]| |] eqn:Erun; simpl; try discriminate.
    destruct (keep_tail [] (lcache v ++ l) consumed) as [cache| |] eqn:Ekeep;
      simpl; try discriminate.
    match goal with
    | |- context [Handle_right fuel ?w (Some ?i)] =>
        destruct (Handle_right fuel w (Some i)) as [[w' [o|e]]| |] eqn:ERight;
          simpl; try discriminate
    end.
    destruct (resampleMerge opcm o) as [npcm| |] eqn:EM; simpl; try discriminate.
    intros H; inversion H; subst.
    apply Handle_right_step in ERight; [|reflexivity].
    simpl in ERight.
    destruct ERight as (-> & -> & -> & -> & -> & -> & opcmR & cr & -> & Hstep).
    exists l, opcm, consumed, (Some opcmR).
    split; [reflexivity|].
    split; [eapply channel_step_of_run; eassumption|].
    split; [exact EM|].
    split.
    { unfold resampleMerge in EM. apply resampleMerge_loop_len in EM.
      rewrite EM, Hst. change (len (@nil byte)) with 0. lia. }
    repeat (split; [reflexivity|]).
    split; [assumption|]. exists r, cr. split; [reflexivity|exact Hstep].
  - (* mono *)
    assert (channels v = 1) as Hmono.
    { destruct (Z.eq_dec (channels v) 1) as [|Hn]; [assumption|].
      destruct (resampleInitChannel_carried pcm (channels v) 1 None ltac:(lia) ER).
      discriminate. }
    simpl.
    destruct (resampleChannel fuel (lcache v ++ l) (isr v) (osr v) (lws v) (lcs v))
      as [[[opcm consumed] [e|]]| |] eqn:Erun; simpl; try discriminate.
    destruct (keep_tail [] (lcache v ++ l) consumed) as [cache| |] eqn:Ekeep;
      simpl; try discriminate.
    destruct (resampleMerge opcm None) as [npcm| |] eqn:EM; simpl; try discriminate.
    intros H; inversion H; subst; simpl.
    exists l, opcm, consumed, None.
    split; [reflexivity|].
    split; [eapply channel_step_of_run; eassumption|].
    split; [exact EM|].
    split.
    { unfold resampleMerge in EM. apply resampleMerge_loop_len in EM.
      rewrite EM, Hmono. change (len (@nil byte)) with 0. lia. }
    repeat (split; [reflexivity|]).
    repeat split; assumption.
Qed.

Lemma Handle_cache_and_counters_witness :
  exists (ipcmLeft opcmLeft : list Z) (consumedLeft : Z) (opcmRight : option (list Z)),
    resampleInitChannel (ramp 20) (channels mono_16k_24k) 0 = Returns (Some ipcmLeft) /\
    channel_step (isr mono_16k_24k) (osr mono_16k_24k)
      (lcache mono_16k_24k ++ ipcmLeft) (lcache after_ramp) opcmLeft
      (lws mono_16k_24k) (lws after_ramp) (lcs mono_16k_24k) (lcs after_ramp)
      consumedLeft /\
    resampleMerge opcmLeft opcmRight = Returns ramp_output /\
    len ramp_output = 2 * channels mono_16k_24k * len opcmLeft /\
    channels after_ramp = channels mono_16k_24k /\
    isr after_ramp = isr mono_16k_24k /\ osr after_ramp = osr mono_16k_24k /\
    match opcmRight with
    | Some opcmR =>
        channels mono_16k_24k = 2 /\
        exists (ipcmRight : list Z) (consumedRight : Z),
          resampleInitChannel (ramp 20) (channels mono_16k_24k) 1
          = Returns (Some ipcmRight) /\
          channel_step (isr mono_16k_24k) (osr mono_16k_24k)
            (rcache mono_16k_24k ++ ipcmRight) (rcache after_ramp) opcmR
            (rws mono_16k_24k) (rws after_ramp) (rcs mono_16k_24k) (rcs after_ramp)
            consumedRight
    | None =>
        channels mono_16k_24k = 1 /\ rcache after_ramp = rcache mono_16k_24k /\
        rws after_ramp = rws mono_16k_24k /\ rcs after_ramp = rcs mono_16k_24k
    end.
Proof.
  apply (Handle_cache_and_counters 64 mono_16k_24k after_ramp (ramp 20) ramp_output).
  - simpl; lia.
  - simpl; lia.
  - vm_compute; reflexivity.
Defined.

(** C6, as the code has it: of twenty samples given to a fresh resampler
    from 16 kHz to 24 kHz four are consumed and sixteen are kept, so the
    cache holds sixteen samples and not fewer. *)
Lemma Handle_cache_holds_16 :
  isr mono_16k_24k <> osr mono_16k_24k /\
  Handle 64 mono_16k_24k (ramp 20) = Returns (after_ramp, Ok ramp_output) /\
  lcs after_ramp = 4 /\ lws after_ramp = 7 /\
  len (lcache after_ramp) = 16 /\
  ~ (len (lcache after_ramp) < 16).
Proof.
  split; [simpl; lia|]. split; [vm_compute; reflexivity|].
  repeat split. vm_compute. discriminate.
Qed.

(** Twenty samples, then four more, from 48 kHz to 16 kHz: the second call
    leaves seventeen samples in the cache. *)
Lemma Handle_cache_holds_17 :
  exists v1 out1 v2 out2,
    Handle 64 (mkResampler 1 48000 16000 [] [] 0 0 0 0) (ramp 20) = Returns (v1, Ok out1) /\
    Handle 64 v1 (ramp 4) = Returns (v2, Ok out2) /\
    len (lcache v2) = 17.
Proof.
  eexists _, _, _, _. split; [vm_compute; reflexivity|].
  split; [vm_compute; reflexivity|]. reflexivity.
Qed.

End ResamplerFacts.

(* ================================================================== *)
(** * The converter: results *)
(* ================================================================== *)

Module ConverterFacts.
Import audio GoFacts.

Section ParseFrames.
Variable Encoder : Type.
Variable NewEncoder : Z -> Z -> result Encoder.
Variable Encode : Encoder -> list Z -> Encoder * list byte * option string.
Variable S : Type.
Variable cb : list byte -> S -> outcome (S * option string).

(** The loop, started at the [k]-th chunk of a buffer of [k + m] whole
    chunks, delivers the remaining [m] chunks in order. *)
Lemma parseFrames_loop_delivers (chunk : Z) (buf : list Z) :
  0 < chunk -> len buf < 2 ^ 63 ->
  forall (m k fuel : nat) (enc : Encoder) (s : S),
    List.length buf = ((k + m) * Z.to_nat chunk)%nat ->
    (m < fuel)%nat ->
    parseFrames_loop Encoder Encode S cb fuel enc buf (Z.of_nat k * chunk) chunk s
    = deliver Encoder Encode S cb enc
        (map (fun j => firstn (Z.to_nat chunk) (skipn (j * Z.to_nat chunk) buf))
             (seq k m)) s.
Proof.
  intros Hchunk Hlen. induction m as [|m IH]; intros k fuel enc s Hbuf Hfuel.
  - destruct fuel as [|fuel]; [lia|]. simpl.
    destruct (Z.of_nat k * chunk <? len buf) eqn:E; [|reflexivity].
    apply Z.ltb_lt in E. unfold len in E. rewrite Hbuf in E. nia.
  - destruct fuel as [|fuel]; [lia|]. simpl.
    assert (len buf = (Z.of_nat k + Z.of_nat (Datatypes.S m)) * chunk) as Hb.
    { unfold len. rewrite Hbuf. nia. }
    destruct (Z.of_nat k * chunk <? len buf) eqn:E;
      [|apply Z.ltb_ge in E; nia].
    assert (Z.of_nat k * chunk + chunk = Z.of_nat (Datatypes.S k) * chunk) as Hnext by lia.
    rewrite wrap_int_small by nia.
    rewrite slice_in_range by nia.
    simpl.
    replace (Z.of_nat k * chunk + chunk - Z.of_nat k * chunk) with chunk by lia.
    replace (Z.to_nat (Z.of_nat k * chunk)) with (k * Z.to_nat chunk)%nat by nia.
    destruct (Encode enc (firstn (Z.to_nat chunk) (skipn (k * Z.to_nat chunk) buf)))
      as [[enc' frame] err].
    destruct (cb frame s) as [[s' e]| |]; simpl; try reflexivity.
    rewrite Hnext. apply IH; [rewrite Hbuf; lia|lia].
Qed.

Arguments parseFrames_loop : simpl never.
Arguments deliver : simpl never.
Arguments slice : simpl never.

Lemma chunks_of_prefix (buf : list Z) (chunk : Z) (n : nat) :
  0 < chunk ->
  map (fun j => firstn (Z.to_nat chunk)
                  (skipn (j * Z.to_nat chunk) (firstn (n * Z.to_nat chunk) buf)))
      (seq 0 n)
  = chunks_of buf chunk n.
Proof.
  intros Hchunk. unfold chunks_of. apply map_ext_in. intros j Hj.
  apply in_seq in Hj. rewrite skipn_firstn_comm, firstn_firstn.
  f_equal. nia.
Qed.

Lemma chunks_of_whole (buf : list Z) (chunk : Z) (n : nat) :
  0 < chunk -> (n * Z.to_nat chunk <= List.length buf)%nat ->
  Forall (fun pcm => len pcm = chunk) (chunks_of buf chunk n).
Proof.
  intros Hchunk Hn. unfold chunks_of. apply Forall_forall. intros pcm Hin.
  apply in_map_iff in Hin. destruct Hin as (j & <- & Hj). apply in_seq in Hj.
  unfold len. rewrite length_firstn, length_skipn. nia.
Qed.

(** The whole chunks of a buffer, put end to end, are its beginning. *)
Lemma chunks_of_concat (buf : list Z) (chunk : Z) (n : nat) :
  0 < chunk ->
  List.concat (chunks_of buf chunk n) = firstn (n * Z.to_nat chunk) buf.
Proof.
  intros Hchunk. unfold chunks_of. induction n as [|n IH]; [reflexivity|].
  rewrite seq_S, map_app, concat_app, IH. cbn [map List.concat plus].
  rewrite app_nil_r.
  replace (Datatypes.S n * Z.to_nat chunk)%nat with (n * Z.to_nat chunk + Z.to_nat chunk)%nat
    by lia.
  generalize (n * Z.to_nat chunk)%nat as a. generalize (Z.to_nat chunk) as b. clear.
  intros b a. revert buf. induction a as [|a IHa]; intros buf; [reflexivity|].
  destruct buf as [|x buf]; [cbn; rewrite firstn_nil; reflexivity|].
  cbn [plus firstn skipn app]. rewrite IHa. reflexivity.
Qed.

(** C5: with [chunk = DownDuration * DownSampleRate / 1000], which is
    [frame_duration * 24000 / 1000] in every converter that [NewConverter]
    makes, [parseFrames] encodes and delivers, in order, exactly
    [floor((L+D)/chunk)] frames, each from the next [chunk] consecutive
    samples of the leftover ([L] samples) followed by the gain-adjusted input
    ([D] samples), and stores the trailing [(L+D) mod chunk] samples, fewer
    than [chunk], in the [delta] field; of the converter only that field and
    the encoder change, so [chunk] is the same at the next call. *)
Theorem parseFrames_delivers_whole_chunks (c : Converter Encoder)
    (audioDelta : list byte) (s : S) :
  let input := gain (bytesToInt16 audioDelta) 8 in
  let buf := delta c ++ input in
  let chunk := DownDuration c * DownSampleRate c / 1000 in
  let n := Z.to_nat ((len (delta c) + len input) / chunk) in
  let leftover := skipn (n * Z.to_nat chunk) buf in
  0 <= DownDuration c * DownSampleRate c < 2 ^ 63 ->
  0 < chunk -> len buf < 2 ^ 63 ->
  parseFrames Encoder Encode S cb c audioDelta s
  = ('(enc, s') <- deliver Encoder Encode S cb (Encoder_ c) (chunks_of buf chunk n) s ;;
     Returns (mkConverter Encoder (SampleRate c) (DownSampleRate c) (Channels c)
                (FrameSize c) (FrameDuration c) (DownDuration c)
                (upReSampler c) (downReSampler c) leftover enc,
              s')) /\
  List.length (chunks_of buf chunk n) = n /\
  Forall (fun pcm => len pcm = chunk) (chunks_of buf chunk n) /\
  List.concat (chunks_of buf chunk n) ++ leftover = buf /\
  len leftover = (len (delta c) + len input) mod chunk /\
  len leftover < chunk /\
  (forall enc, deliver Encoder Encode S cb enc [] s = Returns (enc, s)) /\
  (forall enc pcm rest,
      deliver Encoder Encode S cb enc (pcm :: rest) s
      = ('(s', _) <- cb (snd (fst (Encode enc pcm))) s ;;
         deliver Encoder Encode S cb (fst (fst (Encode enc pcm))) rest s')) /\
  (forall sampleRate channels frameDuration frameSize c0,
      NewConverter Encoder NewEncoder sampleRate channels frameDuration frameSize
      = Returns c0 ->
      DownDuration c0 * DownSampleRate c0 / 1000 = frameDuration * 24000 / 1000 /\
      delta c0 = []).
Proof.
  intros input buf chunk n leftover Hprod Hchunk Hlen.
  assert (frame_chunk c = chunk) as Hfc.
  { unfold frame_chunk, chunk. rewrite wrap_int_small by lia.
    apply Z.quot_div_nonneg; lia. }
  assert (len buf = len (delta c) + len input) as Hbuf by apply len_app.
  rewrite <- Hbuf in *.
  pose proof (len_nonneg buf) as Hnn.
  pose proof (Z.div_mod (len buf) chunk ltac:(lia)) as Hdm.
  pose proof (Z.mod_pos_bound (len buf) chunk Hchunk) as Hmod.
  assert (Z.rem (len buf) chunk = len buf mod chunk) as Hrem
      by (apply Z.rem_mod_nonneg; lia).
  assert (0 <= len buf / chunk) as Hq by (apply Z.div_pos; lia).
  assert (Z.of_nat n = len buf / chunk) as Hn by (unfold n; rewrite <- Hbuf; lia).
  assert (Z.of_nat (n * Z.to_nat chunk) = len buf - len buf mod chunk) as Hpre by nia.
  assert (List.length (firstn (n * Z.to_nat chunk) buf) = ((0 + n) * Z.to_nat chunk)%nat)
    as Hfull.
  { rewrite length_firstn. unfold len in *. simpl. lia. }
  assert (len (firstn (n * Z.to_nat chunk) buf) < 2 ^ 63) as Hsmall.
  { unfold len in *. rewrite length_firstn. lia. }
  pose proof (parseFrames_loop_delivers chunk (firstn (n * Z.to_nat chunk) buf)
                Hchunk Hsmall n 0%nat
                (Datatypes.S (List.length (firstn (n * Z.to_nat chunk) buf)))
                (Encoder_ c) s Hfull) as Hloop.
  rewrite chunks_of_prefix in Hloop by exact Hchunk.
  simpl Z.of_nat in Hloop. change (0 * chunk) with 0 in Hloop.
  assert (n < Datatypes.S (List.length (firstn (n * Z.to_nat chunk) buf)))%nat as Hfuel.
  { rewrite Hfull. simpl. nia. }
  specialize (Hloop Hfuel).
  assert (len leftover = len buf mod chunk) as Hrestlen.
  { unfold leftover, len in *. rewrite length_skipn. lia. }
  split; [|split; [|split; [|split; [|split; [|split; [|split; [|split]]]]]]].
  - unfold parseFrames, set_delta. rewrite Hfc. fold input. fold buf.
    destruct (chunk =? 0) eqn:E0; [apply Z.eqb_eq in E0; lia|].
    rewrite Hrem.
    destruct (len buf mod chunk =? 0) eqn:Er; simpl.
    + (* the buffer is a whole number of chunks *)
      apply Z.eqb_eq in Er.
      assert (firstn (n * Z.to_nat chunk) buf = buf) as Hall.
      { apply firstn_all2. unfold len in *. lia. }
      rewrite Hall in Hloop. rewrite Hloop.
      assert (leftover = []) as ->.
      { apply skipn_all2. unfold len in *. lia. }
      reflexivity.
    + (* a remainder is cut off first *)
      apply Z.eqb_neq in Er.
      rewrite !slice_in_range by lia. simpl.
      replace (len buf - (len buf - len buf mod chunk)) with (len buf mod chunk) by lia.
      replace (len buf - len buf mod chunk - 0) with (len buf - len buf mod chunk) by lia.
      rewrite <- Hpre, Nat2Z.id.
      rewrite (firstn_all2 (n := Z.to_nat (len buf mod chunk)))
        by (unfold len in *; rewrite length_skipn; lia).
      rewrite Hloop. reflexivity.
  - unfold chunks_of. rewrite length_map, length_seq. reflexivity.
  - apply chunks_of_whole; [exact Hchunk|unfold len in *; lia].
  - rewrite chunks_of_concat by exact Hchunk. apply firstn_skipn.
  - exact Hrestlen.
  - rewrite Hrestlen. lia.
  - reflexivity.
  - intros enc pcm rest. unfold deliver at 1. fold (deliver Encoder Encode S cb).
    destruct (Encode enc pcm) as [[enc' frame] err]. reflexivity.
  - intros sampleRate channels frameDuration frameSize c0. unfold NewConverter.
    destruct (NewGoResampler channels sampleRate DefaultUpPcmSR); [|discriminate].
    destruct (NewGoResampler channels DefaultDownPcmSR DeviceOpusRate24k); [|discriminate].
    destruct (NewEncoder DeviceOpusRate24k 1); [|discriminate].
    intros H; inversion H; subst. split; reflexivity.
Qed.

End ParseFrames.

Lemma parseFrames_delivers_whole_chunks_witness :
  let c := example_converter in
  let input := gain (bytesToInt16 (repeat x01 1000)) 8 in
  let buf := delta c ++ input in
  let chunk := DownDuration c * DownSampleRate c / 1000 in
  let n := Z.to_nat ((len (delta c) + len input) / chunk) in
  let leftover := skipn (n * Z.to_nat chunk) buf in
  (chunk = 480 /\ n = 1%nat /\ len leftover = 120) /\
  parseFrames nat pcm_Encode (list (list byte)) log_frame c (repeat x01 1000) []
  = ('(enc, s') <- deliver nat pcm_Encode (list (list byte)) log_frame
                     (Encoder_ c) (chunks_of buf chunk n) [] ;;
     Returns (mkConverter nat (SampleRate c) (DownSampleRate c) (Channels c)
                (FrameSize c) (FrameDuration c) (DownDuration c)
                (upReSampler c) (downReSampler c) leftover enc,
              s')) /\
  List.length (chunks_of buf chunk n) = n /\
  Forall (fun pcm => len pcm = chunk) (chunks_of buf chunk n) /\
  List.concat (chunks_of buf chunk n) ++ leftover = buf /\
  len leftover = (len (delta c) + len input) mod chunk /\
  len leftover < chunk /\
  (forall enc, deliver nat pcm_Encode (list (list byte)) log_frame enc [] []
               = Returns (enc, [])) /\
  (forall enc pcm rest,
      deliver nat pcm_Encode (list (list byte)) log_frame enc (pcm :: rest) []
      = ('(s', _) <- log_frame (snd (fst (pcm_Encode enc pcm))) [] ;;
         deliver nat pcm_Encode (list (list byte)) log_frame
           (fst (fst (pcm_Encode enc pcm))) rest s')) /\
  (forall sampleRate channels frameDuration frameSize c0,
      NewConverter nat handler.toy_NewEncoder sampleRate channels frameDuration frameSize
      = Returns c0 ->
      DownDuration c0 * DownSampleRate c0 / 1000 = frameDuration * 24000 / 1000 /\
      delta c0 = []).
Proof.
  split; [vm_compute; repeat split|].
  apply (parseFrames_delivers_whole_chunks nat handler.toy_NewEncoder pcm_Encode
           (list (list byte)) log_frame example_converter (repeat x01 1000) []).
  - vm_compute; split; [discriminate|reflexivity].
  - vm_compute; reflexivity.
  - vm_compute; reflexivity.
Defined.

(** The same run, evaluated: 600 samples at 480 per frame give one frame and
    leave 120 samples. *)
Example parseFrames_example :
  match parseFrames nat pcm_Encode (list (list byte)) log_frame
          example_converter (repeat x01 1000) [] with
  | Returns (c', frames) =>
      frame_chunk example_converter = 480 /\ List.length frames = 1%nat /\
      Encoder_ c' = 1%nat /\ len (delta c') = 120
  | _ => False
  end.
Proof. vm_compute. repeat split. Qed.

End ConverterFacts.

(* ================================================================== *)
(** * The translating handler: results *)
(* ================================================================== *)

Module HandlerFacts.
Import audio handler GoFacts.

Section Translator.
Variable Encoder : Type.
Variable NewEncoder : Z -> Z -> result Encoder.
Variable Encode : Encoder -> list Z -> Encoder * list byte * option string.
Variable opus_decode : Z -> list byte -> result (list Z).
Variable b64encode : list byte -> string.
Variable b64decode : string -> result (list byte).
Variable SystemPrompt : string.
Variable Transport : string.
Variable MustToJSON : openai.Error -> string.
Variable json_peek_type : list byte -> result string.
Variable json_Unmarshal : openai.ServerEventStruct -> list byte -> result openai.ServerEvent.

Local Notation "'Handler'" := (XiaozhiHandler Encoder).
Local Notation "'dispatch'" :=
  (DispatchClientEvent Encoder NewEncoder opus_decode b64encode SystemPrompt).
Local Notation "'handle_upstream'" :=
  (handleRealtimeApiEvent Encoder Encode b64decode Transport MustToJSON
     json_peek_type json_Unmarshal).

(** ** Pacing *)

Lemma getWait_value (now : Z) (w : Handler) :
  0 <= firstDeltaTs w < 2 ^ 42 -> 0 <= now < 2 ^ 42 ->
  0 <= totalOpusDuration w < 2 ^ 42 ->
  getWait Encoder now w
  = if negb (firstDeltaTs w =? 0) && negb (totalOpusDuration w =? 0)
       && (totalOpusDuration w - (now - firstDeltaTs w) >? 0)
    then totalOpusDuration w - (now - firstDeltaTs w) else 0.
Proof.
  intros Hf Hn Ht. unfold getWait.
  destruct (firstDeltaTs w =? 0); [reflexivity|].
  destruct (totalOpusDuration w =? 0); [reflexivity|]. simpl.
  rewrite (wrap_int_small (now - firstDeltaTs w))
    by (change (2 ^ 63) with 9223372036854775808; change (2 ^ 42) with 4398046511104 in *; lia).
  rewrite wrap_int_small
    by (change (2 ^ 63) with 9223372036854775808; change (2 ^ 42) with 4398046511104 in *; lia).
  reflexivity.
Qed.

(** [handleResponseDone] with both clock readings at the same instant. *)
Lemma handleResponseDone_at (now : Z) (w : Handler) (event : openai.ServerEvent) :
  0 <= firstDeltaTs w < 2 ^ 42 -> 0 <= now < 2 ^ 42 ->
  0 <= totalOpusDuration w < 2 ^ 42 ->
  let wait := totalOpusDuration w - (now - firstDeltaTs w) in
  let stamped := negb (firstDeltaTs w =? 0) && negb (totalOpusDuration w =? 0) in
  handleResponseDone Encoder now now w event
  = Returns (resetFrameTs Encoder
               (if stamped && (wait >? 0) then Sleep Encoder w (wait * Millisecond) else w),
             Some (tts_event w xiaozhi.ServerTTSStateStop ""), None).
Proof.
  intros Hf Hn Ht wait stamped. unfold handleResponseDone.
  rewrite (getWait_value now w Hf Hn Ht). fold wait. fold stamped.
  destruct (stamped && (wait >? 0)) eqn:E.
  - apply andb_prop in E. destruct E as [_ E]. rewrite E.
    rewrite wrap_int_small; [reflexivity|].
    apply Z.gtb_lt in E. unfold wait in *. unfold Millisecond.
    change (2 ^ 63) with 9223372036854775808.
    change (2 ^ 42) with 4398046511104 in *. lia.
  - simpl. reflexivity.
Qed.


(** When the clock has moved on between the two readings, the sleep is the
    wait that is left at the second one. *)
Lemma handleResponseDone_later_reading (now1 now2 : Z) (w : Handler)
    (event : openai.ServerEvent) :
  0 <= firstDeltaTs w < 2 ^ 42 -> 0 <= now1 <= now2 -> now2 < 2 ^ 42 ->
  0 <= totalOpusDuration w < 2 ^ 42 ->
  let wait1 := totalOpusDuration w - (now1 - firstDeltaTs w) in
  let wait2 := totalOpusDuration w - (now2 - firstDeltaTs w) in
  let stamped := negb (firstDeltaTs w =? 0) && negb (totalOpusDuration w =? 0) in
  handleResponseDone Encoder now1 now2 w event
  = Returns (resetFrameTs Encoder
               (if stamped && (wait1 >? 0)
                then Sleep Encoder w (Z.max 0 wait2 * Millisecond) else w),
             Some (tts_event w xiaozhi.ServerTTSStateStop ""), None).
Proof.
  intros Hf Hn1 Hn2 Ht wait1 wait2 stamped. unfold handleResponseDone.
  rewrite (getWait_value now1 w Hf ltac:(lia) Ht), (getWait_value now2 w Hf ltac:(lia) Ht).
  fold wait1. fold wait2. fold stamped.
  destruct (stamped && (wait1 >? 0)) eqn:E.
  - apply andb_prop in E. destruct E as [Es E]. rewrite E, Es. simpl.
    apply Z.gtb_lt in E.
    assert ((if wait2 >? 0 then wait2 else 0) = Z.max 0 wait2) as ->.
    { destruct (wait2 >? 0) eqn:E2; [apply Z.gtb_lt in E2; lia|].
      rewrite Z.gtb_ltb in E2. apply Z.ltb_ge in E2. lia. }
    rewrite wrap_int_small; [reflexivity|].
    unfold wait1, wait2 in *. unfold Millisecond.
    change (2 ^ 63) with 9223372036854775808.
    change (2 ^ 42) with 4398046511104 in *. lia.
  - simpl. reflexivity.
Qed.

(** ** Device events *)

(** C2 (amended): an [abort] event falls to the [default] branch of the
    dispatch: nothing is written upstream, no error is returned and the
    handler is unchanged. *)
Theorem abort_is_ignored (fuel : nat) (eventID : string) (write_error : option string)
    (r : Handler) (b : xiaozhi.ClientEventBase) (reason : string) :
  dispatch fuel eventID write_error r (Some (xiaozhi.ClientEventAbort b reason))
  = Finished r None false.
Proof. reflexivity. Qed.

(** Before any hello the converter is nil, and a non-empty audio frame
    makes the dispatch panic on the nil pointer. *)
Lemma append_before_hello_panics (fuel : nat) (eventID : string)
    (write_error : option string) (r : Handler) (b : xiaozhi.ClientEventBase)
    (frame : list byte) :
  audioConverter r = None -> frame <> [] ->
  dispatch fuel eventID write_error r (Some (xiaozhi.ClientEventAppendBuffer b frame))
  = Recovered "invalid memory address or nil pointer dereference".
Proof.
  intros Hnil Hne.
  unfold DispatchClientEvent, DispatchClientEvent_body, handleInputAudioBufferAppend,
    OpusToPcmBase64, opus2pcm.
  rewrite Hnil.
  destruct frame as [|x frame]; [contradiction|].
  assert ((len (x :: frame) =? 0) = false) as ->.
  { apply Z.eqb_neq. unfold len. simpl. lia. }
  reflexivity.
Qed.

(** C3, as the code has it: a non-empty audio frame before any hello makes
    the dispatch panic on the nil converter; the deferred [recover] then
    makes it return [(nil, false)], so the round of the read loop writes no
    error event to the device.  The loop goes on: the connection stays
    open. *)
Theorem audio_before_hello_is_swallowed
    (UnmarshalClientEvent : list byte -> result xiaozhi.ClientEvent)
    (fuel : nat) (eventID : string) (write_error : option string) (r : Handler)
    (frame : list byte) :
  audioConverter r = None -> frame <> [] ->
  let d := dispatch fuel eventID write_error r
             (Some (xiaozhi.ClientEventAppendBuffer
                      (xiaozhi.mkClientEventBase xiaozhi.ClientEventTypeAppendBuffer
                         0 "" "" None)
                      frame)) in
  d = Recovered "invalid memory address or nil pointer dereference" /\
  returned d = Some (None, false) /\
  ReadLoop_round Encoder NewEncoder opus_decode b64encode SystemPrompt UnmarshalClientEvent
    fuel eventID write_error r (BinaryMessage frame)
  = ([], true, Some d).
Proof.
  intros Hnil Hne d.
  assert (d = Recovered "invalid memory address or nil pointer dereference") as Hd
    by (apply append_before_hello_panics; assumption).
  split; [exact Hd|]. split; [rewrite Hd; reflexivity|].
  unfold ReadLoop_round, xiaozhi.UnmarshalClientBinEvent. fold d. rewrite Hd. reflexivity.
Qed.

(** ** Upstream events *)

(** C4, as the code has it: on an open handler a completed transcription
    enqueues an [stt] event with the transcript and then an [llm] event whose
    emotion is "happy" and whose text is the decimal number 128522. *)
Theorem transcription_completed_enqueues (w : Handler) (b : openai.ServerEventBase)
    (itemID : string) (contentIndex : Z) (transcript : string) :
  closed w = false ->
  exists w',
    handleAsrDone Encoder w
      (openai.ConversationItemInputAudioTranscriptionCompletedEvent b itemID contentIndex
         transcript)
    = Returns (w', None, None) /\
    writeQueue w' = writeQueue w ++
      [xiaozhi.Event
         (xiaozhi.ServerEventSTT
            (xiaozhi.mkServerEventBase xiaozhi.ServerEventTypeSTT (GetSessionId w))
            transcript);
       xiaozhi.Event
         (xiaozhi.ServerEventLLM
            (xiaozhi.mkServerEventBase xiaozhi.ServerEventTypeLLM (GetSessionId w))
            "128522" "happy")].
Proof.
  intros Hopen. unfold handleAsrDone, WriteRespEvent. rewrite Hopen. simpl.
  rewrite Hopen. simpl. eexists. split; [reflexivity|]. simpl.
  rewrite <- app_assoc. reflexivity.
Qed.

End Translator.


(** C2, as the code has it: an abort on a fresh handler leaves the upstream
    connection untouched; no [response.cancel] is written. *)
Lemma abort_sends_no_response_cancel :
  exists r',
    DispatchClientEvent nat toy_NewEncoder toy_opus_decode toy_b64encode "prompt"
      8 "evt_1" None (NewXiaozhiHandler nat "model" "voice")
      (Some (xiaozhi.ClientEventAbort
               (xiaozhi.mkClientEventBase xiaozhi.ClientEventTypeAbort 0 "" "" None) "stop"))
    = Finished r' None false /\
    apiConn r' = [] /\
    ~ (exists b, In (openai.ResponseCancelEvent b) (apiConn r')).
Proof.
  eexists. split; [reflexivity|]. split; [reflexivity|].
  intros [b []].
Qed.

(** C3 at a first message of one byte on a fresh handler. *)
Lemma audio_before_hello_is_swallowed_witness :
  let d := DispatchClientEvent nat toy_NewEncoder toy_opus_decode toy_b64encode "prompt"
             8 "evt_1" None (NewXiaozhiHandler nat "model" "voice")
             (Some (xiaozhi.ClientEventAppendBuffer
                      (xiaozhi.mkClientEventBase xiaozhi.ClientEventTypeAppendBuffer
                         0 "" "" None)
                      [x01])) in
  d = Recovered "invalid memory address or nil pointer dereference" /\
  returned d = Some (None, false) /\
  ReadLoop_round nat toy_NewEncoder toy_opus_decode toy_b64encode "prompt"
    toy_UnmarshalClientEvent 8 "evt_1" None (NewXiaozhiHandler nat "model" "voice")
    (BinaryMessage [x01])
  = ([], true, Some d).
Proof.
  apply (audio_before_hello_is_swallowed nat toy_NewEncoder toy_opus_decode toy_b64encode
           "prompt" toy_UnmarshalClientEvent 8 "evt_1" None
           (NewXiaozhiHandler nat "model" "voice") [x01]).
  - reflexivity.
  - discriminate.
Defined.

(** C4 at the transcript "hi": the text of the [llm] event is six decimal
    digits, not an emoji. *)
Lemma transcription_completed_enqueues_witness :
  exists w',
    handleAsrDone nat (NewXiaozhiHandler nat "model" "voice")
      (openai.ConversationItemInputAudioTranscriptionCompletedEvent
         (openai.mkServerEventBase "evt_1"
            openai.ServerEventTypeConversationItemInputAudioTranscriptionCompleted)
         "item_1" 0 "hi")
    = Returns (w', None, None) /\
    writeQueue w' =
      [xiaozhi.Event
         (xiaozhi.ServerEventSTT
            (xiaozhi.mkServerEventBase xiaozhi.ServerEventTypeSTT "") "hi");
       xiaozhi.Event
         (xiaozhi.ServerEventLLM
            (xiaozhi.mkServerEventBase xiaozhi.ServerEventTypeLLM "") "128522" "happy")].
Proof.
  apply (transcription_completed_enqueues nat (NewXiaozhiHandler nat "model" "voice")).
  reflexivity.
Defined.

Lemma llm_text_is_decimal_digits :
  Itoa smiling_face = "128522" /\
  forallb (fun c => (48 <=? Z.of_nat (nat_of_ascii c)) && (Z.of_nat (nat_of_ascii c) <=? 57))
    (list_ascii_of_string (Itoa smiling_face)) = true.
Proof. split; reflexivity. Qed.

End HandlerFacts.

(* ================================================================== *)
(** * The upstream codec: results *)
(* ================================================================== *)

Module CodecFacts.
Import openai GoFacts.

(** C9, as the code has it: [MarshalServerEvent] stamps every struct type
    with a type tag, and the [switch] of [UnmarshalServerEvent] finds the
    struct type again for every tag but [response.cancelled], which falls to
    its [default] branch. *)
Theorem unmarshal_misses_response_cancelled :
  marshal_type TResponseCancelledEvent = "response.cancelled" /\
  unmarshal_struct (marshal_type TResponseCancelledEvent) = None /\
  forall t, t <> TResponseCancelledEvent -> unmarshal_struct (marshal_type t) = Some t.
Proof.
  split; [reflexivity|]. split; [reflexivity|].
  intros t Ht. destruct t; try reflexivity. contradiction.
Qed.

(** Whatever the JSON library, as long as it reads back the type tag that
    was stamped: a marshalled [response.cancelled] event is refused. *)
Lemma response_cancelled_does_not_round_trip
    (json_Marshal : ServerEvent -> result (list byte))
    (json_peek_type : list byte -> result string)
    (json_Unmarshal : ServerEventStruct -> list byte -> result ServerEvent)
    (fresh : string) (b : ServerEventBase) (data : list byte) :
  snd (MarshalServerEvent json_Marshal fresh (ResponseCancelledEvent b)) = Ok data ->
  json_peek_type data
  = Ok (ServerEventType (fst (MarshalServerEvent json_Marshal fresh (ResponseCancelledEvent b)))) ->
  UnmarshalServerEvent json_peek_type json_Unmarshal data
  = Err "unknown server event type: response.cancelled".
Proof.
  intros _ Hpeek. unfold UnmarshalServerEvent. rewrite Hpeek. reflexivity.
Qed.

(** ** [ServerToolChoice.UnmarshalJSON] *)

(** C10, as the code has it: [json.Unmarshal] of [null] into a struct
    changes nothing and returns no error, so the input is not stored in the
    [String] field. *)
Lemma UnmarshalJSON_null_is_not_stored :
  let m := mkServerToolChoice "" (mkToolChoice "" (mkToolFunction "")) in
  UnmarshalJSON m null (Function_ m, None) = Returns m /\
  String_ m <> string_of_list_byte null.
Proof. split; [reflexivity|discriminate]. Qed.

(** The lone double quote: the decoder refuses it, the leading quote is
    cut, and the test of the last byte of what is left is out of range. *)
Lemma UnmarshalJSON_lone_quote_panics :
  UnmarshalJSON (mkServerToolChoice "" (mkToolChoice "" (mkToolFunction ""))) [quote]
    (mkToolChoice "" (mkToolFunction ""), Some "unexpected end of JSON input")
  = Panics "index out of range".
Proof. reflexivity. Qed.

(** Cutting a trailing quote, as the code and as [strip_quotes] do it. *)
Lemma trailing_quote {B : Type} (data : list byte) (k : list byte -> outcome B) :
  data <> [] ->
  (dl <- index data (len data - 1) ;;
   d <- (if Byte.eqb dl quote then slice data 0 (len data - 1) else Returns data) ;;
   k d)
  = k (match rev data with
       | b :: rest => if Byte.eqb b quote then rev rest else data
       | [] => data
       end).
Proof.
  intros Hne. destruct (exists_last Hne) as (l & a & ->).
  rewrite index_last. cbn [bind]. rewrite rev_app_distr. simpl rev. cbn [app].
  destruct (Byte.eqb a quote); [|reflexivity].
  rewrite slice_init, rev_involutive. reflexivity.
Qed.

(** C10 (amended): on every non-empty input other than the lone double
    quote, [UnmarshalJSON] returns nil.  When [json.Unmarshal] into the
    [Function] field succeeds, what it decoded is the [Function] field and
    the [String] field is as before; when it fails, the input with at most
    one leading and one trailing double quote removed is the [String] field
    and [Function] is the zero value. *)
Theorem UnmarshalJSON_stores (m : ServerToolChoice) (data : list byte)
    (decoded : ToolChoice * option string) :
  data <> [] -> data <> [quote] ->
  UnmarshalJSON m data decoded
  = Returns (match snd decoded with
             | None => mkServerToolChoice (String_ m) (fst decoded)
             | Some _ =>
                 mkServerToolChoice (string_of_list_byte (strip_quotes data))
                   (mkToolChoice "" (mkToolFunction ""))
             end).
Proof.
  intros Hne Hq. destruct decoded as [f [e|]]; [|reflexivity].
  unfold UnmarshalJSON, strip_quotes. simpl snd.
  destruct data as [|b rest]; [contradiction|].
  change (index (b :: rest) 0) with (Returns b). cbn [bind].
  destruct (Byte.eqb b quote) eqn:Eb.
  - rewrite slice_tail. cbn [bind].
    assert (rest <> []) as Hrest.
    { intros ->. apply Hq. f_equal. apply Byte.byte_dec_bl. exact Eb. }
    rewrite (trailing_quote rest _ Hrest). reflexivity.
  - cbn [bind]. rewrite (trailing_quote (b :: rest) _ Hne). reflexivity.
Qed.

Lemma UnmarshalJSON_stores_witness :
  UnmarshalJSON (mkServerToolChoice "" (mkToolChoice "" (mkToolFunction "")))
    [quote; x61; x75; x74; x6f; quote]
    (mkToolChoice "" (mkToolFunction ""), Some "json: cannot unmarshal string")
  = Returns (mkServerToolChoice "auto" (mkToolChoice "" (mkToolFunction ""))).
Proof.
  apply (UnmarshalJSON_stores (mkServerToolChoice "" (mkToolChoice "" (mkToolFunction "")))
           [quote; x61; x75; x74; x6f; quote]
           (mkToolChoice "" (mkToolFunction ""), Some "json: cannot unmarshal string"));
    discriminate.
Defined.

End CodecFacts.
